(** * AskUner question answering: a shallow embedding of [askuenr/views.py]

    The development follows the Python source function by function.

    Text.  A Python [str] is modelled as a Rocq [string]; the model is
    exact on ASCII text.  Characters with code 128 and above are kept as
    uncased, non-blank, non-word bytes.

    Documents.  The three knowledge documents and the reply of the
    generation service are values produced by [json.load]/[json.loads];
    they are modelled by the type [json] together with the dynamic
    behaviour of the Python operations applied to them ([.get], [in],
    iteration, slicing, [len], truth value, formatting).  An operation
    applied to a value of the wrong shape raises, which is modelled in the
    error monad [res].

    Effects.  The conversation table is a list of rows threaded through
    [post]; the file system, the HTTP exchange with the generation service
    and the fresh session identifier are inputs gathered in [world].  The
    read of the session history, which stands before the [try] statement,
    can raise in [post_call]; [post] is the method when that read returns.

    Grades.  [AcademicRecord.save] of [askuenr/models/main.py] and the two
    commands that seed the grade bands are modelled over a table of bands.
    What the database does is gathered in [main.database]: the row it
    returns first among bands of equal upper bound, the scores its query
    takes and the rows its table takes are left open; the three digits of
    the column [grade_point] are checked as the column declares them. *)

From Stdlib Require Import String Ascii List ZArith Lia Bool Arith PeanoNat.
From Stdlib Require Import DecimalString.
Import ListNotations.
Open Scope list_scope.
Open Scope string_scope.
Open Scope nat_scope.
Set Warnings "-register-all".

(* ================================================================== *)
(** ** Python text primitives *)
(* ================================================================== *)

Module PyText.

Definition code (c : ascii) : nat := nat_of_ascii c.

Definition in_range (lo hi : nat) (c : ascii) : bool :=
  (lo <=? code c) && (code c <=? hi).

Definition is_upper (c : ascii) : bool := in_range 65 90 c.
Definition is_lower (c : ascii) : bool := in_range 97 122 c.
Definition is_alpha (c : ascii) : bool := is_upper c || is_lower c.
Definition is_digit (c : ascii) : bool := in_range 48 57 c.

(** [\w]: letters, digits and the underscore. *)
Definition is_word (c : ascii) : bool :=
  is_alpha c || is_digit c || (code c =? 95).

(** [str.isspace] and [\s]: TAB, LF, VT, FF, CR, FS, GS, RS, US, SPACE. *)
Definition is_space (c : ascii) : bool :=
  in_range 9 13 c || in_range 28 31 c || (code c =? 32).

Definition lower_char (c : ascii) : ascii :=
  if is_upper c then ascii_of_nat (code c + 32) else c.

Definition upper_char (c : ascii) : ascii :=
  if is_lower c then ascii_of_nat (code c - 32) else c.

Fixpoint map_chars (f : ascii -> ascii) (s : string) : string :=
  match s with
  | EmptyString => EmptyString
  | String c s' => String (f c) (map_chars f s')
  end.

(** [s.lower()] *)
Definition lower (s : string) : string := map_chars lower_char s.

(** [s.title()]: a cased character is upper-cased when the previous
    character is not cased, lower-cased otherwise. *)
Fixpoint title_from (prev_cased : bool) (s : string) : string :=
  match s with
  | EmptyString => EmptyString
  | String c s' =>
      String (if prev_cased then lower_char c else upper_char c)
             (title_from (is_alpha c) s')
  end.

Definition title (s : string) : string := title_from false s.

(** [needle in hay] on two strings. *)
Fixpoint contains (needle hay : string) : bool :=
  if prefix needle hay then true
  else match hay with
       | EmptyString => false
       | String _ hay' => contains needle hay'
       end.

(** [s[:n]] *)
Fixpoint take (n : nat) (s : string) : string :=
  match n, s with
  | S n', String c s' => String c (take n' s')
  | _, _ => EmptyString
  end.

Fixpoint lstrip (s : string) : string :=
  match s with
  | String c s' => if is_space c then lstrip s' else s
  | EmptyString => EmptyString
  end.

Fixpoint rstrip (s : string) : string :=
  match s with
  | EmptyString => EmptyString
  | String c s' =>
      match rstrip s' with
      | EmptyString => if is_space c then EmptyString else String c EmptyString
      | r => String c r
      end
  end.

(** [s.strip()] *)
Definition strip (s : string) : string := rstrip (lstrip s).

(** [s.replace('_', ' ')] *)
Definition replace_underscore (s : string) : string :=
  map_chars (fun c => if (code c =? 95) then " "%char else c) s.

(** [sep.join(parts)] on a list of strings. *)
Definition join (sep : string) (parts : list string) : string :=
  String.concat sep parts.

(** The characters of a string, as one-character strings (iteration over
    a [str]). *)
Fixpoint chars (s : string) : list string :=
  match s with
  | EmptyString => []
  | String c s' => String c EmptyString :: chars s'
  end.

(** [str(n)] for an integer. *)
Definition str_of_Z (z : Z) : string := NilZero.string_of_int (Z.to_int z).

Definition str_of_nat (n : nat) : string := str_of_Z (Z.of_nat n).

End PyText.

(* ================================================================== *)
(** ** A backtracking matcher for the regular expressions of the source *)
(* ================================================================== *)

Module Regex.
Import PyText.

(** Character classes as they are written in the patterns: a literal
    character, a range such as [[a-z]], and [\s]. *)
Inductive cls : Type :=
  | CChar (a : ascii)
  | CRange (lo hi : ascii)
  | CSpace.

Definition cls_base (cl : cls) (c : ascii) : bool :=
  match cl with
  | CChar a => Ascii.eqb a c
  | CRange lo hi => in_range (code lo) (code hi) c
  | CSpace => is_space c
  end.

(** With [re.IGNORECASE] a character also matches when one of its case
    variants is in the class. *)
Definition cls_match (ignorecase : bool) (cl : cls) (c : ascii) : bool :=
  cls_base cl c ||
  (ignorecase && (cls_base cl (lower_char c) || cls_base cl (upper_char c))).

(** The fragment of Python's [re] syntax that [views.py] uses: classes,
    concatenation, ordered alternation, the greedy [+] on a class, the
    word boundary and capturing groups.  [x?] is [Alt x Eps] and
    [x{3,}] is [x x x+]. *)
Inductive regex : Type :=
  | Eps
  | Chr (cl : cls)
  | Seq (r1 r2 : regex)
  | Alt (r1 r2 : regex)
  | Plus (cl : cls)
  | Boundary
  | Group (r : regex).

(** Matching position: the character before the position (for [\b]), the
    text still to read and the groups closed so far, in closing order. *)
Record mstate : Type := MState {
  m_prev : option ascii;
  m_rest : string;
  m_caps : list string
}.

Definition word_before (st : mstate) : bool :=
  match m_prev st with Some c => is_word c | None => false end.

Definition word_after (st : mstate) : bool :=
  match m_rest st with String c _ => is_word c | EmptyString => false end.

Section Matcher.
Context {R : Type}.
Variable ignorecase : bool.

(** Greedy [cl+]: read one character of the class, then first try to
    read more, and only then hand over to the continuation. *)
Fixpoint plus_loop (cl : cls) (k : mstate -> option R)
    (caps : list string) (s : string) : option R :=
  match s with
  | String c s' =>
      if cls_match ignorecase cl c then
        match plus_loop cl k caps s' with
        | Some r => Some r
        | None => k (MState (Some c) s' caps)
        end
      else None
  | EmptyString => None
  end.

(** Continuation-passing backtracking search: the first alternative
    that lets the whole rest of the pattern succeed is taken. *)
Fixpoint exec (r : regex) (st : mstate) (k : mstate -> option R)
    : option R :=
  match r with
  | Eps => k st
  | Chr cl =>
      match m_rest st with
      | String c s' =>
          if cls_match ignorecase cl c
          then k (MState (Some c) s' (m_caps st))
          else None
      | EmptyString => None
      end
  | Seq r1 r2 => exec r1 st (fun st1 => exec r2 st1 k)
  | Alt r1 r2 =>
      match exec r1 st k with
      | Some x => Some x
      | None => exec r2 st k
      end
  | Plus cl => plus_loop cl k (m_caps st) (m_rest st)
  | Boundary =>
      if xorb (word_before st) (word_after st) then k st else None
  | Group r1 =>
      exec r1 st (fun st1 =>
        let n := String.length (m_rest st) - String.length (m_rest st1) in
        k (MState (m_prev st1) (m_rest st1)
             (m_caps st1 ++ [take n (m_rest st)])))
  end.
End Matcher.

(** One element of the list [re.findall] returns: the whole match when
    the pattern has no group, the group when it has one, a tuple of the
    groups when it has several. *)
Inductive fmatch : Type :=
  | MStr (s : string)
  | MTuple (groups : list string).

(** A match attempt at one position: the element for [findall] and the
    number of characters consumed. *)
Definition match_here (ignorecase : bool) (r : regex)
    (prev : option ascii) (s : string) : option (fmatch * nat) :=
  exec ignorecase r (MState prev s [])
    (fun st =>
       let n := String.length s - String.length (m_rest st) in
       Some (match m_caps st with
             | [] => MStr (take n s)
             | [g] => MStr g
             | gs => MTuple gs
             end, n)).

(** [re.findall]: leftmost matches; scanning resumes where the previous
    match ended ([skip] counts the characters of it still to pass). *)
Fixpoint findall_from (ignorecase : bool) (r : regex)
    (prev : option ascii) (s : string) (skip : nat) : list fmatch :=
  match s with
  | EmptyString =>
      match skip with
      | O => match match_here ignorecase r prev s with
             | Some (m, _) => [m]
             | None => []
             end
      | S _ => []
      end
  | String c s' =>
      match skip with
      | S k => findall_from ignorecase r (Some c) s' k
      | O =>
          match match_here ignorecase r prev s with
          | Some (m, n) => m :: findall_from ignorecase r (Some c) s' (n - 1)
          | None => findall_from ignorecase r (Some c) s' 0
          end
      end
  end.

Definition findall (r : regex) (s : string) (ignorecase : bool)
    : list fmatch :=
  findall_from ignorecase r None s 0.

(** Pattern builders. *)
Fixpoint lit (s : string) : regex :=
  match s with
  | EmptyString => Eps
  | String a EmptyString => Chr (CChar a)
  | String a s' => Seq (Chr (CChar a)) (lit s')
  end.

Definition opt (r : regex) : regex := Alt r Eps.

Fixpoint alts (r : regex) (rs : list regex) : regex :=
  match rs with
  | [] => r
  | r' :: rs' => Alt r (alts r' rs')
  end.

Fixpoint seqs (rs : list regex) : regex :=
  match rs with
  | [] => Eps
  | [r] => r
  | r :: rs' => Seq r (seqs rs')
  end.

Definition lowercase_letter : cls := CRange "a" "z".
Definition uppercase_letter : cls := CRange "A" "Z".

End Regex.

(* ================================================================== *)
(** ** Exceptions and loaded JSON values *)
(* ================================================================== *)

Module Py.
Import PyText.

(** The exception classes the modelled code can meet; all of them derive
    from [Exception]. *)
Inductive exn : Type :=
  | AttributeError
  | TypeError
  | KeyError
  | IndexError
  | OSError
  | JSONDecodeError
  | ClientError
  | DataError
  | IntegrityError
  | OperationalError
  | ValueError
  | OverflowError
  | InvalidOperation.

(** A computation that returns or raises. *)
Inductive res (A : Type) : Type :=
  | Ok (a : A)
  | Raise (e : exn).

Arguments Ok {A} a.
Arguments Raise {A} e.

Definition bind {A B : Type} (m : res A) (f : A -> res B) : res B :=
  match m with
  | Ok a => f a
  | Raise e => Raise e
  end.

(** [try: m except Exception: handler] *)
Definition try_except {A : Type} (m : res A) (handler : exn -> A) : A :=
  match m with
  | Ok a => a
  | Raise e => handler e
  end.

Declare Scope py_scope.
Delimit Scope py_scope with py.
Notation "x <- m ;; k" := (bind m (fun x => k))
  (at level 61, m at next level, right associativity) : py_scope.
Open Scope py_scope.

(** What [json.load] builds: [None], [bool], [int], [float], [str],
    [list] and [dict] with string keys.  A float is kept as the text
    [str()] prints for it and whether it is non-zero, which is all the
    code observes of a number.  A dict is the list of its items in
    insertion order; keys are looked up from the front. *)
Inductive json : Type :=
  | JNull
  | JBool (b : bool)
  | JInt (z : Z)
  | JFloat (shown : string) (nonzero : bool)
  | JStr (s : string)
  | JArr (items : list json)
  | JObj (fields : list (string * json)).

(** Truth value of a Python object. *)
Definition truthy (v : json) : bool :=
  match v with
  | JNull => false
  | JBool b => b
  | JInt z => negb (Z.eqb z 0)
  | JFloat _ nz => nz
  | JStr s => negb (String.eqb s "")
  | JArr l => match l with [] => false | _ => true end
  | JObj f => match f with [] => false | _ => true end
  end.

(** [a or b] *)
Definition py_or (a b : json) : json := if truthy a then a else b.

Fixpoint lookup (k : string) (fields : list (string * json)) : option json :=
  match fields with
  | [] => None
  | (k', v) :: rest => if String.eqb k k' then Some v else lookup k rest
  end.

(** [d.get(k, default)]; only a dict has the method. *)
Definition get_or (d : json) (k : string) (default : json) : res json :=
  match d with
  | JObj f => Ok (match lookup k f with Some v => v | None => default end)
  | _ => Raise AttributeError
  end.

(** [d.get(k)] *)
Definition get (d : json) (k : string) : res json := get_or d k JNull.

(** [d[k]] for a string key. *)
Definition getitem (d : json) (k : string) : res json :=
  match d with
  | JObj f => match lookup k f with Some v => Ok v | None => Raise KeyError end
  | _ => Raise TypeError
  end.

(** [x[0]] *)
Definition getitem0 (x : json) : res json :=
  match x with
  | JArr (v :: _) => Ok v
  | JArr [] => Raise IndexError
  | JStr (String c _) => Ok (JStr (String c EmptyString))
  | JStr EmptyString => Raise IndexError
  | JObj _ => Raise KeyError
  | _ => Raise TypeError
  end.

Definition is_str (s : string) (v : json) : bool :=
  match v with
  | JStr s' => String.eqb s s'
  | _ => false
  end.

(** [k in x] for a string [k]: key of a dict, element of a list,
    substring of a string. *)
Definition py_in (k : string) (x : json) : res bool :=
  match x with
  | JObj f => Ok (match lookup k f with Some _ => true | None => false end)
  | JArr l => Ok (existsb (is_str k) l)
  | JStr s => Ok (contains k s)
  | _ => Raise TypeError
  end.

(** The elements a [for] loop visits. *)
Definition iter (x : json) : res (list json) :=
  match x with
  | JArr l => Ok l
  | JStr s => Ok (map JStr (chars s))
  | JObj f => Ok (map (fun kv => JStr (fst kv)) f)
  | _ => Raise TypeError
  end.

(** [len(x)] *)
Definition len (x : json) : res nat :=
  match x with
  | JArr l => Ok (List.length l)
  | JStr s => Ok (String.length s)
  | JObj f => Ok (List.length f)
  | _ => Raise TypeError
  end.

(** [x[:n]] *)
Definition slice_to (n : nat) (x : json) : res json :=
  match x with
  | JArr l => Ok (JArr (firstn n l))
  | JStr s => Ok (JStr (take n s))
  | _ => Raise TypeError
  end.

(** [x.lower()] *)
Definition lower_of (x : json) : res string :=
  match x with
  | JStr s => Ok (lower s)
  | _ => Raise AttributeError
  end.

(** [x.strip()] *)
Definition strip_of (x : json) : res string :=
  match x with
  | JStr s => Ok (strip s)
  | _ => Raise AttributeError
  end.

(** [x + s] for a string [s]. *)
Definition add_str (x : json) (s : string) : res string :=
  match x with
  | JStr s' => Ok (s' ++ s)%string
  | _ => Raise TypeError
  end.

Fixpoint all_str (l : list json) : res (list string) :=
  match l with
  | [] => Ok []
  | JStr s :: rest => tl <- all_str rest ;; Ok (s :: tl)
  | _ :: _ => Raise TypeError
  end.

(** [sep.join(x)]: every element visited must be a string. *)
Definition join_of (sep : string) (x : json) : res string :=
  elems <- iter x ;;
  parts <- all_str elems ;;
  Ok (join sep parts).

(** [d.items()] *)
Definition items (d : json) : res (list (string * json)) :=
  match d with
  | JObj f => Ok f
  | _ => Raise AttributeError
  end.

(** [d.keys()] *)
Definition keys (d : json) : res (list string) :=
  match d with
  | JObj f => Ok (map fst f)
  | _ => Raise AttributeError
  end.

(** [repr] of a string: single quotes unless the text has a single quote
    and no double quote; backslash, the quote and control characters are
    escaped. *)
Definition quote1 : ascii := ascii_of_nat 39.
Definition quote2 : ascii := ascii_of_nat 34.
Definition backslash : ascii := ascii_of_nat 92.

Definition has_char (a : ascii) (s : string) : bool :=
  contains (String a EmptyString) s.

Definition hex_digit (n : nat) : ascii :=
  ascii_of_nat (if n <? 10 then 48 + n else 87 + n).

Definition escape_char (q c : ascii) : string :=
  let esc (x : ascii) := String backslash (String x EmptyString) in
  if Ascii.eqb c backslash then esc backslash
  else if Ascii.eqb c q then esc q
  else if code c =? 9 then esc "t"%char
  else if code c =? 10 then esc "n"%char
  else if code c =? 13 then esc "r"%char
  else if (code c <? 32) || (code c =? 127) then
    String backslash
      (String "x" (String (hex_digit (code c / 16))
         (String (hex_digit (code c mod 16)) EmptyString)))
  else String c EmptyString.

Fixpoint escape (q : ascii) (s : string) : string :=
  match s with
  | EmptyString => EmptyString
  | String c s' => (escape_char q c ++ escape q s')%string
  end.

Definition repr_str (s : string) : string :=
  let q := if has_char quote1 s && negb (has_char quote2 s)
           then quote2 else quote1 in
  String q (escape q s ++ String q EmptyString)%string.

(** [repr(x)] *)
Fixpoint repr (x : json) : string :=
  match x with
  | JNull => "None"
  | JBool true => "True"
  | JBool false => "False"
  | JInt z => str_of_Z z
  | JFloat shown _ => shown
  | JStr s => repr_str s
  | JArr l => ("[" ++ join ", " (map repr l) ++ "]")%string
  | JObj f =>
      ("{" ++ join ", "
         (map (fun kv => match kv with
                         | (k, v) => (repr_str k ++ ": " ++ repr v)%string
                         end) f) ++ "}")%string
  end.

(** [str(x)], the text an f-string field prints. *)
Definition str (x : json) : string :=
  match x with
  | JStr s => s
  | _ => repr x
  end.

End Py.

(* ================================================================== *)
(** ** [askuenr/views.py]: class [AskUnerAPIView] *)
(* ================================================================== *)

Import PyText Regex Py.

Definition MIN_RESPONSE_LENGTH : nat := 50.
Definition MAX_RESPONSE_LENGTH : nat := 1500.

Definition STAFF_JSON_PATH : string := "data/staffs.json".
Definition GUIDE_JSON_PATH : string :=
  "data/uenr_academic_and_student_guide.json".
Definition IT_DEPT_JSON_PATH : string := "data/it_department_info.json".

(** *** Question understanding *)

(** The dictionary [analysis] built by [_understand_question]; its keys
    are fixed, so it is a record.  [None] is Python's [None]. *)
Record analysis : Type := Analysis {
  type : string;
  target_person : option string;
  target_department : option string;
  target_program : option string;
  target_topic : option string;
  keywords : list string;
  is_uenr_related : bool
}.

(** Truth value of an optional string ([None] and [''] are false). *)
Definition truthy_opt (o : option string) : bool :=
  match o with
  | Some s => negb (String.eqb s "")
  | None => false
  end.

(** [any(word in text for word in words)] *)
Definition any_in (words : list string) (text : string) : bool :=
  existsb (fun word => contains word text) words.

(** [x in keywords] for a list of strings. *)
Definition mem (x : string) (l : list string) : bool :=
  existsb (String.eqb x) l.

(** [r'\b[a-z]{3,}\b'] *)
Definition keyword_pattern : regex :=
  seqs [Boundary; Chr lowercase_letter; Chr lowercase_letter;
        Plus lowercase_letter; Boundary].

(** [r"(prof\.?|dr\.?|mr\.?|mrs\.?|ms\.?)\s+([a-z]+)\s+([a-z]+)"] *)
Definition title_name_pattern : regex :=
  let dot := Chr (CChar ".") in
  seqs [Group (alts (Seq (lit "prof") (opt dot))
                 [Seq (lit "dr") (opt dot);
                  Seq (lit "mr") (opt dot);
                  Seq (lit "mrs") (opt dot);
                  Seq (lit "ms") (opt dot)]);
        Plus CSpace;
        Group (Plus lowercase_letter);
        Plus CSpace;
        Group (Plus lowercase_letter)].

(** [r"([A-Z][a-z]+)\s+([A-Z][a-z]+)"] *)
Definition two_names_pattern : regex :=
  seqs [Group (Seq (Chr uppercase_letter) (Plus lowercase_letter));
        Plus CSpace;
        Group (Seq (Chr uppercase_letter) (Plus lowercase_letter))].

Definition name_patterns : list regex :=
  [title_name_pattern; two_names_pattern].

Definition person_keywords : list string :=
  ["who"; "prof"; "dr"; "mr"; "mrs"; "ms"; "director"; "dean"; "head";
   "vc"; "vice-chancellor"].

(** The words of a keyword match ([findall] on a pattern without group
    returns strings). *)
Definition match_text (m : fmatch) : string :=
  match m with
  | MStr s => s
  | MTuple gs => join " " gs
  end.

(** Body of the inner loop: [" ".join(match).title()] for a tuple,
    [match.title()] otherwise. *)
Definition name_of_match (m : fmatch) : string :=
  match m with
  | MTuple gs => title (join " " gs)
  | MStr s => title s
  end.

(** The inner [for match in matches: ...; break]: the first match, if
    any, is stored in [analysis["target_person"]]; the [break] leaves this
    loop only. *)
Definition store_first_match (current : option string)
    (matches : list fmatch) : option string :=
  match matches with
  | m :: _ => Some (name_of_match m)
  | [] => current
  end.

(** The outer [for pattern in name_patterns], run over every pattern. *)
Definition extract_name (question : string) : option string :=
  fold_left
    (fun current pattern =>
       store_first_match current (findall pattern question true))
    name_patterns None.

Definition infer_role (q_lower : string) : option string :=
  if contains "vice-chancellor" q_lower || contains "vc" q_lower
  then Some "Vice-Chancellor"
  else if contains "head" q_lower && contains "department" q_lower
  then Some "Head of Department"
  else if contains "dean" q_lower
  then Some "Dean"
  else None.

Definition _understand_question (question : string) : analysis :=
  let q_lower := lower question in
  let words := map match_text (findall keyword_pattern q_lower false) in
  let base ty person dept prog :=
    Analysis ty person dept prog None words true in
  if any_in person_keywords q_lower then
    let found := extract_name question in
    base "person_query"
         (if negb (truthy_opt found) then
            match infer_role q_lower with
            | Some role => Some role
            | None => found
            end
          else found)
         None None
  else if any_in ["department"; "school"; "faculty"] q_lower then
    base "department_query" None
         (if contains "it" q_lower || contains "information technology" q_lower
          then Some "it"
          else if contains "computer science" q_lower
          then Some "computer science"
          else if contains "engineering" q_lower
          then Some "engineering"
          else if contains "science" q_lower
          then Some "sciences"
          else None)
         None
  else if any_in ["course"; "program"; "degree"; "study"; "bsc"; "diploma"]
                 q_lower then
    base "academic_query" None None
         (if contains "it" q_lower || contains "information technology" q_lower
          then Some "information technology"
          else if contains "computer science" q_lower
          then Some "computer science"
          else if contains "engineering" q_lower
          then Some "engineering"
          else None)
  else if any_in ["admission"; "apply"; "requirement"] q_lower then
    base "admission_query" None None None
  else if any_in ["grade"; "gpa"; "score"; "mark"] q_lower then
    base "grading_query" None None None
  else if any_in ["fee"; "cost"; "payment"; "tuition"] q_lower then
    base "financial_query" None None None
  else if any_in ["register"; "registration"] q_lower then
    base "registration_query" None None None
  else if any_in ["library"; "hostel"; "campus"; "facility"] q_lower then
    base "facility_query" None None None
  else
    base "general" None None None.

(** *** The knowledge documents *)

(** The attributes [__init__] creates on the view object. *)
Record view : Type := View {
  staff_data : json;
  guide_data : json;
  it_dept_data : json
}.

Definition __init__ : view := View JNull JNull JNull.

(** What [open] and [json.load] find at a path. *)
Inductive file : Type :=
  | Missing
  | Malformed
  | Document (content : json).

Definition filesystem : Type := string -> file.

(** [with open(path) as f: return json.load(f)] *)
Definition read_json (fs : filesystem) (path : string) : res json :=
  match fs path with
  | Missing => Raise OSError
  | Malformed => Raise JSONDecodeError
  | Document content => Ok content
  end.

Definition _load_json (fs : filesystem) (path : string) : json :=
  try_except (read_json fs path) (fun _ => JNull).

Definition is_None (x : json) : bool :=
  match x with
  | JNull => true
  | _ => false
  end.

Definition _initialize_data (fs : filesystem) (self : view) : view :=
  let self :=
    if is_None (staff_data self)
    then View (py_or (_load_json fs STAFF_JSON_PATH) (JArr []))
              (guide_data self) (it_dept_data self)
    else self in
  let self :=
    if is_None (guide_data self)
    then View (staff_data self)
              (py_or (_load_json fs GUIDE_JSON_PATH) (JObj []))
              (it_dept_data self)
    else self in
  if is_None (it_dept_data self)
  then View (staff_data self) (guide_data self)
            (py_or (_load_json fs IT_DEPT_JSON_PATH) (JObj []))
  else self.

(** *** Staff directory *)

Local Open Scope string_scope.

(** [for x in xs: ys.append(f(x))] where [f] may raise. *)
Fixpoint map_res {A B : Type} (f : A -> res B) (xs : list A)
    : res (list B) :=
  match xs with
  | [] => Ok []
  | x :: rest => y <- f x ;; ys <- map_res f rest ;; Ok (y :: ys)
  end.

Definition _format_staff_response (staff : json) : res (option string) :=
  if negb (truthy staff) then Ok None else
  name <- get staff "name" ;;
  position <- get staff "current_position" ;;
  let response := str name ++ " is the " ++ str position ++ " at UENR. " in
  role <- get staff "role" ;;
  let response :=
    if truthy role
    then response ++ "Their role involves " ++ str role ++ ". "
    else response in
  department <- get staff "department" ;;
  let response :=
    if truthy department
    then response ++ "They work in the " ++ str department ++ ". "
    else response in
  education <- get staff "Education & Qualifications" ;;
  let response :=
    if truthy education && negb (is_str "unknown" education)
    then response ++ "Qualifications: " ++ str education ++ ". "
    else response in
  career <- get staff "Career / Work Experience / Research Interests" ;;
  let response :=
    if truthy career && negb (is_str "unknown" career)
    then response ++ "Expertise: " ++ str career ++ ". "
    else response in
  achievements <- get staff "achievements" ;;
  if truthy achievements then
    n <- len achievements ;;
    if (0 <? n)%nat then
      first <- getitem0 achievements ;;
      let response :=
        response ++ "Notable achievements include: " ++ str first in
      Ok (Some (if (1 <? n)%nat
                then response ++ ", and " ++ str_of_nat (n - 1) ++ " more."
                else response))
    else Ok (Some response)
  else Ok (Some response).

(** [staff.get(key, "").lower()] *)
Definition field_lower (staff : json) (key : string) : res string :=
  v <- get_or staff key (JStr "") ;;
  lower_of v.

(** The first loop of [_search_staff_info]: it returns from the function
    at the first record whose lower-cased name contains the lower-cased
    target. *)
Fixpoint find_by_name (target_person : string) (staffs : list json)
    : res (option json) :=
  match staffs with
  | [] => Ok None
  | staff :: rest =>
      staff_name <- field_lower staff "name" ;;
      if contains (lower target_person) staff_name
      then Ok (Some staff)
      else find_by_name target_person rest
  end.

(** Body of the second loop: the number of keywords found in one of the
    four lower-cased fields. *)
Definition match_score (keywords : list string) (staff : json) : res nat :=
  staff_name <- field_lower staff "name" ;;
  staff_position <- field_lower staff "current_position" ;;
  staff_role <- field_lower staff "role" ;;
  staff_dept <- field_lower staff "department" ;;
  Ok (List.length
        (filter (fun keyword =>
                   contains keyword staff_name ||
                   contains keyword staff_position ||
                   contains keyword staff_role ||
                   contains keyword staff_dept)
                keywords)).

(** The second loop: [matches.append((staff, match_score))] when the
    score is positive. *)
Fixpoint collect_matches (keywords : list string) (staffs : list json)
    : res (list (json * nat)) :=
  match staffs with
  | [] => Ok []
  | staff :: rest =>
      score <- match_score keywords staff ;;
      matches <- collect_matches keywords rest ;;
      Ok (if (0 <? score)%nat then (staff, score) :: matches else matches)
  end.

(** [matches.sort(key=lambda x: x[1], reverse=True)]: Python's sort is
    stable, also with [reverse=True]; it is modelled by a stable
    insertion sort on decreasing scores. *)
Fixpoint insert_by_score (x : json * nat) (sorted : list (json * nat))
    : list (json * nat) :=
  match sorted with
  | [] => [x]
  | y :: rest =>
      if (snd x <? snd y)%nat
      then y :: insert_by_score x rest
      else x :: y :: rest
  end.

Definition sort_by_score (matches : list (json * nat))
    : list (json * nat) :=
  fold_right insert_by_score [] matches.

Definition _search_staff_info (self : view) (question_analysis : analysis)
    : res (option string) :=
  if negb (truthy (staff_data self)) then Ok None else
  let keywords := keywords question_analysis in
  named <-
    match target_person question_analysis with
    | Some target_person =>
        if truthy_opt (Some target_person) then
          staffs <- iter (staff_data self) ;;
          find_by_name target_person staffs
        else Ok None
    | None => Ok None
    end ;;
  match named with
  | Some staff => _format_staff_response staff
  | None =>
      staffs <- iter (staff_data self) ;;
      matches <- collect_matches keywords staffs ;;
      match sort_by_score matches with
      | (staff, _) :: _ => _format_staff_response staff
      | [] => Ok None
      end
  end.

(** *** Department profile *)

Definition none_if_empty (response : string) : option string :=
  if String.eqb response "" then None else Some response.

(** The loop over the department's staff, left at the first match. *)
Fixpoint find_dept_staff (target_person : string) (dept_info : json)
    (staffs : list json) : res string :=
  match staffs with
  | [] => Ok ""
  | staff :: rest =>
      staff_name <- field_lower staff "name" ;;
      if contains (lower target_person) staff_name then
        name <- get staff "name" ;;
        position <- get staff "position" ;;
        dept_name <- get dept_info "name" ;;
        Ok (str name ++ " is a " ++ str position ++ " in the " ++
            str dept_name ++ ".")
      else find_dept_staff target_person dept_info rest
  end.

Definition format_program (program : json) : res string :=
  degree <- get program "degree" ;;
  name <- get program "name" ;;
  mode <- get program "mode" ;;
  Ok (str degree ++ " in " ++ str name ++ " (" ++ str mode ++ ")").

Definition _search_it_department_info (self : view)
    (question_analysis : analysis) : res (option string) :=
  let it_dept_data := it_dept_data self in
  let q_type := type question_analysis in
  let keywords := keywords question_analysis in
  if negb (truthy it_dept_data) then Ok None else
  present <- py_in "department" it_dept_data ;;
  if negb present then Ok None else
  dept_info <- getitem it_dept_data "department" ;;
  response <-
    (if String.eqb q_type "department_query" then
       name <- get dept_info "name" ;;
       school <- get dept_info "school" ;;
       let response :=
         "The " ++ str name ++ " is part of the " ++ str school ++
         " at UENR. " in
       location <- get dept_info "location" ;;
       let response :=
         if truthy location
         then response ++ "It is located in " ++ str location ++ ". "
         else response in
       staff <- get dept_info "staff" ;;
       if truthy staff then
         staff_count <- len staff ;;
         Ok (response ++ "The department has " ++ str_of_nat staff_count ++
             " staff members. ")
       else Ok response
     else if String.eqb q_type "person_query" &&
             (mem "head" keywords || mem "hod" keywords) then
       hod <- get_or dept_info "head_of_department" (JObj []) ;;
       if truthy hod then
         dept_name <- get dept_info "name" ;;
         name <- get hod "name" ;;
         position <- get hod "position" ;;
         school <- get hod "school" ;;
         Ok ("The Head of the " ++ str dept_name ++ " is " ++ str name ++
             ". " ++ "They serve as " ++ str position ++ " in the " ++
             str school ++ ".")
       else Ok ""
     else if String.eqb q_type "academic_query" && mem "course" keywords then
       courses <- get dept_info "courses_offered" ;;
       if truthy courses then
         dept_name <- get dept_info "name" ;;
         first5 <- slice_to 5 courses ;;
         listed <- join_of ", " first5 ;;
         let response :=
           "The " ++ str dept_name ++ " offers courses including: " ++
           listed in
         n <- len courses ;;
         Ok (if (5 <? n)%nat
             then response ++ ", and " ++ str_of_nat (n - 5) ++
                  " more courses."
             else response)
       else Ok ""
     else if String.eqb q_type "academic_query" && mem "program" keywords then
       listed <- get dept_info "programs" ;;
       if truthy listed then
         entries <- iter listed ;;
         programs <- map_res format_program entries ;;
         Ok ("The department offers: " ++ join ", " programs ++ ".")
       else Ok ""
     else if String.eqb q_type "person_query" then
       staff <- get dept_info "staff" ;;
       if truthy staff then
         match target_person question_analysis with
         | Some target_person =>
             if truthy_opt (Some target_person) then
               staffs <- iter staff ;;
               find_dept_staff target_person dept_info staffs
             else Ok ""
         | None => Ok ""
         end
       else Ok ""
     else Ok "") ;;
  Ok (none_if_empty response).

(** *** Academic guide *)

(** [a or b] on two optional strings. *)
Definition or_opt (a b : option string) : option string :=
  if truthy_opt a then a else b.

(** The loop over [programs.items()], left at the first school whose
    lower-cased key contains the target. *)
Fixpoint find_school (target_dept : string) (schools : list (string * json))
    : res string :=
  match schools with
  | [] => Ok ""
  | (school, program_list) :: rest =>
      if contains target_dept (lower school) then
        first5 <- slice_to 5 program_list ;;
        listed <- join_of ", " first5 ;;
        let response := replace_underscore school ++ " offers: " ++ listed in
        n <- len program_list ;;
        Ok (if (5 <? n)%nat
            then response ++ ", and " ++ str_of_nat (n - 5) ++
                 " more programs."
            else response)
      else find_school target_dept rest
  end.

(** One line of the grading answer. *)
Definition format_grade (grade_info : json) : res string :=
  grade <- get grade_info "Grade" ;;
  mark <- get grade_info "Mark" ;;
  interpretation <- get grade_info "Interpretation" ;;
  Ok (str grade ++ " (" ++ str mark ++ ") - " ++ str interpretation).

Definition _search_academic_info (self : view) (question_analysis : analysis)
    : res (option string) :=
  let guide_data := guide_data self in
  if negb (truthy guide_data) then Ok None else
  let q_type := type question_analysis in
  let keywords := keywords question_analysis in
  if String.eqb q_type "academic_query" && mem "program" keywords then
    programs <- get_or guide_data "Programmes_Offered" (JObj []) ;;
    let target_dept := or_opt (target_department question_analysis)
                              (target_program question_analysis) in
    response <-
      (if truthy_opt target_dept then
         schools <- items programs ;;
         find_school (match target_dept with Some t => t | None => "" end)
                     schools
       else
         names <- keys programs ;;
         Ok ("UENR offers programs through these schools: " ++
             join ", " (map replace_underscore names) ++ ".")) ;;
    Ok (none_if_empty response)
  else if String.eqb q_type "grading_query" then
    grading <- get_or guide_data "Grading_System" (JObj []) ;;
    bands <- get grading "Grades" ;;
    if truthy bands then
      entries <- iter bands ;;
      grades <- map_res format_grade entries ;;
      Ok (Some ("UENR uses the following grading system: " ++
                join "; " (firstn 3 grades) ++ "."))
    else Ok None
  else if String.eqb q_type "registration_query" then
    registration <- get_or guide_data "Course_Registration" (JObj []) ;;
    steps <- get registration "Steps_to_Register" ;;
    if truthy steps then
      first2 <- slice_to 2 steps ;;
      listed <- join_of " " first2 ;;
      Ok (Some ("To register for courses at UENR: " ++ listed ++
                " For complete details, check the student guide."))
    else Ok None
  else if String.eqb q_type "general" ||
          (mem "uenr" keywords || mem "university" keywords) then
    about <- get_or guide_data "About" (JObj []) ;;
    overview <- get about "Overview" ;;
    response <- (if truthy overview then add_str overview " " else Ok "") ;;
    vision <- get about "Vision" ;;
    let response :=
      if truthy vision
      then response ++ "The university's vision is: " ++ str vision ++ " "
      else response in
    mission <- get about "Mission" ;;
    let response :=
      if truthy mission
      then response ++ "Its mission is: " ++ str mission
      else response in
    Ok (none_if_empty response)
  else if mem "location" keywords || mem "campus" keywords then
    location <- get_or guide_data "Location" (JObj []) ;;
    main_campus <- get location "Main_Campus" ;;
    let response :=
      if truthy main_campus
      then "UENR's main campus is located in " ++ str main_campus ++ ". "
      else "" in
    satellite <- get location "Satellite_Campuses" ;;
    response <-
      (if truthy satellite then
         listed <- join_of ", " satellite ;;
         Ok (response ++ "It also has satellite campuses in " ++ listed ++
             ".")
       else Ok response) ;;
    Ok (none_if_empty response)
  else Ok None.

(** *** The call to the generation service *)

(** What the HTTP exchange gives: no reply (connection error, timeout),
    or a status with the body, [None] when it is not JSON text. *)
Inductive http_reply : Type :=
  | NoReply
  | Reply (status : nat) (body : option json).

(** The loop over the parts of one candidate. *)
Fixpoint scan_parts (parts : list json) : res (option string) :=
  match parts with
  | [] => Ok None
  | part :: rest =>
      has_text <- py_in "text" part ;;
      if has_text then
        raw <- getitem part "text" ;;
        text <- strip_of raw ;;
        if (MIN_RESPONSE_LENGTH <=? String.length text)%nat
        then Ok (Some (take MAX_RESPONSE_LENGTH text))
        else scan_parts rest
      else scan_parts rest
  end.

(** The loop over the candidates. *)
Fixpoint scan_candidates (candidates : list json) : res (option string) :=
  match candidates with
  | [] => Ok None
  | candidate :: rest =>
      content <- get_or candidate "content" (JObj []) ;;
      parts <- get_or content "parts" (JArr []) ;;
      visited <- iter parts ;;
      found <- scan_parts visited ;;
      match found with
      | Some text => Ok (Some text)
      | None => scan_candidates rest
      end
  end.

(** The body of the [try] block. *)
Definition read_reply (reply : http_reply) : res (option string) :=
  match reply with
  | NoReply => Raise ClientError
  | Reply status body =>
      if (400 <=? status)%nat then Raise ClientError else
      match body with
      | None => Raise JSONDecodeError
      | Some result =>
          candidates <- get result "candidates" ;;
          if truthy candidates then
            visited <- iter candidates ;;
            scan_candidates visited
          else Ok None
      end
  end.

(** The generation service, as seen from the client: the reply to the
    request built from a prompt. *)
Definition service : Type := string -> http_reply.

Definition _call_gemini_api (api : service) (prompt_text : string)
    : option string :=
  try_except (read_reply (api prompt_text)) (fun _ => None).

(** *** Retrieval over the three documents *)

Definition truthy_answer (answer : option string) : bool :=
  truthy_opt answer.

Definition opt_is (s : string) (o : option string) : bool :=
  match o with
  | Some s' => String.eqb s s'
  | None => false
  end.

(** The condition under which the department profile is tried. *)
Definition it_relevant (question_analysis : analysis) (question : string)
    : bool :=
  opt_is "it" (target_department question_analysis) ||
  opt_is "information technology" (target_program question_analysis) ||
  mem "it" (keywords question_analysis) ||
  contains "information technology" (lower question).

(** [_retrieve_info] after [self._initialize_data()]. *)
Definition retrieve_from (self : view) (question : string)
    : res (option string * string * bool) :=
  let question_analysis := _understand_question question in
  it_answer <-
    (if it_relevant question_analysis question
     then _search_it_department_info self question_analysis
     else Ok None) ;;
  if truthy_answer it_answer then Ok (it_answer, "IT_DEPT_JSON", false) else
  staff_answer <-
    (if String.eqb (type question_analysis) "person_query"
     then _search_staff_info self question_analysis
     else Ok None) ;;
  if truthy_answer staff_answer then Ok (staff_answer, "STAFF_JSON", false)
  else
  answer <- _search_academic_info self question_analysis ;;
  if truthy_answer answer then Ok (answer, "GUIDE_JSON", false) else
  Ok (None, "NONE", true).

(** The view object after the call, and what the call returns or raises. *)
Definition _retrieve_info (fs : filesystem) (self : view) (question : string)
    : view * res (option string * string * bool) :=
  let self := _initialize_data fs self in
  (self, retrieve_from self question).

(** *** [askuenr/models/chat.py] and [askuenr/serializers.py] *)

Module chat.

(** A row of [ChatConversation]; [created_at] is the position of the row
    in the table, which is kept in insertion order. *)
Record ChatConversation : Type := Build {
  session_id : string;
  question : string;
  answer : string;
  source : string;
  is_ai_augmented : bool
}.

(** [choices] of the field [source]. *)
Definition source_choices : list string := ["JSON"; "Gemini"; "Fallback"].

Definition session_id_max_length : nat := 100.
Definition source_max_length : nat := 50.

Definition table : Type := list ChatConversation.

(** [ChatConversation.objects.create(...)].  A backend that enforces
    [max_length] on character columns refuses an over-long value with a
    [DataError]; [choices] are not checked on [create]. *)
Definition create (enforce_max_length : bool) (db : table)
    (row : ChatConversation) : res table :=
  if enforce_max_length &&
     ((session_id_max_length <? String.length (session_id row))%nat ||
      (source_max_length <? String.length (source row))%nat)
  then Raise DataError
  else Ok (db ++ [row])%list.

(** [ChatConversation.objects.filter(session_id=...).order_by("created_at")] *)
Definition filter_session (db : table) (sid : string) : table :=
  filter (fun m => String.eqb (session_id m) sid) db.

End chat.

(** [request.data] *)
Record request : Type := Request {
  data_question : option string;
  data_session_id : option string
}.

(** [MessageSerializer]: [question = CharField(max_length=1000)], a
    required field that is stripped, may not be blank and holds at most
    1000 characters.  The result is the validated question or the error
    text.  The framework's further checks on the characters of the text
    are not modelled. *)
Definition MessageSerializer (data : request) : string + string :=
  match data_question data with
  | None => inl "This field is required."
  | Some raw =>
      let value := strip raw in
      if String.eqb value "" then inl "This field may not be blank."
      else if (1000 <? String.length value)%nat
      then inl "Ensure this field has no more than 1000 characters."
      else inr value
  end.

(** *** The request handler *)

Definition newline : string := String (ascii_of_nat 10) EmptyString.

Definition _build_enhanced_prompt (question : string) (context : string)
    : string :=
  let base_prompt :=
    "You are AskUner, the official AI assistant for the University of Energy and Natural Resources (UENR) in Sunyani, Ghana. " ++
    "Provide accurate, helpful information about UENR. Be conversational but professional. " ++
    "Focus on UENR-specific information and be as detailed as possible." ++
    newline ++ newline in
  let base_prompt :=
    if negb (String.eqb context "")
    then base_prompt ++ "Context from previous conversation: " ++ context ++
         newline ++ newline
    else base_prompt in
  let base_prompt :=
    base_prompt ++ "Question: " ++ question ++ newline ++ newline in
  base_prompt ++
  "Please provide a comprehensive answer about UENR. If the question is specific to " ++
  "a department, program, or person at UENR, focus on that aspect. Include relevant details.".

Inductive response : Type :=
  | Response400 (errors : string)
  | Response200 (session_id answer source : string) (is_ai_augmented : bool)
  | Response500 (error : string).

Definition apology : string :=
  "I'm still learning about that specific aspect of UENR. " ++
  "For the most accurate and current information, you might want to " ++
  "check the official UENR website or contact the relevant department directly.".

Definition service_error : string :=
  "Something went wrong while processing your request.".

(** Everything outside the process that one request meets. *)
Record world : Type := World {
  files : filesystem;
  gemini : service;
  uuid4 : string;
  enforce_max_length : bool
}.

(** ["\n".join([f"User: {m.question}\nBot: {m.answer}" for m in history])] *)
Definition previous_context (history : chat.table) : string :=
  join newline
    (map (fun m => "User: " ++ chat.question m ++ newline ++ "Bot: " ++
                   chat.answer m) history).

(** The three variables the [if needs_fallback] statement leaves. *)
Definition settle (api : service) (question context : string)
    (retrieved : option string * string * bool)
    : option string * string * bool :=
  match retrieved with
  | (answer, source, needs_fallback) =>
      if needs_fallback then
        let prompt := _build_enhanced_prompt question context in
        let ai_answer := _call_gemini_api api prompt in
        if truthy_opt ai_answer
        then (ai_answer, "Gemini", true)
        else (Some apology, "Fallback", false)
      else (answer, source, false)
  end.

(** The body of the [try] block of [post]: the view object after it, and
    the response with the new table, or the exception.  The column
    [answer] is not nullable: a row without answer is refused. *)
Definition pipeline (w : world) (self : view) (db : chat.table)
    (question session_id context : string)
    : view * res (response * chat.table) :=
  let (self, retrieved) := _retrieve_info (files w) self question in
  (self,
   found <- retrieved ;;
   match settle (gemini w) question context found with
   | (Some answer, source, is_ai_augmented) =>
       db' <- chat.create (enforce_max_length w) db
                (chat.Build session_id question answer source
                   is_ai_augmented) ;;
       Ok (Response200 session_id answer source is_ai_augmented, db')
   | (None, _, _) => Raise IntegrityError
   end).

(** [request.data.get("session_id") or str(uuid.uuid4())] *)
Definition session_of (w : world) (req : request) : string :=
  if truthy_opt (data_session_id req)
  then match data_session_id req with Some s => s | None => "" end
  else uuid4 w.

(** [post] for a database that runs the read of the session history:
    the response, the view object and the table after the call.  The read
    that raises is in [post_call] below. *)
Definition post (w : world) (self : view) (db : chat.table) (req : request)
    : response * view * chat.table :=
  match MessageSerializer req with
  | inl errors => (Response400 errors, self, db)
  | inr question =>
      let session_id := session_of w req in
      let history := chat.filter_session db session_id in
      let context := previous_context history in
      match pipeline w self db question session_id context with
      | (self, Ok (resp, db')) => (resp, self, db')
      | (self, Raise _) => (Response500 service_error, self, db)
      end
  end.

(** *** The statements of [post] before the [try] statement *)

(** What the database does with the query for the rows of a session: for
    the value given as [session_id], the exception the query raises, if it
    raises one (a connection that is down, a value the driver does not
    take as a parameter). *)
Definition backend : Type := string -> option exn.

(** The list comprehension of line 444 over
    [ChatConversation.objects.filter(session_id=session_id).order_by("created_at")],
    which runs the query. *)
Definition history_of (refuses : backend) (db : chat.table) (sid : string)
    : res chat.table :=
  match refuses sid with
  | Some e => Raise e
  | None => Ok (chat.filter_session db sid)
  end.

(** [post] as the framework calls it: the response with the view object
    and the table after the call, or the exception that leaves the
    method.  The validation, the choice of the session and the read of
    the history come before the [try] statement, so that an exception of
    the read is not caught; [post] above is the method when the read
    returns. *)
Definition post_call (refuses : backend) (w : world) (self : view)
    (db : chat.table) (req : request)
    : res (response * view * chat.table) :=
  match MessageSerializer req with
  | inl errors => Ok (Response400 errors, self, db)
  | inr question =>
      let session_id := session_of w req in
      history <- history_of refuses db session_id ;;
      let context := previous_context history in
      match pipeline w self db question session_id context with
      | (self, Ok (resp, db')) => Ok (resp, self, db')
      | (self, Raise _) => Ok (Response500 service_error, self, db)
      end
  end.

(** The view object and the table after a sequence of requests, each one
    in the world it meets. *)
Fixpoint serve (calls : list (world * request)) (self : view)
    (db : chat.table) : view * chat.table :=
  match calls with
  | [] => (self, db)
  | (w, req) :: rest =>
      match post w self db req with
      | (_, self, db) => serve rest self db
      end
  end.

(* ================================================================== *)
(** ** [askuenr/models/main.py]: grade bands and academic records *)
(* ================================================================== *)

Module main.

(** A row of [GPA].  All fields are nullable.  [grade_point] is a decimal
    with two places, kept in hundredths. *)
Record GPA : Type := Band {
  lower_bound : option Z;
  upper_bound : option Z;
  letter_grade : option string;
  grade_point : option Z;
  interpretation : option string
}.

(** The fields of [AcademicRecord] (the course is kept by its code). *)
Record AcademicRecord : Type := Record_ {
  course : string;
  academic_year : string;
  semester : string;
  raw_score : option Z;
  gpa : option GPA;
  grade : option string;
  record_grade_point : option Z
}.

(** [lower_bound__lte=score, upper_bound__gte=score]: a comparison with a
    null bound does not hold. *)
Definition contains_score (score : Z) (band : GPA) : bool :=
  match lower_bound band, upper_bound band with
  | Some lo, Some hi => (lo <=? score)%Z && (score <=? hi)%Z
  | _, _ => false
  end.

(** [GPA.objects.filter(lower_bound__lte=score, upper_bound__gte=score)] *)
Definition objects_filter (table : list GPA) (score : Z) : list GPA :=
  filter (contains_score score) table.

(** [.first()] on a queryset ordered by [Meta.ordering = ['-upper_bound']]:
    no row when the queryset is empty, otherwise one of its rows with the
    greatest upper bound.  Which one of several rows with the same upper
    bound comes first is left to the database. *)
Definition respects_ordering (first : list GPA -> option GPA) : Prop :=
  forall rows,
    match first rows with
    | None => rows = []
    | Some band =>
        In band rows /\
        forall other hi hi',
          In other rows ->
          upper_bound band = Some hi ->
          upper_bound other = Some hi' ->
          (hi' <= hi)%Z
    end.

(** A database that returns, of several rows with the same upper bound,
    the one inserted first. *)
Definition higher (best band : GPA) : bool :=
  match upper_bound best, upper_bound band with
  | Some hi, Some hi' => (hi <? hi')%Z
  | _, _ => false
  end.

Definition first_by_upper_bound (rows : list GPA) : option GPA :=
  fold_left
    (fun best band =>
       match best with
       | None => Some band
       | Some b => if higher b band then Some band else Some b
       end)
    rows None.

(** What the database does with the statements of [save], the rows of
    [GPA] apart. *)
Record database : Type := Database {
  (** [.first()]: the row of an ordered queryset that comes first *)
  first : list GPA -> option GPA;
  (** the exception of the band query for a score that the lookup or the
      driver does not take (an integer beyond 64 bits on SQLite:
      [OverflowError]), if there is one *)
  filter_error : Z -> option exn;
  (** the exception for a decimal of more digits than its column:
      [decimal.InvalidOperation] where the framework formats the value
      (django.db.backends.utils.format_number), the error of the database
      where the value is sent as it is *)
  digits_error : exn;
  (** the exception of the INSERT or UPDATE for a row the table does not
      take (a score outside the integer column, a text longer than its
      column, a course that does not exist), if there is one *)
  save_error : AcademicRecord -> option exn
}.

(** [grade_point = models.DecimalField(max_digits=3, decimal_places=2)] of
    [AcademicRecord]: a value in hundredths has at most three digits. *)
Definition grade_point_max_digits : nat := 3.

Definition fits_digits (max_digits : nat) (hundredths : option Z) : bool :=
  match hundredths with
  | Some value => (Z.abs value <? 10 ^ Z.of_nat max_digits)%Z
  | None => true
  end.

(** The call of [save] of the base class that ends the method: the row
    that is written, or the exception, in which case nothing is
    written. *)
Definition Model_save (d : database) (self : AcademicRecord)
    : res AcademicRecord :=
  if fits_digits grade_point_max_digits (record_grade_point self) then
    match save_error d self with
    | Some e => Raise e
    | None => Ok self
    end
  else Raise (digits_error d).

(** [self.gpa = matched_gpa], [self.grade = matched_gpa.letter_grade],
    [self.grade_point = matched_gpa.grade_point] *)
Definition set_band (self : AcademicRecord) (matched_gpa : GPA)
    : AcademicRecord :=
  Record_ (course self) (academic_year self) (semester self)
          (raw_score self) (Some matched_gpa)
          (letter_grade matched_gpa) (grade_point matched_gpa).

(** [AcademicRecord.save]: the row that is written, or the exception that
    leaves the method. *)
Definition save (d : database) (table : list GPA) (self : AcademicRecord)
    : res AcademicRecord :=
  self <-
    match raw_score self with
    | Some score =>
        match filter_error d score with
        | Some e => Raise e
        | None =>
            match first d (objects_filter table score) with
            | Some matched_gpa => Ok (set_band self matched_gpa)
            | None => Ok self
            end
        end
    | None => Ok self
    end ;;
  Model_save d self.

End main.

(** ** [management/commands/gpa_data.py] and [acadamic.py] *)

Module gpa_data.

Definition band (lo hi : Z) (letter : string) (point : Z)
    (meaning : string) : main.GPA :=
  main.Band (Some lo) (Some hi) (Some letter) (Some point) (Some meaning).

Definition GPA_BANDS : list main.GPA :=
  [band 80 100 "A" 400 "Excellent";
   band 75 79 "B+" 350 "Very Good";
   band 70 74 "B" 300 "Good";
   band 65 69 "C+" 250 "Fair";
   band 60 64 "C" 200 "Satisfactory";
   band 55 59 "D+" 150 "Pass";
   band 50 54 "D" 100 "Barely Pass";
   band 0 49 "F" 0 "Fail"].

(** [handle]: the table after the command, which deletes every row and
    creates one row per band. *)
Definition handle (table : list main.GPA) : list main.GPA :=
  fold_left (fun t b => (t ++ [b])%list) GPA_BANDS [].

End gpa_data.

Module acadamic.

Definition grading_data : list main.GPA :=
  [gpa_data.band 80 100 "A" 400 "Excellent";
   gpa_data.band 75 79 "B+" 350 "Very Good";
   gpa_data.band 70 74 "B" 300 "Good";
   gpa_data.band 65 69 "C+" 250 "Fairly Good";
   gpa_data.band 60 64 "C" 200 "Average";
   gpa_data.band 55 59 "D+" 150 "Below Average";
   gpa_data.band 50 54 "D" 100 "Marginal Pass";
   gpa_data.band 0 49 "F" 0 "Fail"].

Definition handle (table : list main.GPA) : list main.GPA :=
  fold_left (fun t b => (t ++ [b])%list) grading_data [].

End acadamic.

(* ================================================================== *)
(** ** Specification-level notions and sample data *)
(* ================================================================== *)

(** The nine values of the field [type]. *)
Definition intent_types : list string :=
  ["general"; "person_query"; "department_query"; "academic_query";
   "admission_query"; "grading_query"; "financial_query";
   "registration_query"; "facility_query"].

(** The values [post] gives to [source]. *)
Definition source_tags : list string :=
  ["IT_DEPT_JSON"; "STAFF_JSON"; "GUIDE_JSON"; "Gemini"; "Fallback"].

Definition dean_question : string :=
  "Who is the Dean of the School of Engineering?".

Definition grading_question : string :=
  "What is the grading system at UENR?".

Definition address_question : string :=
  "What is the address of the department?".

Definition grade_band (grade mark interpretation : string) : json :=
  JObj [("Grade", JStr grade); ("Mark", JStr mark);
        ("Interpretation", JStr interpretation)].

(** A guide document with an overview and four grade bands. *)
Definition sample_guide : json :=
  JObj [("About", JObj [("Overview", JStr "UENR is a public university.")]);
        ("Grading_System",
         JObj [("Grades",
                JArr [grade_band "A" "80-100" "Excellent";
                      grade_band "B+" "75-79" "Very Good";
                      grade_band "B" "70-74" "Good";
                      grade_band "C+" "65-69" "Fair"])])].

Definition kwame : json :=
  JObj [("name", JStr "Kwame Mensah");
        ("current_position", JStr "Dean of Engineering")].

Definition ama : json :=
  JObj [("name", JStr "Ama Owusu");
        ("current_position", JStr "Dean of Science");
        ("role", JStr "Dean")].

Definition esi : json :=
  JObj [("name", JStr "Esi Boateng");
        ("current_position", JStr "Registrar")].

Definition sample_staff : json := JArr [esi; kwame; ama].

Definition sample_files : filesystem :=
  fun path =>
    if String.eqb path GUIDE_JSON_PATH then Document sample_guide
    else if String.eqb path STAFF_JSON_PATH then Document sample_staff
    else Missing.

(** A world where the generation service cannot be reached. *)
Definition offline_world : world :=
  World sample_files (fun _ => NoReply) "3f2b8c1e" false.

(** A world without documents. *)
Definition empty_world (api : service) (strict : bool) : world :=
  World (fun _ => Missing) api "3f2b8c1e" strict.

Definition ask (text : string) : request := Request (Some text) None.

(** A staff directory with a record whose name is [null], and a world
    that serves it. *)
Definition nameless_staff : json :=
  JArr [JObj [("name", JNull); ("current_position", JStr "Lecturer")]].

Definition nameless_world : world :=
  World (fun path =>
           if String.eqb path STAFF_JSON_PATH then Document nameless_staff
           else Missing)
        (fun _ => NoReply) "3f2b8c1e" false.

(** A row of an earlier request. *)
Definition earlier_row : chat.ChatConversation :=
  chat.Build "3f2b8c1e" "Hello" apology "Fallback" false.

Definition library_question : string := "Where is the library?".

Definition it_staff_question : string :=
  "Who teaches information technology?".

Definition about_question : string := "Tell me about UENR".

(** The three knowledge documents, where each is stored and where the
    view keeps it. *)
Inductive document : Type :=
  | StaffDirectory
  | AcademicGuide
  | DepartmentProfile.

Definition path_of (d : document) : string :=
  match d with
  | StaffDirectory => STAFF_JSON_PATH
  | AcademicGuide => GUIDE_JSON_PATH
  | DepartmentProfile => IT_DEPT_JSON_PATH
  end.

Definition loaded (d : document) (self : view) : json :=
  match d with
  | StaffDirectory => staff_data self
  | AcademicGuide => guide_data self
  | DepartmentProfile => it_dept_data self
  end.

(** The empty sequence for the staff directory, the empty mapping for the
    other two. *)
Definition empty_container (d : document) : json :=
  match d with
  | StaffDirectory => JArr []
  | AcademicGuide => JObj []
  | DepartmentProfile => JObj []
  end.

(** A file system where only the guide can be read. *)
Definition guide_only_files : filesystem :=
  fun path =>
    if String.eqb path GUIDE_JSON_PATH then Document sample_guide
    else if String.eqb path STAFF_JSON_PATH then Malformed
    else Missing.

(** A part of a reply that yields no accepted text: a dict without text,
    or with a text that is shorter than the minimum once stripped. *)
Definition short_part (part : json) : bool :=
  match part with
  | JObj fields =>
      match lookup "text" fields with
      | None => true
      | Some (JStr raw) => (String.length (strip raw) <? MIN_RESPONSE_LENGTH)%nat
      | Some _ => false
      end
  | _ => false
  end.

(** A candidate of the documented shape all of whose parts are short. *)
Definition short_candidate (candidate : json) : bool :=
  match candidate with
  | JObj fields =>
      match lookup "content" fields with
      | None => true
      | Some (JObj content) =>
          match lookup "parts" content with
          | None => true
          | Some (JArr parts) => forallb short_part parts
          | Some _ => false
          end
      | Some _ => false
      end
  | _ => false
  end.

(** A reply of the documented shape with one candidate holding one text. *)
Definition reply_with_text (text : string) : http_reply :=
  Reply 200
    (Some (JObj [("candidates",
                  JArr [JObj [("content",
                               JObj [("parts",
                                      JArr [JObj [("text", JStr text)]])])]])])).

Definition long_text : string :=
  "  The University of Energy and Natural Resources is in Sunyani.  ".

(** Whether the lower-cased name of a record contains the lower-cased
    target; [None] when reading the name raises. *)
Definition name_has (target : string) (staff : json) : option bool :=
  match field_lower staff "name" with
  | Ok staff_name => Some (contains (lower target) staff_name)
  | Raise _ => None
  end.

(** The name scan gives nothing: no target is set, or no record has a
    name that contains it. *)
Definition name_scan_fails (target : option string) (staffs : list json)
    : Prop :=
  truthy_opt target = false \/
  exists t, target = Some t /\
            Forall (fun r => name_has t r = Some false) staffs.

(** The record the staff-directory strategy answers with: the first
    record whose name contains the target; when the name scan gives
    nothing, the record of maximal positive keyword score, the first one
    among equals; failing that, none. *)
Inductive staff_choice (target : option string) (kws : list string)
    (staffs : list json) : option json -> Prop :=
  | ChosenByName (t : string) (before : list json) (s : json)
      (after : list json) :
      target = Some t ->
      t <> "" ->
      staffs = (before ++ s :: after)%list ->
      Forall (fun r => name_has t r = Some false) before ->
      name_has t s = Some true ->
      staff_choice target kws staffs (Some s)
  | ChosenByScore (before : list json) (s : json) (after : list json)
      (n : nat) :
      name_scan_fails target staffs ->
      staffs = (before ++ s :: after)%list ->
      match_score kws s = Ok n ->
      (0 < n)%nat ->
      Forall (fun r => exists m, match_score kws r = Ok m /\ (m < n)%nat)
             before ->
      Forall (fun r => exists m, match_score kws r = Ok m /\ (m <= n)%nat)
             after ->
      staff_choice target kws staffs (Some s)
  | NothingChosen :
      name_scan_fails target staffs ->
      Forall (fun r => match_score kws r = Ok 0) staffs ->
      staff_choice target kws staffs None.

(** A descriptor with the keywords removed. *)
Definition without_keywords (qa : analysis) : analysis :=
  Analysis (type qa) (target_person qa) (target_department qa)
           (target_program qa) (target_topic qa) [] (is_uenr_related qa).

Definition short_dean_question : string := "Who is the dean?".

Definition staff_view : view := View sample_staff JNull JNull.

(** A strategy returns no answer: it returns, and what it returns is
    [None] or the empty string. *)
Definition no_answer (r : res (option string)) : Prop :=
  exists a, r = Ok a /\ truthy_answer a = false.

(** The prompt [post] builds for a request, from the rows of its session. *)
Definition prompt_of (w : world) (db : chat.table) (req : request)
    (question : string) : string :=
  _build_enhanced_prompt question
    (previous_context (chat.filter_session db (session_of w req))).

(** The row [post] writes. *)
Definition row_of (w : world) (req : request) (question answer source : string)
    (is_ai_augmented : bool) : chat.ChatConversation :=
  chat.Build (session_of w req) question answer source is_ai_augmented.

(** A text the scan accepts is a stripped text of at least the minimum
    length, cut at the maximum length. *)
Definition accepted (t : string) : Prop :=
  exists text,
    t = take MAX_RESPONSE_LENGTH text /\
    (MIN_RESPONSE_LENGTH <= String.length text)%nat.


(** A view whose three attributes hold ill-shaped values. *)
Definition odd_view : view := View (JInt 5) (JInt 7) (JStr "x").

(** The same world with another generation service. *)
Definition with_service (w : world) (api : service) : world :=
  World (files w) api (uuid4 w) (enforce_max_length w).

(** A key of a dict is absent or holds a string. *)
Definition text_or_absent (fields : list (string * json)) (key : string)
    : bool :=
  match lookup key fields with
  | None => true
  | Some (JStr _) => true
  | Some _ => false
  end.

(** A staff record the strategy can read: a dict whose name, position,
    role and department are absent or strings, and whose achievements
    are absent, a false value, a list or a string. *)
Definition well_formed_staff (staff : json) : bool :=
  match staff with
  | JObj fields =>
      text_or_absent fields "name" &&
      text_or_absent fields "current_position" &&
      text_or_absent fields "role" &&
      text_or_absent fields "department" &&
      match lookup "achievements" fields with
      | None => true
      | Some (JArr _) => true
      | Some (JStr _) => true
      | Some v => negb (truthy v)
      end
  | _ => false
  end.

(** A part of the documented shape: a dict whose text is absent or a
    string; and the stripped text it offers. *)
Definition shaped_part (part : json) : bool :=
  match part with
  | JObj fields => text_or_absent fields "text"
  | _ => false
  end.

Definition texts_of_part (part : json) : list string :=
  match part with
  | JObj fields =>
      match lookup "text" fields with
      | Some (JStr raw) => [strip raw]
      | _ => []
      end
  | _ => []
  end.

(** The parts of a candidate of the documented shape: a dict whose
    content is absent or a dict whose parts are absent or a list. *)
Definition parts_of_candidate (candidate : json) : option (list json) :=
  match candidate with
  | JObj fields =>
      match lookup "content" fields with
      | None => Some []
      | Some (JObj content) =>
          match lookup "parts" content with
          | None => Some []
          | Some (JArr parts) => Some parts
          | Some _ => None
          end
      | Some _ => None
      end
  | _ => None
  end.

Definition shaped_candidate (candidate : json) : bool :=
  match parts_of_candidate candidate with
  | Some parts => forallb shaped_part parts
  | None => false
  end.

Definition texts_of_candidate (candidate : json) : list string :=
  match parts_of_candidate candidate with
  | Some parts => flat_map texts_of_part parts
  | None => []
  end.

(** A text reaches the minimum length. *)
Definition long_enough (text : string) : bool :=
  (MIN_RESPONSE_LENGTH <=? String.length text)%nat.

(** A reply with a short first candidate and two longer texts after it. *)
Definition mixed_reply : http_reply :=
  Reply 200
    (Some (JObj
       [("candidates",
         JArr [JObj [("content",
                      JObj [("parts", JArr [JObj [("text", JStr "Hi.")]])])];
               JObj [("finishReason", JStr "STOP")];
               JObj [("content",
                      JObj [("parts",
                             JArr [JObj [("inlineData", JNull)];
                                   JObj [("text", JStr long_text)];
                                   JObj [("text",
                                          JStr (long_text ++ long_text))]])])]])])).

(** The block of the context that one turn gives. *)
Definition turn_text (question answer : string) : string :=
  ("User: " ++ question ++ newline ++ "Bot: " ++ answer)%string.

(** A row of another session. *)
Definition foreign_row : chat.ChatConversation :=
  chat.Build "another-session" "What are the fees?" apology "Fallback" false.

(** A second request of the session of the first. *)
Definition follow_up : request :=
  Request (Some "And where is it?") (Some "3f2b8c1e").

(** A request of another session, in a world that reaches the service. *)
Definition foreign_request : request :=
  Request (Some "What are the fees?") (Some "another-session").

Definition online_world : world :=
  World sample_files (fun _ => reply_with_text long_text) "7a1d4e90" false.



(** The character of code 0, and a request whose session id holds it. *)
Definition nul : string := String (ascii_of_nat 0) EmptyString.

Definition nul_session_request : request :=
  Request (Some library_question) (Some ("3f2b" ++ nul ++ "8c1e")).

(** A database that runs every read of the history; one whose driver
    refuses a text parameter that holds the character of code 0 (as
    psycopg2 does, with a [ValueError]); one that cannot be reached. *)
Definition readable : backend := fun _ => None.

Definition nul_refusing : backend :=
  fun sid => if contains nul sid then Some ValueError else None.

Definition unreachable : backend := fun _ => Some OperationalError.

(** Descriptors made by hand: one with a target person, one with
    keywords only. *)
Definition named_descriptor : analysis :=
  Analysis "person_query" (Some "ama") None None None ["dean"] true.

Definition keyword_descriptor : analysis :=
  Analysis "person_query" None None None None ["dean"; "science"] true.

(** A department profile with seven courses. *)
Definition sample_profile : json :=
  JObj [("department",
         JObj [("name", JStr "Department of Information Technology");
               ("courses_offered",
                JArr [JStr "Programming"; JStr "Databases"; JStr "Networks";
                      JStr "Web Design"; JStr "Algorithms";
                      JStr "Security"; JStr "Statistics"])])].

Definition course_question : string := "Which course is offered in IT?".

(** The value [d.get(key)] gives for a dict given by its items. *)
Definition value_of (fields : list (string * json)) (key : string) : json :=
  match lookup key fields with
  | Some v => v
  | None => JNull
  end.

Definition university_question : string :=
  "Which faculty is the biggest at the university?".

Definition university_dean_question : string :=
  "Who is the dean of the university?".

(** A staff record without name. *)
Definition unnamed_lecturer : json :=
  JObj [("current_position", JStr "Lecturer")].

(** A text begins with another. *)
Definition begins (start text : string) : Prop :=
  exists rest, text = (start ++ rest)%string.

(** A strategy answers: it returns a non-empty text. *)
Definition answers (r : res (option string)) (text : string) : Prop :=
  r = Ok (Some text) /\ text <> "".

(** The scores 0 to 100. *)
Definition percent_scores : list Z := map Z.of_nat (seq 0 101).

(** The scores 0 to 99, each of which has a next score. *)
Definition percent_steps : list Z := map Z.of_nat (seq 0 100).

(** A record of a course with a raw score and nothing assigned yet. *)
Definition scored_record (score : option Z) : main.AcademicRecord :=
  main.Record_ "CS 101" "2023/2024" "Harmattan" score None None None.

(** An integer of 64 bits. *)
Definition int64 (n : Z) : bool := (- 2 ^ 63 <=? n)%Z && (n <? 2 ^ 63)%Z.

(** A database of 64-bit integers that keeps no other bound on a row and
    returns, among equal upper bounds, the row inserted first; the
    framework formats the decimals. *)
Definition sample_database : main.database :=
  main.Database main.first_by_upper_bound
    (fun score => if int64 score then None else Some OverflowError)
    InvalidOperation
    (fun row =>
       match main.raw_score row with
       | Some score => if int64 score then None else Some OverflowError
       | None => None
       end).

(** A table whose one band has the grade point 10.00. *)
Definition ten_point_band : list main.GPA :=
  [gpa_data.band 0 100 "T" 1000 "Ten"].

(** What [save] hands to [super().save()] for a record and a table: the
    record as it is when it has no score or no band of the table holds
    the score, and otherwise the record with a band that holds the score
    and whose upper bound no other such band exceeds. *)
Definition graded (table : list main.GPA)
    (self candidate : main.AcademicRecord) : Prop :=
  match main.raw_score self with
  | None => candidate = self
  | Some score =>
      ((forall band, In band table -> main.contains_score score band = false)
       /\ candidate = self) \/
      exists band,
        In band table /\
        main.contains_score score band = true /\
        (forall other hi hi',
           In other table ->
           main.contains_score score other = true ->
           main.upper_bound band = Some hi ->
           main.upper_bound other = Some hi' ->
           (hi' <= hi)%Z) /\
        candidate = main.set_band self band
  end.

(** A table with two overlapping bands and a band without bounds. *)
Definition overlapping_bands : list main.GPA :=
  [main.Band None None (Some "X") None None;
   gpa_data.band 40 60 "P" 100 "Pass";
   gpa_data.band 50 100 "M" 300 "Merit"].

(** Every score of the list lies in exactly one band of the table. *)
Definition one_band_each (table : list main.GPA) (scores : list Z) : bool :=
  forallb (fun score =>
             (List.length (main.objects_filter table score) =? 1)%nat)
          scores.

(** The grade point of the band a score lies in. *)
Definition point_of (table : list main.GPA) (score : Z) : Z :=
  match main.objects_filter table score with
  | band :: _ =>
      match main.grade_point band with Some p => p | None => 0%Z end
  | [] => 0%Z
  end.

(** Grade points do not decrease from one score to the next. *)
Definition points_increase (table : list main.GPA) (scores : list Z) : bool :=
  forallb (fun score =>
             (point_of table score <=? point_of table (score + 1))%Z)
          scores.

(** The bounds of every band of the table lie between 0 and 100. *)
Definition within_percent (table : list main.GPA) : bool :=
  forallb (fun band =>
             match main.lower_bound band, main.upper_bound band with
             | Some lo, Some hi => (0 <=? lo)%Z && (hi <=? 100)%Z
             | _, _ => true
             end)
          table.

(** A table on which saving a record works as the seeded ones: every
    score from 0 to 100 lies in exactly one band, no band leaves that
    range, and grade points do not decrease with the score. *)
Definition grades_percent (table : list main.GPA) : bool :=
  one_band_each table percent_scores &&
  within_percent table &&
  points_increase table percent_steps.

(** What the loop of [first_by_upper_bound] holds: a row among the rows
    seen whose upper bound no row seen exceeds. *)
Definition best_of (seen : list main.GPA) (best : option main.GPA) : Prop :=
  match best with
  | None => seen = []
  | Some band =>
      In band seen /\
      forall other hi hi',
        In other seen ->
        main.upper_bound band = Some hi ->
        main.upper_bound other = Some hi' ->
        (hi' <= hi)%Z
  end.

(** Every character of a text satisfies a test. *)
Fixpoint all_chars (p : ascii -> bool) (s : string) : bool :=
  match s with
  | EmptyString => true
  | String c s' => p c && all_chars p s'
  end.

(** A keyword: at least three characters, all lower-case letters. *)
Definition keyword_ok (m : fmatch) : Prop :=
  (3 <= String.length (match_text m))%nat /\
  all_chars is_lower (match_text m) = true.

Local Open Scope nat_scope.

(* ================================================================== *)
(** ** The question classifier *)
(* ================================================================== *)

Section Classifier.

Lemma any_in_intro (words : list string) (text word : string) :
  In word words -> contains word text = true -> any_in words text = true.
Proof.
  intros Hin Hc. unfold any_in. apply existsb_exists. now exists word.
Qed.

(** The type of a question that names a person keyword. *)
Lemma person_branch (question : string) :
  any_in person_keywords (lower question) = true ->
  type (_understand_question question) = "person_query".
Proof.
  intros H. unfold _understand_question. rewrite H. reflexivity.
Qed.

(** The name loop runs over both patterns, and a later pattern that
    matches replaces what an earlier one stored. *)
Lemma extract_name_last_match (question : string) :
  extract_name question =
  match findall two_names_pattern question true with
  | m :: _ => Some (name_of_match m)
  | [] =>
      match findall title_name_pattern question true with
      | m :: _ => Some (name_of_match m)
      | [] => None
      end
  end.
Proof.
  unfold extract_name, name_patterns. cbn [fold_left].
  unfold store_first_match.
  destruct (findall two_names_pattern question true); reflexivity.
Qed.

(** C10: the person test is substring containment on the lower-cased
    question: a question whose lower-cased text contains one of the person
    keywords anywhere, also inside a longer word, gets the type
    person_query, whatever department, academic or topic words it holds. *)
Theorem person_keyword_substring_wins (question keyword : string) :
  In keyword person_keywords ->
  contains keyword (lower question) = true ->
  type (_understand_question question) = "person_query".
Proof.
  intros Hin Hc. apply person_branch. now apply any_in_intro with keyword.
Qed.

Lemma person_keyword_substring_wins_witness :
  In "dr" person_keywords /\
  contains "dr" (lower address_question) = true /\
  contains "who" (lower address_question) = false /\
  any_in ["department"; "school"; "faculty"] (lower address_question) = true /\
  type (_understand_question address_question) = "person_query".
Proof.
  split; [ cbn; tauto | ].
  split; [ reflexivity | ].
  split; [ reflexivity | ].
  split; [ reflexivity | ].
  apply (person_keyword_substring_wins address_question "dr");
    [ cbn; tauto | reflexivity ].
Defined.

Ltac split_rule :=
  match goal with
  | |- context [if any_in ?ws ?t then _ else _] => destruct (any_in ws t)
  end.

Lemma type_in_intent_types (question : string) :
  In (type (_understand_question question)) intent_types.
Proof.
  unfold _understand_question.
  repeat split_rule; cbn [type intent_types In]; tauto.
Qed.

(** C9: the classifier is a total, deterministic function: a question
    (under 1000 characters) has exactly one descriptor, its type is
    exactly one of the nine type values, and two runs give the same
    descriptor. *)
Theorem classifier_total_deterministic (question : string) :
  String.length question < 1000 ->
  (exists! d : analysis, _understand_question question = d) /\
  (exists! ty : string,
     In ty intent_types /\ type (_understand_question question) = ty) /\
  (forall run1 run2 : analysis,
     run1 = _understand_question question ->
     run2 = _understand_question question -> run1 = run2).
Proof.
  intros _. split; [ | split ].
  - exists (_understand_question question). split; [ reflexivity | auto ].
  - exists (type (_understand_question question)). split.
    + split; [ apply type_in_intent_types | reflexivity ].
    + intros ty [_ H]. exact H.
  - intros run1 run2 -> ->. reflexivity.
Qed.

Lemma classifier_total_deterministic_witness :
  String.length dean_question < 1000 /\
  (exists! d : analysis, _understand_question dean_question = d) /\
  (exists! ty : string,
     In ty intent_types /\ type (_understand_question dean_question) = ty) /\
  (forall run1 run2 : analysis,
     run1 = _understand_question dean_question ->
     run2 = _understand_question dean_question -> run1 = run2).
Proof.
  split.
  - cbv. repeat constructor.
  - apply (classifier_total_deterministic dean_question).
    cbv. repeat constructor.
Defined.

(** C1: what the classifier computes for the Dean question of the
    specification.  No title pattern matches, the two-names pattern,
    compiled with IGNORECASE, matches "Who is", so the target person is
    "Who Is" and role inference (which would give "Dean") is not reached.
    On "Who is Dr. Kwame Mensah?" the title pattern matches first, and the
    two-names pattern then replaces its result. *)
Theorem dean_question_target_person :
  type (_understand_question dean_question) = "person_query" /\
  findall title_name_pattern dean_question true = [] /\
  hd_error (findall two_names_pattern dean_question true) =
    Some (MTuple ["Who"; "is"]) /\
  target_person (_understand_question dean_question) = Some "Who Is" /\
  infer_role (lower dean_question) = Some "Dean" /\
  hd_error (findall title_name_pattern "Who is Dr. Kwame Mensah?" true) =
    Some (MTuple ["Dr."; "Kwame"; "Mensah"]) /\
  target_person (_understand_question "Who is Dr. Kwame Mensah?") =
    Some "Who Is".
Proof.
  repeat split; vm_compute; reflexivity.
Qed.

End Classifier.

(* ================================================================== *)
(** ** The academic guide and the grading question *)
(* ================================================================== *)

Section Grading.

(** X2: for a descriptor of type grading_query and a guide whose
    Grading_System.Grades is a non-empty list of dicts, the academic-guide
    strategy answers with the header, then at most the first three bands,
    each formatted "<Grade> (<Mark>) - <Interpretation>", joined by "; "
    in the order of the document, then a full stop. *)
Lemma grading_branch (self : view) (qa : analysis) (fields : list (string * json))
    (grading : list (string * json)) (bands : list json) (lines : list string) :
  guide_data self = JObj fields ->
  fields <> [] ->
  type qa = "grading_query" ->
  lookup "Grading_System" fields = Some (JObj grading) ->
  lookup "Grades" grading = Some (JArr bands) ->
  bands <> [] ->
  map_res format_grade bands = Ok lines ->
  _search_academic_info self qa =
  Ok (Some ("UENR uses the following grading system: " ++
            join "; " (firstn 3 lines) ++ ".")).
Proof.
  intros Hg Hne Hty Hgs Hgr Hb Hl.
  unfold _search_academic_info. rewrite Hg, Hty.
  destruct fields as [| f fs]; [ congruence | ].
  cbn [truthy negb].
  change (String.eqb "grading_query" "academic_query") with false.
  change (String.eqb "grading_query" "grading_query") with true.
  cbn [andb].
  unfold get_or, get. rewrite Hgs. cbn [bind]. unfold get_or. rewrite Hgr.
  cbn [bind]. destruct bands as [| b bs]; [ congruence | ].
  cbn [truthy iter bind]. rewrite Hl. reflexivity.
Qed.

Lemma grading_branch_witness :
  type (_understand_question "What is my gpa?") = "grading_query" /\
  _search_academic_info (View JNull sample_guide JNull)
    (_understand_question "What is my gpa?") =
  Ok (Some ("UENR uses the following grading system: " ++
            join "; " ["A (80-100) - Excellent"; "B+ (75-79) - Very Good";
                       "B (70-74) - Good"] ++ "."))%string.
Proof.
  split; [ reflexivity | ].
  eapply (grading_branch (View JNull sample_guide JNull)
            (_understand_question "What is my gpa?") _ _ _
            ["A (80-100) - Excellent"; "B+ (75-79) - Very Good";
             "B (70-74) - Good"; "C+ (65-69) - Fair"]).
  - reflexivity.
  - discriminate.
  - reflexivity.
  - reflexivity.
  - reflexivity.
  - discriminate.
  - reflexivity.
Defined.

(** C4: the grading question of the specification is not classified as a
    grading query: "grading" contains none of "grade", "gpa", "score",
    "mark", and no other rule applies, so its type is general and the
    academic-guide strategy answers from the About section; a question
    that is classified as a grading query gets the first three bands. *)
Theorem grading_question_is_general :
  any_in ["grade"; "gpa"; "score"; "mark"] (lower grading_question) = false /\
  type (_understand_question grading_question) = "general" /\
  _search_academic_info (View JNull sample_guide JNull)
    (_understand_question grading_question) =
    Ok (Some "UENR is a public university. ") /\
  fst (fst (post offline_world __init__ [] (ask grading_question))) =
    Response200 "3f2b8c1e" "UENR is a public university. " "GUIDE_JSON"
      false /\
  type (_understand_question "What is my gpa?") = "grading_query" /\
  _search_academic_info (View JNull sample_guide JNull)
    (_understand_question "What is my gpa?") =
    Ok (Some "UENR uses the following grading system: A (80-100) - Excellent; B+ (75-79) - Very Good; B (70-74) - Good.").
Proof.
  repeat split; vm_compute; reflexivity.
Qed.

End Grading.

(* ================================================================== *)
(** ** The knowledge store *)
(* ================================================================== *)

Section KnowledgeStore.

Lemma load_json_failure (fs : filesystem) (path : string) :
  fs path = Missing \/ fs path = Malformed -> _load_json fs path = JNull.
Proof.
  unfold _load_json, read_json. intros [-> | ->]; reflexivity.
Qed.

Lemma load_json_agree (fs fs' : filesystem) (path : string) :
  fs' path = fs path -> _load_json fs' path = _load_json fs path.
Proof.
  unfold _load_json, read_json. now intros ->.
Qed.

Lemma paths_differ (d d' : document) : d' <> d -> path_of d' <> path_of d.
Proof.
  destruct d, d'; intros H E; try (now apply H); discriminate E.
Qed.

(** What [_initialize_data] leaves in each attribute. *)
Lemma initialize_loaded (fs : filesystem) (self : view) (d : document) :
  loaded d (_initialize_data fs self) =
  if is_None (loaded d self)
  then py_or (_load_json fs (path_of d)) (empty_container d)
  else loaded d self.
Proof.
  unfold _initialize_data.
  destruct self as [s g i].
  cbn [staff_data guide_data it_dept_data].
  destruct (is_None s) eqn:Hs; cbn [staff_data guide_data it_dept_data];
    destruct (is_None g) eqn:Hg; cbn [staff_data guide_data it_dept_data];
    destruct (is_None i) eqn:Hi;
    destruct d;
    cbn [loaded staff_data guide_data it_dept_data path_of empty_container];
    rewrite ?Hs, ?Hg, ?Hi; reflexivity.
Qed.

(** C8: a missing or malformed document does not raise past the load:
    [_load_json] returns [None] for it, the attribute of that document
    becomes the empty container (empty list for the staff directory, empty
    dict for the guide and the department profile), and the other two
    attributes are what they are under any file system that differs only
    at the path of the failed document. *)
Theorem load_failure_degrades_one_document
    (fs : filesystem) (self : view) (d : document) :
  fs (path_of d) = Missing \/ fs (path_of d) = Malformed ->
  loaded d self = JNull ->
  _load_json fs (path_of d) = JNull /\
  loaded d (_initialize_data fs self) = empty_container d /\
  (forall (fs' : filesystem) (d' : document),
     (forall path, path <> path_of d -> fs' path = fs path) ->
     d' <> d ->
     loaded d' (_initialize_data fs self) =
     loaded d' (_initialize_data fs' self)).
Proof.
  intros Hfail Hnone.
  pose proof (load_json_failure fs (path_of d) Hfail) as Hload.
  split; [ exact Hload | split ].
  - rewrite initialize_loaded, Hnone, Hload. cbn [is_None].
    unfold py_or. cbn [truthy]. reflexivity.
  - intros fs' d' Hagree Hd. rewrite !initialize_loaded.
    rewrite (load_json_agree fs fs' (path_of d')); [ reflexivity | ].
    apply Hagree. now apply paths_differ.
Qed.

Lemma load_failure_degrades_one_document_witness :
  guide_only_files (path_of StaffDirectory) = Malformed /\
  loaded StaffDirectory (_initialize_data guide_only_files __init__) = JArr [] /\
  loaded DepartmentProfile (_initialize_data guide_only_files __init__) = JObj [] /\
  loaded AcademicGuide (_initialize_data guide_only_files __init__) =
    loaded AcademicGuide (_initialize_data sample_files __init__) /\
  loaded AcademicGuide (_initialize_data guide_only_files __init__) = sample_guide.
Proof.
  assert (Hs : guide_only_files (path_of StaffDirectory) = Missing \/
               guide_only_files (path_of StaffDirectory) = Malformed)
    by (right; reflexivity).
  assert (Hi : guide_only_files (path_of DepartmentProfile) = Missing \/
               guide_only_files (path_of DepartmentProfile) = Malformed)
    by (left; reflexivity).
  destruct (load_failure_degrades_one_document guide_only_files __init__
              StaffDirectory Hs eq_refl) as [_ [Hstaff _]].
  destruct (load_failure_degrades_one_document guide_only_files __init__
              DepartmentProfile Hi eq_refl) as [_ [Hit _]].
  split; [ reflexivity | ].
  split; [ exact Hstaff | ].
  split; [ exact Hit | ].
  split; reflexivity.
Defined.

End KnowledgeStore.

(* ================================================================== *)
(** ** The client of the generation service *)
(* ================================================================== *)

Section FallbackClient.

Lemma length_take (n : nat) (s : string) :
  String.length (take n s) = Nat.min n (String.length s).
Proof.
  revert s. induction n as [| n IH]; intros [| c s]; cbn; auto.
Qed.

Lemma accepted_bounds (t : string) :
  accepted t ->
  MIN_RESPONSE_LENGTH <= String.length t <= MAX_RESPONSE_LENGTH.
Proof.
  intros [text [-> Hmin]]. rewrite length_take.
  unfold MIN_RESPONSE_LENGTH, MAX_RESPONSE_LENGTH in *. lia.
Qed.

Lemma scan_parts_accepted (parts : list json) (t : string) :
  scan_parts parts = Ok (Some t) -> accepted t.
Proof.
  induction parts as [| part rest IH]; cbn [scan_parts]; [ discriminate | ].
  destruct (py_in "text" part) as [has |]; cbn [bind]; [ | discriminate ].
  destruct has; [ | exact IH ].
  destruct (getitem part "text") as [raw |]; cbn [bind]; [ | discriminate ].
  destruct (strip_of raw) as [text |]; cbn [bind]; [ | discriminate ].
  destruct (MIN_RESPONSE_LENGTH <=? String.length text) eqn:Hlen.
  - intros [= <-]. exists text. split; [ reflexivity | ].
    now apply Nat.leb_le.
  - exact IH.
Qed.

Lemma scan_candidates_accepted (candidates : list json) (t : string) :
  scan_candidates candidates = Ok (Some t) -> accepted t.
Proof.
  induction candidates as [| c rest IH]; cbn [scan_candidates];
    [ discriminate | ].
  destruct (get_or c "content" (JObj [])) as [content |]; cbn [bind];
    [ | discriminate ].
  destruct (get_or content "parts" (JArr [])) as [parts |]; cbn [bind];
    [ | discriminate ].
  destruct (iter parts) as [visited |]; cbn [bind]; [ | discriminate ].
  destruct (scan_parts visited) as [[text |] |] eqn:Hparts; cbn [bind];
    [ | exact IH | discriminate ].
  intros [= <-]. now apply scan_parts_accepted with visited.
Qed.

Lemma read_reply_accepted (reply : http_reply) (t : string) :
  read_reply reply = Ok (Some t) -> accepted t.
Proof.
  destruct reply as [| status [result |]]; cbn [read_reply];
    [ discriminate | | ].
  - destruct (400 <=? status); [ discriminate | ].
    destruct (get result "candidates") as [candidates |]; cbn [bind];
      [ | discriminate ].
    destruct (truthy candidates); [ | discriminate ].
    destruct (iter candidates) as [visited |]; cbn [bind]; [ | discriminate ].
    apply scan_candidates_accepted.
  - destruct (400 <=? status); discriminate.
Qed.

Lemma scan_parts_short (parts : list json) :
  forallb short_part parts = true -> scan_parts parts = Ok None.
Proof.
  induction parts as [| part rest IH]; [ reflexivity | ].
  cbn [forallb]. intros H. apply andb_prop in H as [Hp Hrest].
  specialize (IH Hrest). cbn [scan_parts].
  destruct part as [| | | | | | fields]; try discriminate Hp.
  cbn [short_part] in Hp. cbn [py_in getitem].
  destruct (lookup "text" fields) as [[| | | | raw | |] |]; try discriminate Hp;
    cbn [bind]; [ | exact IH ].
  cbn [strip_of bind]. apply Nat.ltb_lt in Hp.
  destruct (MIN_RESPONSE_LENGTH <=? String.length (strip raw)) eqn:Hlen;
    [ apply Nat.leb_le in Hlen; lia | exact IH ].
Qed.

Lemma scan_candidates_short (candidates : list json) :
  forallb short_candidate candidates = true ->
  scan_candidates candidates = Ok None.
Proof.
  induction candidates as [| c rest IH]; [ reflexivity | ].
  cbn [forallb]. intros H. apply andb_prop in H as [Hc Hrest].
  specialize (IH Hrest). cbn [scan_candidates].
  destruct c as [| | | | | | fields]; try discriminate Hc.
  cbn [short_candidate] in Hc. cbn [get_or].
  destruct (lookup "content" fields) as [[| | | | | | content] |];
    try discriminate Hc; cbn [bind get_or].
  - destruct (lookup "parts" content) as [[| | | | | parts |] |];
      try discriminate Hc; cbn [bind iter].
    + rewrite (scan_parts_short parts Hc). exact IH.
    + cbn [scan_parts]. exact IH.
  - cbn [lookup bind iter scan_parts]. exact IH.
Qed.

(** C7: the client does not raise to its caller: every exception of the
    body is turned into no answer.  It returns no answer on a transport
    error, on an HTTP error status, on a body that is not JSON, on an
    empty or absent candidate list and when every extracted text is
    shorter than 50 once stripped; a text it returns is a stripped text
    of length at least 50 cut at 1500, so its length is between 50 and
    1500. *)
Theorem fallback_client_fail_soft (api : service) (prompt : string) :
  (forall e, read_reply (api prompt) = Raise e ->
             _call_gemini_api api prompt = None) /\
  (api prompt = NoReply -> _call_gemini_api api prompt = None) /\
  (forall status body,
     api prompt = Reply status body -> 400 <= status ->
     _call_gemini_api api prompt = None) /\
  (forall status,
     api prompt = Reply status None -> _call_gemini_api api prompt = None) /\
  (forall status fields,
     api prompt = Reply status (Some (JObj fields)) ->
     lookup "candidates" fields = None \/
     lookup "candidates" fields = Some (JArr []) ->
     _call_gemini_api api prompt = None) /\
  (forall status fields candidates,
     api prompt = Reply status (Some (JObj fields)) ->
     lookup "candidates" fields = Some (JArr candidates) ->
     forallb short_candidate candidates = true ->
     _call_gemini_api api prompt = None) /\
  (forall t,
     _call_gemini_api api prompt = Some t ->
     accepted t /\
     MIN_RESPONSE_LENGTH <= String.length t <= MAX_RESPONSE_LENGTH).
Proof.
  unfold _call_gemini_api. repeat split.
  - intros e ->. reflexivity.
  - intros ->. reflexivity.
  - intros status body -> Hst. cbn [read_reply].
    apply Nat.leb_le in Hst. rewrite Hst. reflexivity.
  - intros status ->. cbn [read_reply]. destruct (400 <=? status); reflexivity.
  - intros status fields -> [Hc | Hc]; cbn [read_reply];
      destruct (400 <=? status); try reflexivity;
      unfold get, get_or; rewrite Hc; reflexivity.
  - intros status fields candidates -> Hc Hshort. cbn [read_reply].
    destruct (400 <=? status); [ reflexivity | ].
    unfold get, get_or. rewrite Hc. cbn [bind].
    destruct candidates as [| c rest]; [ reflexivity | ].
    cbn [truthy iter bind]. now rewrite scan_candidates_short.
  - destruct (read_reply (api prompt)) as [[t' |] |] eqn:Hr;
      cbn [try_except] in *; try discriminate.
    match goal with H : Some _ = Some _ |- _ => injection H as <- end.
    now apply read_reply_accepted with (api prompt).
  - apply accepted_bounds.
    destruct (read_reply (api prompt)) as [[t' |] |] eqn:Hr;
      cbn [try_except] in *; try discriminate.
    match goal with H : Some _ = Some _ |- _ => injection H as <- end.
    now apply read_reply_accepted with (api prompt).
  - apply accepted_bounds.
    destruct (read_reply (api prompt)) as [[t' |] |] eqn:Hr;
      cbn [try_except] in *; try discriminate.
    match goal with H : Some _ = Some _ |- _ => injection H as <- end.
    now apply read_reply_accepted with (api prompt).
Qed.

Lemma fallback_client_fail_soft_witness :
  _call_gemini_api (fun _ => NoReply) "Question: fees" = None /\
  _call_gemini_api (fun _ => Reply 503 None) "Question: fees" = None /\
  _call_gemini_api (fun _ => reply_with_text "Too short.") "Question: fees"
    = None /\
  _call_gemini_api (fun _ => reply_with_text long_text) "Question: fees"
    = Some (strip long_text) /\
  MIN_RESPONSE_LENGTH <= String.length (strip long_text)
    <= MAX_RESPONSE_LENGTH.
Proof.
  destruct (fallback_client_fail_soft (fun _ => NoReply) "Question: fees")
    as [_ [Hno _]].
  destruct (fallback_client_fail_soft (fun _ => Reply 503 None)
              "Question: fees") as [_ [_ [Hst _]]].
  destruct (fallback_client_fail_soft (fun _ => reply_with_text "Too short.")
              "Question: fees") as [_ [_ [_ [_ [_ [Hshort _]]]]]].
  destruct (fallback_client_fail_soft (fun _ => reply_with_text long_text)
              "Question: fees") as [_ [_ [_ [_ [_ [_ Hok]]]]]].
  split; [ exact (Hno eq_refl) | ].
  split; [ apply (Hst 503 None eq_refl); cbv; repeat constructor | ].
  split; [ exact (Hshort _ _ _ eq_refl eq_refl eq_refl) | ].
  split; [ reflexivity | ].
  exact (proj2 (Hok (strip long_text) eq_refl)).
Defined.

(** The bounds alone, as other proofs use them. *)
Lemma fallback_client_bounds (api : service) (prompt t : string) :
  _call_gemini_api api prompt = Some t ->
  MIN_RESPONSE_LENGTH <= String.length t <= MAX_RESPONSE_LENGTH.
Proof.
  unfold _call_gemini_api. intros H. apply accepted_bounds.
  destruct (read_reply (api prompt)) as [[t' |] |] eqn:Hr;
    cbn [try_except] in H; try discriminate.
  injection H as <-. now apply read_reply_accepted with (api prompt).
Qed.

End FallbackClient.

(* ================================================================== *)
(** ** The request handler *)
(* ================================================================== *)

Section Orchestrator.

Variable w : world.
Variable self : view.
Variable db : chat.table.
Variable req : request.
Variable question : string.

Hypothesis valid : MessageSerializer req = inr question.

Let self' : view := _initialize_data (files w) self.
Let context : string :=
  previous_context (chat.filter_session db (session_of w req)).
Let run : res (response * chat.table) :=
  snd (pipeline w self db question (session_of w req) context).

Lemma truthy_answer_some (a : option string) :
  truthy_answer a = true -> exists s, a = Some s.
Proof.
  destruct a as [s |]; [ now exists s | discriminate ].
Qed.

(** [_retrieve_info] returns either an answer with the tag of a document
    and no fallback, or no answer and the request for a fallback. *)
Lemma retrieve_from_shape (v : view) (q : string) (a : option string)
    (src : string) (nf : bool) :
  retrieve_from v q = Ok (a, src, nf) ->
  (nf = false /\ truthy_answer a = true /\
   In src ["IT_DEPT_JSON"; "STAFF_JSON"; "GUIDE_JSON"]) \/
  (a = None /\ src = "NONE" /\ nf = true).
Proof.
  unfold retrieve_from.
  destruct (if it_relevant _ _ then _ else _) as [a1 |]; cbn [bind];
    [ | discriminate ].
  destruct (truthy_answer a1) eqn:H1.
  { intros [= <- <- <-]. left.
    split; [ reflexivity | split; [ assumption | cbn; tauto ] ]. }
  destruct (if String.eqb _ _ then _ else _) as [a2 |]; cbn [bind];
    [ | discriminate ].
  destruct (truthy_answer a2) eqn:H2.
  { intros [= <- <- <-]. left.
    split; [ reflexivity | split; [ assumption | cbn; tauto ] ]. }
  destruct (_search_academic_info _ _) as [a3 |]; cbn [bind];
    [ | discriminate ].
  destruct (truthy_answer a3) eqn:H3.
  { intros [= <- <- <-]. left.
    split; [ reflexivity | split; [ assumption | cbn; tauto ] ]. }
  intros [= <- <- <-]. right. auto.
Qed.

(** When every strategy that is tried returns no answer, a fallback is
    requested. *)
Lemma retrieve_from_exhausted (v : view) (q : string) :
  (it_relevant (_understand_question q) q = true ->
   no_answer (_search_it_department_info v (_understand_question q))) ->
  (type (_understand_question q) = "person_query" ->
   no_answer (_search_staff_info v (_understand_question q))) ->
  no_answer (_search_academic_info v (_understand_question q)) ->
  retrieve_from v q = Ok (None, "NONE", true).
Proof.
  intros Hit Hstaff [a3 [E3 T3]]. unfold retrieve_from.
  destruct (it_relevant _ _).
  - destruct (Hit eq_refl) as [a1 [-> T1]]. cbn [bind]. rewrite T1.
    destruct (String.eqb (type (_understand_question q)) "person_query")
      eqn:Hty.
    + apply String.eqb_eq in Hty. destruct (Hstaff Hty) as [a2 [-> T2]].
      cbn [bind]. rewrite T2, E3. cbn [bind]. now rewrite T3.
    + cbn [bind truthy_answer truthy_opt]. rewrite E3. cbn [bind].
      now rewrite T3.
  - cbn [bind truthy_answer truthy_opt].
    destruct (String.eqb (type (_understand_question q)) "person_query")
      eqn:Hty.
    + apply String.eqb_eq in Hty. destruct (Hstaff Hty) as [a2 [-> T2]].
      cbn [bind]. rewrite T2, E3. cbn [bind]. now rewrite T3.
    + cbn [bind truthy_answer truthy_opt]. rewrite E3. cbn [bind].
      now rewrite T3.
Qed.

(** After the [if needs_fallback] statement there is an answer, and the
    source is one of five tags. *)
Lemma settle_some (api : service) (q ctx : string) (v : view)
    (found : option string * string * bool) :
  retrieve_from v q = Ok found ->
  exists answer source ai,
    settle api q ctx found = (Some answer, source, ai) /\
    In source source_tags.
Proof.
  destruct found as [[a src] nf]. intros H.
  apply retrieve_from_shape in H
    as [[-> [Ha Hsrc]] | [-> [-> ->]]]; cbn [settle].
  - apply truthy_answer_some in Ha as [s ->].
    exists s, src, false. split; [ reflexivity | ].
    cbn in Hsrc |- *. tauto.
  - destruct (_call_gemini_api api (_build_enhanced_prompt q ctx)) as [t |].
    + destruct (truthy_opt (Some t)).
      * exists t, "Gemini", true. split; [ reflexivity | cbn; tauto ].
      * exists apology, "Fallback", false. split; [ reflexivity | cbn; tauto ].
    + exists apology, "Fallback", false. split; [ reflexivity | cbn; tauto ].
Qed.

Lemma pipeline_run :
  run =
  (found <- retrieve_from self' question ;;
   match settle (gemini w) question context found with
   | (Some answer, source, ai) =>
       db' <- chat.create (enforce_max_length w) db
                (row_of w req question answer source ai) ;;
       Ok (Response200 (session_of w req) answer source ai, db')
   | (None, _, _) => Raise IntegrityError
   end)%py.
Proof. reflexivity. Qed.

Lemma post_run :
  post w self db req =
  match run with
  | Ok (resp, db') => (resp, self', db')
  | Raise _ => (Response500 service_error, self', db)
  end.
Proof.
  unfold post. rewrite valid. reflexivity.
Qed.

Lemma create_appends (strict : bool) (t t' : chat.table)
    (row : chat.ChatConversation) :
  chat.create strict t row = Ok t' -> t' = (t ++ [row])%list.
Proof.
  unfold chat.create. destruct (_ && _); [ discriminate | ].
  now intros [= <-].
Qed.

(** The steps of the guarded block that can raise are the retrieval and
    the insertion of the row. *)
Lemma run_raises (e : exn) :
  run = Raise e <->
  (retrieve_from self' question = Raise e \/
   exists found answer source ai,
     retrieve_from self' question = Ok found /\
     settle (gemini w) question context found = (Some answer, source, ai) /\
     chat.create (enforce_max_length w) db
       (row_of w req question answer source ai) = Raise e).
Proof.
  rewrite pipeline_run. split.
  - destruct (retrieve_from self' question) as [found | e'] eqn:Hr;
      cbn [bind].
    + destruct (settle_some (gemini w) question context self' found Hr)
        as [answer [source [ai [Hs _]]]].
      rewrite Hs.
      destruct (chat.create _ _ _) as [t' | e'] eqn:Hc; cbn [bind];
        [ discriminate | ].
      intros [= ->]. right. exists found, answer, source, ai. auto.
    + intros [= ->]. now left.
  - intros [H | [found [answer [source [ai [H1 [H2 H3]]]]]]].
    + rewrite H. reflexivity.
    + rewrite H1. cbn [bind]. rewrite H2, H3. reflexivity.
Qed.

(** A run that completes answers 200 and appends the row of the answer. *)
Lemma run_completes (resp : response) (db' : chat.table) :
  run = Ok (resp, db') ->
  exists answer source ai,
    resp = Response200 (session_of w req) answer source ai /\
    db' = (db ++ [row_of w req question answer source ai])%list /\
    In source source_tags.
Proof.
  rewrite pipeline_run.
  destruct (retrieve_from self' question) as [found | e'] eqn:Hr;
    cbn [bind]; [ | discriminate ].
  destruct (settle_some (gemini w) question context self' found Hr)
    as [answer [source [ai [Hs Htag]]]].
  rewrite Hs.
  destruct (chat.create _ _ _) as [t' | e'] eqn:Hc; cbn [bind];
    [ | discriminate ].
  intros [= <- <-]. exists answer, source, ai.
  split; [ reflexivity | split; [ now apply create_appends in Hc | exact Htag ] ].
Qed.

(** X1: the source of a 200 response is one of the five tags
    IT_DEPT_JSON, STAFF_JSON, GUIDE_JSON, Gemini, Fallback, and the table
    after the request is the table before it followed by one row that
    holds the session, question, answer, source and flag of the
    response. *)
Lemma post_source_tags (sid answer source : string) (ai : bool)
    (v : view) (db' : chat.table) :
  post w self db req = (Response200 sid answer source ai, v, db') ->
  In source source_tags /\
  db' = (db ++ [chat.Build sid question answer source ai])%list.
Proof.
  rewrite post_run.
  destruct run as [[resp t'] | e] eqn:Hrun; [ | discriminate ].
  destruct (run_completes resp t' Hrun) as [a [s [i [-> [-> Htag]]]]].
  intros [= <- <- <- <- _ <-]. split; [ exact Htag | reflexivity ].
Qed.

End Orchestrator.

Lemma post_source_tags_witness :
  In "GUIDE_JSON" source_tags /\
  snd (post offline_world __init__ [earlier_row] (ask about_question)) =
  [earlier_row;
   chat.Build "3f2b8c1e" about_question "UENR is a public university. "
     "GUIDE_JSON" false].
Proof.
  exact (post_source_tags offline_world __init__ [earlier_row]
           (ask about_question) about_question eq_refl
           "3f2b8c1e" "UENR is a public university. " "GUIDE_JSON" false
           (_initialize_data sample_files __init__)
           (snd (post offline_world __init__ [earlier_row]
                   (ask about_question)))
           eq_refl).
Defined.

(** The guarded block of [post], for a request that passes validation
    and whose history is read: when the block completes, the response is
    a 200 and exactly one row, the row of that answer, is appended to the
    table; when a step of the block raises (the retrieval, or the
    insertion of the row), no row is appended and the response is the
    generic 500 error. *)
Lemma one_turn_per_completed_run
    (w : world) (self : view) (db : chat.table) (req : request)
    (question : string) :
  MessageSerializer req = inr question ->
  let self' := _initialize_data (files w) self in
  let context :=
    previous_context (chat.filter_session db (session_of w req)) in
  let run := snd (pipeline w self db question (session_of w req) context) in
  (forall resp db',
     run = Ok (resp, db') ->
     exists answer source ai,
       post w self db req =
       (Response200 (session_of w req) answer source ai, self',
        (db ++ [row_of w req question answer source ai])%list) /\
       List.length (snd (post w self db req)) = S (List.length db)) /\
  (forall e,
     run = Raise e ->
     post w self db req = (Response500 service_error, self', db)) /\
  (forall e,
     run = Raise e <->
     (retrieve_from self' question = Raise e \/
      exists found answer source ai,
        retrieve_from self' question = Ok found /\
        settle (gemini w) question context found = (Some answer, source, ai) /\
        chat.create (enforce_max_length w) db
          (row_of w req question answer source ai) = Raise e)) /\
  (retrieve_from self' question = Ok (None, "NONE", true) ->
   _call_gemini_api (gemini w) (prompt_of w db req question) = None ->
   enforce_max_length w = false ->
   post w self db req =
   (Response200 (session_of w req) apology "Fallback" false, self',
    (db ++ [row_of w req question apology "Fallback" false])%list)).
Proof.
  intros valid self' context run.
  pose proof (post_run w self db req question valid) as Hpost.
  fold self' context run in Hpost.
  split; [ | split; [ | split ] ].
  - intros resp db' Hrun.
    destruct (run_completes w self db req question resp db' Hrun)
      as [answer [source [ai [-> [-> _]]]]].
    exists answer, source, ai. rewrite Hpost. fold run. rewrite Hrun.
    split; [ reflexivity | ].
    cbn [snd]. rewrite length_app. cbn [List.length]. lia.
  - intros e Hrun. rewrite Hpost. fold run. now rewrite Hrun.
  - intros e. apply (run_raises w self db req question e).
  - intros Hr Hai Hlax. rewrite Hpost.
    subst run context self'. unfold prompt_of in Hai.
    rewrite (pipeline_run w self db req question), Hr.
    cbn [bind settle]. rewrite Hai. cbn [truthy_opt].
    unfold chat.create. rewrite Hlax. reflexivity.
Qed.

(** When the read of the history returns, the call is [post]. *)
Lemma post_call_reads (refuses : backend) (w : world) (self : view)
    (db : chat.table) (req : request) :
  refuses (session_of w req) = None ->
  post_call refuses w self db req = Ok (post w self db req).
Proof.
  intros Hread. unfold post_call, post, history_of.
  destruct (MessageSerializer req) as [errors | question]; [ reflexivity | ].
  rewrite Hread. cbn [bind].
  destruct (pipeline _ _ _ _ _ _) as [v [[resp db'] | e]]; reflexivity.
Qed.

(** When the read of the history raises, the exception leaves the call. *)
Lemma post_call_raises (refuses : backend) (w : world) (self : view)
    (db : chat.table) (req : request) (question : string) (e : exn) :
  MessageSerializer req = inr question ->
  refuses (session_of w req) = Some e ->
  post_call refuses w self db req = Raise e.
Proof.
  intros Hvalid Hread. unfold post_call, history_of.
  rewrite Hvalid, Hread. reflexivity.
Qed.

(** C5: the read of the session history is a step of the handling of a
    validated request, and it stands before the [try] statement.  When it
    raises, no row is appended, but the exception leaves [post]: the
    caller does not receive the generic 500 response.  This is evaluated
    on a request whose session id holds the character of code 0, for a
    database whose driver refuses such a parameter, and on a request
    without session id, for a database that cannot be reached.  On a
    database that runs the read, the second request is answered with a
    200 and one new row, and an exception inside the [try] statement is
    answered with the generic 500 and no new row. *)
Theorem history_read_is_not_guarded :
  MessageSerializer nul_session_request = inr library_question /\
  history_of nul_refusing [earlier_row]
    (session_of offline_world nul_session_request) = Raise ValueError /\
  post_call nul_refusing offline_world __init__ [earlier_row]
    nul_session_request = Raise ValueError /\
  MessageSerializer (ask library_question) = inr library_question /\
  post_call unreachable offline_world __init__ [earlier_row]
    (ask library_question) = Raise OperationalError /\
  post_call readable offline_world __init__ [earlier_row]
    (ask library_question) =
  Ok (Response200 "3f2b8c1e" apology "Fallback" false,
      _initialize_data sample_files __init__,
      [earlier_row;
       chat.Build "3f2b8c1e" library_question apology "Fallback" false]) /\
  post_call readable nameless_world __init__ [earlier_row]
    (ask "Who is the dean?") =
  Ok (Response500 service_error,
      _initialize_data (files nameless_world) __init__, [earlier_row]).
Proof.
  repeat split; vm_compute; reflexivity.
Qed.

(** X22: every outcome of [post] for a request that passes validation.
    When the read of the session history raises, the exception leaves the
    method and nothing is appended.  When the read returns and the guarded
    block completes, the response is a 200 and the table is the old one
    followed by the one row of that answer; this includes the run where
    no document answers and the generation service gives nothing.  When
    the read returns and a step of the guarded block raises (the
    retrieval, or the insertion of the row), the response is the generic
    500 error and the table is unchanged. *)
Theorem handler_outcomes
    (refuses : backend) (w : world) (self : view) (db : chat.table)
    (req : request) (question : string) :
  MessageSerializer req = inr question ->
  let self' := _initialize_data (files w) self in
  let context :=
    previous_context (chat.filter_session db (session_of w req)) in
  let run := snd (pipeline w self db question (session_of w req) context) in
  (forall e,
     refuses (session_of w req) = Some e ->
     post_call refuses w self db req = Raise e) /\
  (refuses (session_of w req) = None ->
   (forall resp db',
      run = Ok (resp, db') ->
      exists answer source ai,
        post_call refuses w self db req =
        Ok (Response200 (session_of w req) answer source ai, self',
            (db ++ [row_of w req question answer source ai])%list)) /\
   (forall e,
      run = Raise e ->
      post_call refuses w self db req =
      Ok (Response500 service_error, self', db)) /\
   (retrieve_from self' question = Ok (None, "NONE", true) ->
    _call_gemini_api (gemini w) (prompt_of w db req question) = None ->
    enforce_max_length w = false ->
    post_call refuses w self db req =
    Ok (Response200 (session_of w req) apology "Fallback" false, self',
        (db ++ [row_of w req question apology "Fallback" false])%list))) /\
  (forall e,
     run = Raise e <->
     (retrieve_from self' question = Raise e \/
      exists found answer source ai,
        retrieve_from self' question = Ok found /\
        settle (gemini w) question context found = (Some answer, source, ai) /\
        chat.create (enforce_max_length w) db
          (row_of w req question answer source ai) = Raise e)).
Proof.
  intros valid self' context run.
  destruct (one_turn_per_completed_run w self db req question valid)
    as [Hdone [Hraise [Hsteps Hfallback]]].
  fold self' context run in Hdone, Hraise, Hsteps, Hfallback.
  split; [ | split ].
  - intros e Hread.
    exact (post_call_raises refuses w self db req question e valid Hread).
  - intros Hread. rewrite (post_call_reads refuses w self db req Hread).
    split; [ | split ].
    + intros resp db' Hrun.
      destruct (Hdone resp db' Hrun) as [answer [source [ai [Hpost _]]]].
      exists answer, source, ai. now rewrite Hpost.
    + intros e Hrun. now rewrite (Hraise e Hrun).
    + intros Hr Hai Hlax. now rewrite (Hfallback Hr Hai Hlax).
  - exact Hsteps.
Qed.

Lemma handler_outcomes_witness :
  MessageSerializer nul_session_request = inr library_question /\
  post_call nul_refusing offline_world __init__ [earlier_row]
    nul_session_request = Raise ValueError /\
  MessageSerializer (ask library_question) = inr library_question /\
  (exists answer source ai,
     post_call readable offline_world __init__ [earlier_row]
       (ask library_question) =
     Ok (Response200 "3f2b8c1e" answer source ai,
         _initialize_data sample_files __init__,
         [earlier_row;
          chat.Build "3f2b8c1e" library_question answer source ai])) /\
  post_call readable nameless_world __init__ [earlier_row]
    (ask "Who is the dean?") =
  Ok (Response500 service_error,
      _initialize_data (files nameless_world) __init__, [earlier_row]).
Proof.
  split; [ reflexivity | split; [ | split; [ reflexivity | split ] ] ].
  - destruct (handler_outcomes nul_refusing offline_world __init__
                [earlier_row] nul_session_request library_question eq_refl)
      as [Hread _].
    exact (Hread ValueError eq_refl).
  - destruct (handler_outcomes readable offline_world __init__ [earlier_row]
                (ask library_question) library_question eq_refl)
      as [_ [Hreturns _]].
    destruct (Hreturns eq_refl) as [Hdone _].
    exact (Hdone
             (Response200 "3f2b8c1e" apology "Fallback" false)
             [earlier_row;
              chat.Build "3f2b8c1e" library_question apology "Fallback" false]
             eq_refl).
  - destruct (handler_outcomes readable nameless_world __init__ [earlier_row]
                (ask "Who is the dean?") "Who is the dean?" eq_refl)
      as [_ [Hreturns _]].
    destruct (Hreturns eq_refl) as [_ [Hraise _]].
    exact (Hraise AttributeError eq_refl).
Defined.

Lemma call_gemini_truthy (api : service) (prompt t : string) :
  _call_gemini_api api prompt = Some t -> truthy_opt (Some t) = true.
Proof.
  intros H.
  destruct (fallback_client_bounds api prompt t H) as [Hmin _].
  destruct t; [ cbv in Hmin; lia | reflexivity ].
Qed.




(** C2: the source of a 200 response and of the row written with it.
    For a question answered from the guide the source is "GUIDE_JSON",
    and for one answered from the staff directory it is "STAFF_JSON";
    neither is one of the choices "JSON", "Gemini", "Fallback" that
    [ChatConversation.source] declares, and the value "JSON" is not
    among the tags the handler uses. *)
Theorem guide_source_outside_choices :
  post offline_world __init__ [] (ask about_question) =
  (Response200 "3f2b8c1e" "UENR is a public university. " "GUIDE_JSON" false,
   _initialize_data sample_files __init__,
   [chat.Build "3f2b8c1e" about_question "UENR is a public university. "
      "GUIDE_JSON" false]) /\
  fst (fst (post offline_world __init__ [] (ask "Who is the dean?"))) =
  Response200 "3f2b8c1e"
    "Kwame Mensah is the Dean of Engineering at UENR. " "STAFF_JSON" false /\
  ~ In "GUIDE_JSON" chat.source_choices /\
  ~ In "STAFF_JSON" chat.source_choices /\
  ~ In "JSON" source_tags.
Proof.
  split; [ vm_compute; reflexivity | ].
  split; [ vm_compute; reflexivity | ].
  repeat split; cbn [In chat.source_choices source_tags];
    intros H; repeat (destruct H as [H | H]; [ discriminate H | ]); exact H.
Qed.

(* ================================================================== *)
(** ** The staff directory *)
(* ================================================================== *)

Section StaffDirectory.

Variable kws : list string.

Lemma find_by_name_none (t : string) (staffs : list json) :
  Forall (fun r => name_has t r = Some false) staffs ->
  find_by_name t staffs = Ok None.
Proof.
  induction 1 as [| r rest Hr _ IH]; [ reflexivity | ].
  cbn [find_by_name]. unfold name_has in Hr.
  destruct (field_lower r "name") as [nm |]; [ | discriminate ].
  cbn [bind]. injection Hr as ->. exact IH.
Qed.

Lemma find_by_name_first (t : string) (before : list json) (s : json)
    (after : list json) :
  Forall (fun r => name_has t r = Some false) before ->
  name_has t s = Some true ->
  find_by_name t (before ++ s :: after) = Ok (Some s).
Proof.
  intros Hb Hs. induction Hb as [| r rest Hr _ IH].
  - cbn [app find_by_name]. unfold name_has in Hs.
    destruct (field_lower s "name") as [nm |]; [ | discriminate ].
    cbn [bind]. injection Hs as ->. reflexivity.
  - cbn [app find_by_name]. unfold name_has in Hr.
    destruct (field_lower r "name") as [nm |]; [ | discriminate ].
    cbn [bind]. injection Hr as ->. exact IH.
Qed.

Lemma collect_matches_app (l1 l2 : list json) (m1 m2 : list (json * nat)) :
  collect_matches kws l1 = Ok m1 ->
  collect_matches kws l2 = Ok m2 ->
  collect_matches kws (l1 ++ l2) = Ok (m1 ++ m2)%list.
Proof.
  revert m1. induction l1 as [| r rest IH]; intros m1 H1 H2.
  - injection H1 as <-. exact H2.
  - cbn [app collect_matches] in *.
    destruct (match_score kws r) as [sc |]; cbn [bind] in *;
      [ | discriminate ].
    destruct (collect_matches kws rest) as [mr |]; cbn [bind] in *;
      [ | discriminate ].
    rewrite (IH mr eq_refl H2). cbn [bind]. injection H1 as <-.
    destruct (0 <? sc); reflexivity.
Qed.

(** Records whose scores satisfy a bound give matches within the bound. *)
Lemma collect_matches_bound (P : nat -> Prop) (l : list json) :
  Forall (fun r => exists m, match_score kws r = Ok m /\ P m) l ->
  exists ms, collect_matches kws l = Ok ms /\
             Forall (fun p => P (snd p)) ms.
Proof.
  induction 1 as [| r rest [m [Hm HP]] _ [ms [Hms Hall]]].
  - exists []. split; [ reflexivity | constructor ].
  - cbn [collect_matches]. rewrite Hm, Hms. cbn [bind].
    destruct (0 <? m).
    + exists ((r, m) :: ms). split; [ reflexivity | ].
      constructor; [ exact HP | exact Hall ].
    + exists ms. split; [ reflexivity | exact Hall ].
Qed.

Lemma collect_matches_zero (l : list json) :
  Forall (fun r => match_score kws r = Ok 0) l ->
  collect_matches kws l = Ok [].
Proof.
  induction 1 as [| r rest Hr _ IH]; [ reflexivity | ].
  cbn [collect_matches]. rewrite Hr, IH. reflexivity.
Qed.

Lemma insert_by_score_Forall (P : json * nat -> Prop) (x : json * nat)
    (l : list (json * nat)) :
  P x -> Forall P l -> Forall P (insert_by_score x l).
Proof.
  intros Hx. induction 1 as [| y rest Hy Hrest IH]; cbn [insert_by_score].
  - constructor; [ exact Hx | constructor ].
  - destruct (snd x <? snd y).
    + constructor; [ exact Hy | exact IH ].
    + constructor; [ exact Hx | constructor; [ exact Hy | exact Hrest ] ].
Qed.

Lemma sort_by_score_Forall (P : json * nat -> Prop) (l : list (json * nat)) :
  Forall P l -> Forall P (sort_by_score l).
Proof.
  induction 1 as [| x rest Hx _ IH]; [ constructor | ].
  cbn [sort_by_score fold_right]. now apply insert_by_score_Forall.
Qed.

(** The stable sort on decreasing scores puts first the first element of
    maximal score. *)
Lemma sort_by_score_head (before : list (json * nat)) (s : json) (n : nat)
    (after : list (json * nat)) :
  Forall (fun p => snd p < n) before ->
  Forall (fun p => snd p <= n) after ->
  exists rest, sort_by_score (before ++ (s, n) :: after) = (s, n) :: rest.
Proof.
  intros Hb Ha. induction Hb as [| y ys Hy _ [rest IH]].
  - cbn [app]. unfold sort_by_score. cbn [fold_right].
    fold (sort_by_score after).
    pose proof (sort_by_score_Forall _ _ Ha) as Hs.
    destruct (sort_by_score after) as [| z zs]; cbn [insert_by_score].
    + now exists [].
    + inversion Hs as [| ? ? Hz _]; subst.
      cbn [snd] in *. apply Nat.ltb_ge in Hz. rewrite Hz.
      now exists (z :: zs).
  - cbn [app]. unfold sort_by_score. cbn [fold_right].
    fold (sort_by_score (ys ++ (s, n) :: after)). rewrite IH.
    cbn [insert_by_score snd]. apply Nat.ltb_lt in Hy. rewrite Hy.
    now exists (insert_by_score y rest).
Qed.

Lemma scoring_choice (before : list json) (s : json) (after : list json)
    (n : nat) :
  match_score kws s = Ok n ->
  0 < n ->
  Forall (fun r => exists m, match_score kws r = Ok m /\ m < n) before ->
  Forall (fun r => exists m, match_score kws r = Ok m /\ m <= n) after ->
  exists rest,
    (matches <- collect_matches kws (before ++ s :: after) ;;
     Ok (sort_by_score matches))%py = Ok ((s, n) :: rest).
Proof.
  intros Hs Hn Hb Ha.
  destruct (collect_matches_bound (fun m => m < n) before Hb)
    as [mb [Emb Hmb]].
  destruct (collect_matches_bound (fun m => m <= n) after Ha)
    as [ma [Ema Hma]].
  assert (Es : collect_matches kws (s :: after) = Ok ((s, n) :: ma)).
  { cbn [collect_matches]. rewrite Hs, Ema. cbn [bind].
    apply Nat.ltb_lt in Hn. now rewrite Hn. }
  rewrite (collect_matches_app before (s :: after) mb _ Emb Es).
  cbn [bind].
  destruct (sort_by_score_head mb s n ma Hmb Hma) as [rest ->].
  now exists rest.
Qed.

End StaffDirectory.

Lemma search_without_name (self : view) (qa : analysis) (staffs : list json) :
  truthy (staff_data self) = true ->
  iter (staff_data self) = Ok staffs ->
  name_scan_fails (target_person qa) staffs ->
  _search_staff_info self qa =
  (matches <- collect_matches (keywords qa) staffs ;;
   match sort_by_score matches with
   | (staff, _) :: _ => _format_staff_response staff
   | [] => Ok None
   end)%py.
Proof.
  intros Htruthy Hiter Hfail. unfold _search_staff_info.
  rewrite Htruthy, Hiter. cbn [negb bind].
  destruct Hfail as [Hunset | [t [Ht Hnone]]].
  - destruct (target_person qa) as [t |]; [ | reflexivity ].
    rewrite Hunset. reflexivity.
  - rewrite Ht. destruct (truthy_opt (Some t)); [ | reflexivity ].
    rewrite (find_by_name_none t staffs Hnone). reflexivity.
Qed.

(** What the strategy returns on a directory it can read, on each of its
    paths: the sentence of the record the name scan stops at; the sentence
    of the record the scoring loop selects when the name scan stops at
    none; [None] when neither finds a record. *)
Lemma staff_search_choice
    (self : view) (qa : analysis) (staffs : list json)
    (chosen : option json) :
  truthy (staff_data self) = true ->
  iter (staff_data self) = Ok staffs ->
  staff_choice (target_person qa) (keywords qa) staffs chosen ->
  _search_staff_info self qa =
  match chosen with
  | Some staff => _format_staff_response staff
  | None => Ok None
  end.
Proof.
  intros Htruthy Hiter Hchoice.
  destruct Hchoice
    as [t before s after Ht Hne Hsplit Hbefore Hs
       | before s after n Hfail Hsplit Hscore Hpos Hbefore Hafter
       | Hfail Hzero].
  - unfold _search_staff_info. rewrite Htruthy, Hiter, Ht.
    cbn [negb bind].
    assert (Htr : truthy_opt (Some t) = true).
    { cbn [truthy_opt]. destruct (String.eqb_spec t ""); [ contradiction | reflexivity ]. }
    rewrite Htr, Hsplit.
    rewrite (find_by_name_first t before s after Hbefore Hs). reflexivity.
  - rewrite (search_without_name self qa staffs Htruthy Hiter Hfail).
    destruct (scoring_choice (keywords qa) before s after n
                Hscore Hpos Hbefore Hafter) as [rest Hsorted].
    rewrite Hsplit.
    destruct (collect_matches (keywords qa) (before ++ s :: after))
      as [matches |]; cbn [bind] in *; [ | discriminate ].
    injection Hsorted as ->. reflexivity.
  - rewrite (search_without_name self qa staffs Htruthy Hiter Hfail).
    rewrite (collect_matches_zero (keywords qa) staffs Hzero). reflexivity.
Qed.

(** X23: the two paths of the staff-directory strategy that its comments
    describe, on a directory it can read.  With a target person that some
    record's name contains (case-insensitively), the answer is the
    sentence of the first such record, whatever the keywords are.  With no
    target person, the answer is the sentence of the record of maximal
    keyword score among those with a positive score, the first one in the
    order of the directory among equals, and there is no answer when every
    score is zero. *)
Theorem staff_search_by_name_or_keywords
    (self : view) (qa : analysis) (staffs : list json) :
  truthy (staff_data self) = true ->
  iter (staff_data self) = Ok staffs ->
  (forall t before s after,
     target_person qa = Some t ->
     t <> "" ->
     staffs = (before ++ s :: after)%list ->
     Forall (fun r => name_has t r = Some false) before ->
     name_has t s = Some true ->
     _search_staff_info self qa = _format_staff_response s) /\
  (truthy_opt (target_person qa) = false ->
   (forall before s after n,
      staffs = (before ++ s :: after)%list ->
      match_score (keywords qa) s = Ok n ->
      0 < n ->
      Forall (fun r => exists m, match_score (keywords qa) r = Ok m /\ m < n)
             before ->
      Forall (fun r => exists m, match_score (keywords qa) r = Ok m /\ m <= n)
             after ->
      _search_staff_info self qa = _format_staff_response s) /\
   (Forall (fun r => match_score (keywords qa) r = Ok 0) staffs ->
    _search_staff_info self qa = Ok None)).
Proof.
  intros Htruthy Hiter. split; [ | intros Hunset; split ].
  - intros t before s after Ht Hne Hsplit Hbefore Hs.
    exact (staff_search_choice self qa staffs (Some s) Htruthy Hiter
             (ChosenByName _ _ _ t before s after Ht Hne Hsplit Hbefore Hs)).
  - intros before s after n Hsplit Hscore Hpos Hbefore Hafter.
    exact (staff_search_choice self qa staffs (Some s) Htruthy Hiter
             (ChosenByScore _ _ _ before s after n (or_introl Hunset)
                Hsplit Hscore Hpos Hbefore Hafter)).
  - intros Hzero.
    exact (staff_search_choice self qa staffs None Htruthy Hiter
             (NothingChosen _ _ _ (or_introl Hunset) Hzero)).
Qed.

Lemma staff_search_by_name_or_keywords_witness :
  match_score ["dean"] kwame = Ok 1 /\
  _search_staff_info staff_view named_descriptor =
    _format_staff_response ama /\
  match_score ["dean"; "science"] ama = Ok 2 /\
  _search_staff_info staff_view keyword_descriptor =
    _format_staff_response ama /\
  _search_staff_info staff_view (without_keywords keyword_descriptor) =
    Ok None.
Proof.
  destruct (staff_search_by_name_or_keywords staff_view named_descriptor
              [esi; kwame; ama] eq_refl eq_refl) as [Hname _].
  destruct (staff_search_by_name_or_keywords staff_view keyword_descriptor
              [esi; kwame; ama] eq_refl eq_refl) as [_ Hscore].
  destruct (Hscore eq_refl) as [Hbest _].
  destruct (staff_search_by_name_or_keywords staff_view
              (without_keywords keyword_descriptor)
              [esi; kwame; ama] eq_refl eq_refl) as [_ Hzero].
  destruct (Hzero eq_refl) as [_ Hnone].
  split; [ reflexivity | ].
  split.
  { apply (Hname "ama" [esi; kwame] ama []).
    - reflexivity.
    - discriminate.
    - reflexivity.
    - repeat constructor.
    - reflexivity. }
  split; [ reflexivity | ].
  split.
  { apply (Hbest [esi; kwame] ama [] 2).
    - reflexivity.
    - reflexivity.
    - repeat constructor.
    - constructor; [ | constructor; [ | constructor ] ].
      + exists 0. split; [ reflexivity | repeat constructor ].
      + exists 1. split; [ reflexivity | repeat constructor ].
    - constructor. }
  apply Hnone. repeat constructor.
Defined.

(** C3: with the target person "Who Is" set, the name scan stops at no
    record, and the strategy goes on to the scoring loop, which the
    comment above it keeps for the case of keywords but no specific
    person: the answer is made from the record the keyword scores select.
    A result determined by the name scan alone would be no answer, as it
    is for the same target without keywords. *)
Lemma staff_search_scores_despite_target :
  target_person (_understand_question short_dean_question) = Some "Who Is" /\
  find_by_name "Who Is" [esi; kwame; ama] = Ok None /\
  _search_staff_info staff_view (_understand_question short_dean_question) =
    Ok (Some "Kwame Mensah is the Dean of Engineering at UENR. ") /\
  target_person (without_keywords (_understand_question short_dean_question))
    = Some "Who Is" /\
  _search_staff_info staff_view
    (without_keywords (_understand_question short_dean_question)) = Ok None.
Proof.
  repeat split; vm_compute; reflexivity.
Qed.

(* ================================================================== *)
(** ** Keywords and the fields of the descriptor *)
(* ================================================================== *)

Section Keywords.

Lemma length_append (a b : string) :
  String.length (a ++ b) = String.length a + String.length b.
Proof.
  induction a as [| c a IH]; cbn; [ reflexivity | now rewrite IH ].
Qed.

Lemma take_append (a b : string) :
  take (String.length (a ++ b) - String.length b) (a ++ b)%string = a.
Proof.
  rewrite length_append.
  replace (String.length a + String.length b - String.length b)
    with (String.length a) by lia.
  induction a as [| c a IH]; cbn.
  - destruct b; reflexivity.
  - now rewrite IH.
Qed.

Lemma append_assoc (a b c : string) :
  ((a ++ b) ++ c)%string = (a ++ (b ++ c))%string.
Proof.
  induction a as [| x a IH]; cbn; [ reflexivity | now rewrite IH ].
Qed.

Lemma all_chars_append (p : ascii -> bool) (a b : string) :
  all_chars p (a ++ b) = all_chars p a && all_chars p b.
Proof.
  induction a as [| c a IH]; cbn; [ reflexivity | ].
  now rewrite IH, andb_assoc.
Qed.

(** What a successful greedy loop has read: a non-empty run of the
    class, after which the continuation succeeded. *)
Lemma plus_loop_inv {R : Type} (ic : bool) (cl : cls)
    (k : mstate -> option R) (caps : list string) (s : string) (r : R) :
  plus_loop ic cl k caps s = Some r ->
  exists pre c rest,
    s = (pre ++ String c rest)%string /\
    all_chars (cls_match ic cl) (pre ++ String c EmptyString) = true /\
    k (MState (Some c) rest caps) = Some r.
Proof.
  revert r. induction s as [| c s IH]; intros r; cbn [plus_loop];
    [ discriminate | ].
  destruct (cls_match ic cl c) eqn:Hc; [ | discriminate ].
  destruct (plus_loop ic cl k caps s) as [r' |] eqn:Hloop.
  - intros [= <-]. destruct (IH r' eq_refl) as [pre [c' [rest [-> [Hall Hk]]]]].
    exists (String c pre), c', rest. cbn. rewrite Hc. auto.
  - intros Hk. exists EmptyString, c, s. cbn. rewrite Hc. auto.
Qed.

Lemma lowercase_class (c : ascii) :
  cls_match false lowercase_letter c = is_lower c.
Proof.
  unfold cls_match. cbn [andb]. now rewrite orb_false_r.
Qed.

(** What a successful run of the keyword pattern has read. *)
Lemma exec_keyword_inv {R : Type} (prev : option ascii) (s : string)
    (k : mstate -> option R) (r : R) :
  exec false keyword_pattern (MState prev s []) k = Some r ->
  exists word c rest,
    s = (word ++ rest)%string /\
    3 <= String.length word /\
    all_chars is_lower word = true /\
    k (MState (Some c) rest []) = Some r.
Proof.
  unfold keyword_pattern. cbn [seqs exec m_rest m_caps].
  destruct (xorb _ _); [ | discriminate ].
  destruct s as [| c1 [| c2 s2]]; try discriminate.
  - destruct (cls_match false lowercase_letter c1); discriminate.
  - rewrite !lowercase_class.
    destruct (is_lower c1) eqn:H1; [ | discriminate ].
    destruct (is_lower c2) eqn:H2; [ | discriminate ].
    intros H. apply plus_loop_inv in H
      as [pre [c [rest [-> [Hall Hk]]]]].
    destruct (xorb _ _); [ | discriminate ].
    exists (String c1 (String c2 (pre ++ String c EmptyString))), c, rest.
    split; [ | split; [ | split ] ].
    + cbn. now rewrite append_assoc.
    + cbn [String.length]. rewrite length_append. cbn. lia.
    + cbn [all_chars]. rewrite H1, H2. cbn [andb].
      rewrite <- Hall. clear.
      induction pre as [| a pre IH]; cbn.
      * now rewrite lowercase_class.
      * now rewrite lowercase_class, IH.
    + exact Hk.
Qed.

Lemma match_here_keyword (prev : option ascii) (s : string) (m : fmatch)
    (n : nat) :
  match_here false keyword_pattern prev s = Some (m, n) -> keyword_ok m.
Proof.
  unfold match_here. intros H.
  apply exec_keyword_inv in H as [word [c [rest [-> [Hlen [Hlow Hk]]]]]].
  cbn [m_caps m_rest] in Hk. injection Hk as <- _.
  rewrite take_append. unfold keyword_ok. cbn [match_text]. auto.
Qed.

Lemma findall_keywords (prev : option ascii) (s : string) (skip : nat) :
  Forall keyword_ok (findall_from false keyword_pattern prev s skip).
Proof.
  revert prev skip. induction s as [| c s IH]; intros prev skip;
    cbn [findall_from].
  - destruct skip; [ | constructor ].
    destruct (match_here false keyword_pattern prev EmptyString)
      as [[m n] |] eqn:Hm; [ | constructor ].
    constructor; [ now apply match_here_keyword in Hm | constructor ].
  - destruct skip; [ | apply IH ].
    destruct (match_here false keyword_pattern prev (String c s))
      as [[m n] |] eqn:Hm; [ | apply IH ].
    constructor; [ now apply match_here_keyword in Hm | apply IH ].
Qed.

Ltac split_rules :=
  repeat match goal with
         | |- context [if any_in ?ws ?t then _ else _] => destruct (any_in ws t)
         end.

Lemma keywords_of_question (question : string) :
  keywords (_understand_question question) =
  map match_text (findall keyword_pattern (lower question) false).
Proof.
  unfold _understand_question. split_rules; reflexivity.
Qed.

(** X3: every keyword the classifier extracts has at least three
    characters, all of them lower-case letters; so the two-letter word
    "it" is never a keyword, and the test ["it" in keywords] of
    [_retrieve_info] never holds. *)
Theorem keywords_are_lowercase_words (question : string) :
  Forall (fun k => 3 <= String.length k /\ all_chars is_lower k = true)
         (keywords (_understand_question question)) /\
  mem "it" (keywords (_understand_question question)) = false.
Proof.
  rewrite keywords_of_question.
  assert (H : Forall (fun k => 3 <= String.length k /\
                               all_chars is_lower k = true)
                (map match_text
                   (findall keyword_pattern (lower question) false))).
  { apply Forall_map. apply (findall_keywords None (lower question) 0). }
  split; [ exact H | ].
  induction H as [| k ks [Hlen _] _ IH]; [ reflexivity | ].
  cbn [mem existsb] in *.
  destruct (String.eqb_spec "it" k) as [<- | _]; [ cbn in Hlen; lia | ].
  exact IH.
Qed.

Ltac split_ifs :=
  repeat match goal with
         | |- context [if ?c then _ else _] => destruct c
         end.

(** X4: the optional fields of the descriptor are set only by their own
    rule and only to the values of a fixed vocabulary: a target person
    only for a person query, a target department ("it", "computer
    science", "engineering", "sciences") only for a department query, a
    target program ("information technology", "computer science",
    "engineering") only for an academic query; the target topic is never
    set and the question is always flagged as related to the
    university. *)
Theorem descriptor_fields_follow_type (question : string) :
  (target_person (_understand_question question) = None \/
   type (_understand_question question) = "person_query") /\
  (In (target_department (_understand_question question))
      [Some "it"; Some "computer science"; Some "engineering";
       Some "sciences"] /\
   type (_understand_question question) = "department_query" \/
   target_department (_understand_question question) = None) /\
  (In (target_program (_understand_question question))
      [Some "information technology"; Some "computer science";
       Some "engineering"] /\
   type (_understand_question question) = "academic_query" \/
   target_program (_understand_question question) = None) /\
  target_topic (_understand_question question) = None /\
  is_uenr_related (_understand_question question) = true.
Proof.
  unfold _understand_question.
  destruct (any_in person_keywords (lower question)).
  { cbn [type target_person target_department target_program target_topic
         is_uenr_related]. auto 10. }
  destruct (any_in ["department"; "school"; "faculty"] (lower question)).
  { cbn [type target_person target_department target_program target_topic
         is_uenr_related].
    split; [ auto | ]. split; [ | auto ].
    split_ifs; cbn [In]; auto 10. }
  destruct (any_in ["course"; "program"; "degree"; "study"; "bsc"; "diploma"]
              (lower question)).
  { cbn [type target_person target_department target_program target_topic
         is_uenr_related].
    split; [ auto | ]. split; [ auto | ]. split; [ | auto ].
    split_ifs; cbn [In]; auto 10. }
  split_rules;
    cbn [type target_person target_department target_program target_topic
         is_uenr_related]; auto 10.
Qed.

End Keywords.

(* ================================================================== *)
(** ** Loading once and retrieving *)
(* ================================================================== *)

Section Retrieval.

Lemma view_ext (v v' : view) :
  (forall d, loaded d v = loaded d v') -> v = v'.
Proof.
  intros H. destruct v as [s g i], v' as [s' g' i'].
  pose proof (H StaffDirectory) as Hs.
  pose proof (H AcademicGuide) as Hg.
  pose proof (H DepartmentProfile) as Hi.
  cbn in Hs, Hg, Hi. now subst.
Qed.

Lemma truthy_not_None (x : json) : truthy x = true -> is_None x = false.
Proof.
  destruct x; cbn; auto; discriminate.
Qed.

Lemma initialized_not_None (fs : filesystem) (self : view) (d : document) :
  is_None (loaded d (_initialize_data fs self)) = false.
Proof.
  rewrite initialize_loaded.
  destruct (is_None (loaded d self)) eqn:Hn; [ | exact Hn ].
  unfold py_or.
  destruct (truthy (_load_json fs (path_of d))) eqn:Ht.
  - now apply truthy_not_None.
  - destruct d; reflexivity.
Qed.

(** X5: after [_initialize_data] no attribute is [None], so a further
    call, under any file system, leaves the view as it is: each document
    is read at most once per view object.  A document that is read for
    the first time is kept as it is when it is a true value, and replaced
    by the empty container when it is a false one ([null], [false], [0],
    [""], [[]], [{}]). *)
Theorem documents_are_loaded_once
    (fs fs' : filesystem) (self : view) :
  (forall d, is_None (loaded d (_initialize_data fs self)) = false) /\
  _initialize_data fs' (_initialize_data fs self) = _initialize_data fs self /\
  (forall d v,
     loaded d self = JNull ->
     fs (path_of d) = Document v ->
     loaded d (_initialize_data fs self) =
     if truthy v then v else empty_container d).
Proof.
  split; [ apply initialized_not_None | split ].
  - apply view_ext. intros d. rewrite (initialize_loaded fs').
    now rewrite initialized_not_None.
  - intros d v Hnone Hdoc. rewrite initialize_loaded, Hnone.
    cbn [is_None]. unfold py_or, _load_json, read_json.
    rewrite Hdoc. reflexivity.
Qed.

(** X6: what [_retrieve_info] returns when it does not raise: the view
    with its documents loaded, and either an answer that is a non-empty
    text, one of the three document tags and no request for a fallback, or
    no answer, the tag "NONE" and a request for a fallback. *)
Theorem retrieve_info_outcomes
    (fs : filesystem) (self v : view) (question : string)
    (answer : option string) (source : string) (needs_fallback : bool) :
  _retrieve_info fs self question =
    (v, Ok (answer, source, needs_fallback)) ->
  v = _initialize_data fs self /\
  ((needs_fallback = false /\
    (exists text, answer = Some text /\ text <> "") /\
    In source ["IT_DEPT_JSON"; "STAFF_JSON"; "GUIDE_JSON"]) \/
   (needs_fallback = true /\ answer = None /\ source = "NONE")).
Proof.
  unfold _retrieve_info. intros [= <- H]. split; [ reflexivity | ].
  apply retrieve_from_shape in H as [[-> [Ha Hsrc]] | [-> [-> ->]]].
  - left. split; [ reflexivity | split; [ | exact Hsrc ] ].
    destruct answer as [text |]; [ | discriminate ].
    exists text. split; [ reflexivity | ].
    intros ->. discriminate.
  - right. auto.
Qed.

Lemma retrieve_info_outcomes_witness :
  _retrieve_info sample_files __init__ about_question =
    (_initialize_data sample_files __init__,
     Ok (Some "UENR is a public university. ", "GUIDE_JSON", false)) /\
  ((false = false /\
    (exists text,
       Some "UENR is a public university. " = Some text /\ text <> "") /\
    In "GUIDE_JSON" ["IT_DEPT_JSON"; "STAFF_JSON"; "GUIDE_JSON"]) \/
   (false = true /\ Some "UENR is a public university. " = None /\
    "GUIDE_JSON" = "NONE")).
Proof.
  split; [ reflexivity | ].
  exact (proj2 (retrieve_info_outcomes sample_files __init__
                  (_initialize_data sample_files __init__) about_question
                  (Some "UENR is a public university. ") "GUIDE_JSON" false
                  eq_refl)).
Defined.

Lemma academic_silent (self : view) (qa : analysis) :
  In (type qa)
     ["department_query"; "admission_query"; "financial_query";
      "facility_query"] ->
  (forall k, In k ["uenr"; "university"; "location"; "campus"] ->
             mem k (keywords qa) = false) ->
  _search_academic_info self qa = Ok None.
Proof.
  intros Hty Hk. unfold _search_academic_info.
  destruct (truthy (guide_data self)); [ | reflexivity ].
  cbn [negb].
  rewrite (Hk "uenr"), (Hk "university"), (Hk "location"), (Hk "campus")
    by (cbn; tauto).
  cbn in Hty.
  destruct Hty as [<- | [<- | [<- | [<- | []]]]]; reflexivity.
Qed.

(** X7: a department, admission, financial or facility question for
    which the department profile is not tried and whose keywords hold
    none of "uenr", "university", "location", "campus" is answered by no
    document: [_retrieve_info] asks for the fallback, whatever the three
    documents hold, and does not raise even on ill-shaped documents. *)
Theorem topic_questions_need_fallback (self : view) (question : string) :
  In (type (_understand_question question))
     ["department_query"; "admission_query"; "financial_query";
      "facility_query"] ->
  it_relevant (_understand_question question) question = false ->
  (forall k, In k ["uenr"; "university"; "location"; "campus"] ->
             mem k (keywords (_understand_question question)) = false) ->
  retrieve_from self question = Ok (None, "NONE", true).
Proof.
  intros Hty Hit Hk. apply retrieve_from_exhausted.
  - rewrite Hit. discriminate.
  - intros Hp. rewrite Hp in Hty. cbn in Hty.
    repeat (destruct Hty as [Hty | Hty]; [ discriminate Hty | ]).
    destruct Hty.
  - exists None. split; [ now apply academic_silent | reflexivity ].
Qed.

Lemma topic_questions_need_fallback_witness :
  type (_understand_question library_question) = "facility_query" /\
  retrieve_from odd_view library_question = Ok (None, "NONE", true) /\
  retrieve_from staff_view "How much is the tuition?" =
    Ok (None, "NONE", true).
Proof.
  split; [ reflexivity | split ].
  - apply (topic_questions_need_fallback odd_view library_question).
    + cbn. tauto.
    + reflexivity.
    + intros k Hk. cbn in Hk.
      repeat (destruct Hk as [<- | Hk]; [ reflexivity | ]). destruct Hk.
  - apply (topic_questions_need_fallback staff_view
             "How much is the tuition?").
    + cbn. tauto.
    + reflexivity.
    + intros k Hk. cbn in Hk.
      repeat (destruct Hk as [<- | Hk]; [ reflexivity | ]). destruct Hk.
Defined.

(** X8: for a question that is not a person query and for which the
    department profile is not tried, [_retrieve_info] reads the guide
    only: the staff directory and the department profile have no
    influence on what it returns or raises. *)
Theorem only_the_guide_is_read
    (staff staff' guide profile profile' : json) (question : string) :
  type (_understand_question question) <> "person_query" ->
  it_relevant (_understand_question question) question = false ->
  retrieve_from (View staff guide profile) question =
  retrieve_from (View staff' guide profile') question.
Proof.
  intros Hty Hit. unfold retrieve_from. rewrite Hit.
  destruct (String.eqb_spec (type (_understand_question question))
              "person_query") as [E | _]; [ contradiction | ].
  reflexivity.
Qed.

Lemma only_the_guide_is_read_witness :
  type (_understand_question about_question) <> "person_query" /\
  retrieve_from (View sample_staff sample_guide JNull) about_question =
  retrieve_from (View (JInt 5) sample_guide (JStr "x")) about_question.
Proof.
  split; [ discriminate | ].
  apply (only_the_guide_is_read sample_staff (JInt 5) sample_guide JNull
           (JStr "x") about_question); [ discriminate | reflexivity ].
Defined.

End Retrieval.

(* ================================================================== *)
(** ** The staff directory on well-formed records *)
(* ================================================================== *)

Section WellFormedStaff.

Lemma field_lower_text (fields : list (string * json)) (key : string) :
  text_or_absent fields key = true ->
  exists text, field_lower (JObj fields) key = Ok text.
Proof.
  unfold text_or_absent, field_lower, get_or.
  destruct (lookup key fields) as [[| | | | s | |] |]; try discriminate;
    intros _; cbn [bind lower_of]; eauto.
Qed.

Lemma well_formed_fields (staff : json) :
  well_formed_staff staff = true ->
  exists fields,
    staff = JObj fields /\
    text_or_absent fields "name" = true /\
    text_or_absent fields "current_position" = true /\
    text_or_absent fields "role" = true /\
    text_or_absent fields "department" = true.
Proof.
  destruct staff as [| | | | | | fields]; try discriminate.
  cbn [well_formed_staff]. intros H.
  apply andb_prop in H as [H _].
  apply andb_prop in H as [H Hd].
  apply andb_prop in H as [H Hr].
  apply andb_prop in H as [Hn Hp].
  exists fields. auto.
Qed.

Lemma match_score_returns (kws : list string) (staff : json) :
  well_formed_staff staff = true ->
  exists n, match_score kws staff = Ok n.
Proof.
  intros H. apply well_formed_fields in H
    as [fields [-> [Hn [Hp [Hr Hd]]]]].
  unfold match_score.
  destruct (field_lower_text fields "name" Hn) as [n ->].
  destruct (field_lower_text fields "current_position" Hp) as [p ->].
  destruct (field_lower_text fields "role" Hr) as [r ->].
  destruct (field_lower_text fields "department" Hd) as [d ->].
  cbn [bind]. eauto.
Qed.

Lemma find_by_name_returns (t : string) (staffs : list json) :
  forallb well_formed_staff staffs = true ->
  exists r, find_by_name t staffs = Ok r /\
            match r with
            | Some s => well_formed_staff s = true
            | None => True
            end.
Proof.
  induction staffs as [| s rest IH]; cbn [forallb find_by_name].
  - intros _. now exists None.
  - intros H. apply andb_prop in H as [Hs Hrest].
    destruct (well_formed_fields s Hs) as [fields [E [Hn _]]].
    destruct (field_lower_text fields "name" Hn) as [n Hname].
    rewrite E, Hname. cbn [bind].
    destruct (contains (lower t) n).
    + exists (Some (JObj fields)). rewrite <- E. auto.
    + exact (IH Hrest).
Qed.

Lemma collect_matches_returns (kws : list string) (staffs : list json) :
  forallb well_formed_staff staffs = true ->
  exists ms, collect_matches kws staffs = Ok ms /\
             Forall (fun p => well_formed_staff (fst p) = true) ms.
Proof.
  induction staffs as [| s rest IH]; cbn [forallb collect_matches].
  - intros _. exists []. split; [ reflexivity | constructor ].
  - intros H. apply andb_prop in H as [Hs Hrest].
    destruct (match_score_returns kws s Hs) as [n ->].
    destruct (IH Hrest) as [ms [-> Hms]]. cbn [bind].
    destruct (0 <? n).
    + exists ((s, n) :: ms). split; [ reflexivity | ].
      constructor; [ exact Hs | exact Hms ].
    + exists ms. auto.
Qed.

Lemma format_staff_returns (staff : json) :
  well_formed_staff staff = true ->
  exists r, _format_staff_response staff = Ok r.
Proof.
  destruct staff as [| | | | | | fields]; try discriminate.
  cbn [well_formed_staff]. intros H. apply andb_prop in H as [_ Ha].
  unfold _format_staff_response.
  destruct (truthy (JObj fields)); cbn [negb]; [ | eauto ].
  unfold get, get_or. cbn [bind].
  destruct (lookup "achievements" fields) as [a |]; [ | cbn; eauto ].
  destruct (truthy a) eqn:Ht; [ | eauto ].
  destruct a as [| b | z | shown nz | text | items | inner];
    try discriminate Ha.
  - cbn [len bind]. destruct text as [| c text]; [ discriminate Ht | ].
    cbn [String.length Nat.ltb Nat.leb getitem0 bind]. eauto.
  - cbn [len bind]. destruct items as [| x items]; [ discriminate Ht | ].
    cbn [List.length Nat.ltb Nat.leb getitem0 bind]. eauto.
Qed.

(** X9: on a staff directory that is a list of well-formed records
    (dicts whose name, position, role and department are absent or
    strings and whose achievements are absent, false, a list or a string)
    the staff strategy does not raise, whatever the descriptor is. *)
Theorem staff_search_returns
    (self : view) (qa : analysis) (staffs : list json) :
  staff_data self = JArr staffs ->
  forallb well_formed_staff staffs = true ->
  exists r, _search_staff_info self qa = Ok r.
Proof.
  intros Hdata Hwf. unfold _search_staff_info. rewrite Hdata.
  destruct (truthy (JArr staffs)); cbn [negb]; [ | eauto ].
  cbn [iter bind].
  assert (Hscore :
    exists r,
      (matches <- collect_matches (keywords qa) staffs ;;
       match sort_by_score matches with
       | (staff, _) :: _ => _format_staff_response staff
       | [] => Ok None
       end)%py = Ok r).
  { destruct (collect_matches_returns (keywords qa) staffs Hwf)
      as [ms [-> Hms]]. cbn [bind].
    pose proof (sort_by_score_Forall _ ms Hms) as Hsorted.
    destruct (sort_by_score ms) as [| [s n] rest]; [ eauto | ].
    inversion Hsorted as [| ? ? Hs _]; subst.
    now apply format_staff_returns. }
  destruct (target_person qa) as [t |]; cbn [bind]; [ | exact Hscore ].
  destruct (truthy_opt (Some t)); cbn [bind]; [ | exact Hscore ].
  destruct (find_by_name_returns t staffs Hwf) as [[s |] [-> Hs]];
    cbn [bind]; [ now apply format_staff_returns | exact Hscore ].
Qed.

Lemma staff_search_returns_witness :
  forallb well_formed_staff [esi; kwame; ama] = true /\
  well_formed_staff (JObj [("name", JNull)]) = false /\
  (exists r,
     _search_staff_info staff_view (_understand_question short_dean_question)
     = Ok r) /\
  _search_staff_info (View nameless_staff JNull JNull)
    (_understand_question short_dean_question) = Raise AttributeError.
Proof.
  split; [ reflexivity | ].
  split; [ reflexivity | ].
  split; [ | reflexivity ].
  exact (staff_search_returns staff_view
           (_understand_question short_dean_question) [esi; kwame; ama]
           eq_refl eq_refl).
Defined.

End WellFormedStaff.

(* ================================================================== *)
(** ** The text the client picks *)
(* ================================================================== *)

Section FirstText.

Lemma find_app {A : Type} (p : A -> bool) (l1 l2 : list A) :
  find p (l1 ++ l2) =
  match find p l1 with
  | Some x => Some x
  | None => find p l2
  end.
Proof.
  induction l1 as [| x l1 IH]; cbn; [ reflexivity | ].
  destruct (p x); [ reflexivity | exact IH ].
Qed.

Lemma scan_parts_first (parts : list json) :
  forallb shaped_part parts = true ->
  scan_parts parts =
  Ok (option_map (take MAX_RESPONSE_LENGTH)
        (find long_enough (flat_map texts_of_part parts))).
Proof.
  induction parts as [| part rest IH]; [ reflexivity | ].
  cbn [forallb]. intros H. apply andb_prop in H as [Hp Hrest].
  specialize (IH Hrest). cbn [scan_parts flat_map]. rewrite find_app.
  destruct part as [| | | | | | fields]; try discriminate Hp.
  cbn [shaped_part] in Hp. unfold text_or_absent in Hp.
  cbn [py_in getitem texts_of_part].
  destruct (lookup "text" fields) as [[| | | | raw | |] |];
    try discriminate Hp; cbn [bind find]; [ | exact IH ].
  cbn [strip_of bind find]. unfold long_enough at 1.
  destruct (MIN_RESPONSE_LENGTH <=? String.length (strip raw));
    [ reflexivity | exact IH ].
Qed.

Lemma scan_candidates_first (candidates : list json) :
  forallb shaped_candidate candidates = true ->
  scan_candidates candidates =
  Ok (option_map (take MAX_RESPONSE_LENGTH)
        (find long_enough (flat_map texts_of_candidate candidates))).
Proof.
  induction candidates as [| c rest IH]; [ reflexivity | ].
  cbn [forallb]. intros H. apply andb_prop in H as [Hc Hrest].
  specialize (IH Hrest). cbn [scan_candidates flat_map]. rewrite find_app.
  unfold shaped_candidate in Hc. unfold texts_of_candidate at 1.
  destruct c as [| | | | | | fields]; try discriminate Hc.
  cbn [parts_of_candidate get_or] in *.
  destruct (lookup "content" fields) as [[| | | | | | content] |];
    try discriminate Hc; cbn [bind get_or].
  - destruct (lookup "parts" content) as [[| | | | | parts |] |];
      try discriminate Hc; cbn [bind iter].
    + rewrite (scan_parts_first parts Hc). cbn [bind].
      destruct (find long_enough (flat_map texts_of_part parts));
        [ reflexivity | exact IH ].
    + cbn [scan_parts bind flat_map find]. exact IH.
  - cbn [lookup bind iter scan_parts flat_map find]. exact IH.
Qed.

(** X10: on a reply of the documented shape (status below 400, a list of
    candidates, each a dict whose content, parts and texts are absent or of
    the expected type) the client returns the first text, in the order of
    the candidates and of their parts, whose stripped form has at least 50
    characters, stripped and cut at 1500; shorter texts before it are
    skipped, and there is no answer when no text is long enough. *)
Theorem first_long_text_is_returned
    (api : service) (prompt : string) (status : nat)
    (fields : list (string * json)) (candidates : list json) :
  api prompt = Reply status (Some (JObj fields)) ->
  status < 400 ->
  lookup "candidates" fields = Some (JArr candidates) ->
  forallb shaped_candidate candidates = true ->
  _call_gemini_api api prompt =
  option_map (take MAX_RESPONSE_LENGTH)
    (find long_enough (flat_map texts_of_candidate candidates)).
Proof.
  intros Hreply Hstatus Hc Hshape. unfold _call_gemini_api.
  rewrite Hreply. cbn [read_reply].
  apply Nat.leb_gt in Hstatus. rewrite Hstatus.
  unfold get, get_or. rewrite Hc. cbn [bind].
  destruct candidates as [| c rest]; [ reflexivity | ].
  cbn [truthy iter bind].
  now rewrite (scan_candidates_first (c :: rest) Hshape).
Qed.

Lemma first_long_text_is_returned_witness :
  flat_map texts_of_candidate
    match mixed_reply with
    | Reply _ (Some (JObj [(_, JArr candidates)])) => candidates
    | _ => []
    end
  = ["Hi."; strip long_text; strip (long_text ++ long_text)] /\
  _call_gemini_api (fun _ => mixed_reply) "Question: fees" =
  Some (strip long_text).
Proof.
  split; [ reflexivity | ].
  assert (Hstatus : 200 < 400) by lia.
  exact (first_long_text_is_returned (fun _ => mixed_reply) "Question: fees"
           200 _ _ eq_refl Hstatus eq_refl eq_refl).
Defined.

End FirstText.

(* ================================================================== *)
(** ** The conversation table and the prompt *)
(* ================================================================== *)

Section Conversation.

Lemma prefix_append (x rest : string) : prefix x (x ++ rest) = true.
Proof.
  induction x as [| c x IH]; cbn; [ destruct rest; reflexivity | ].
  destruct (ascii_dec c c); [ exact IH | contradiction ].
Qed.

Lemma contains_middle (x pre post : string) :
  contains x (pre ++ x ++ post) = true.
Proof.
  induction pre as [| c pre IH].
  - cbn [append]. destruct (x ++ post)%string eqn:E;
      cbn [contains]; rewrite <- E, prefix_append; reflexivity.
  - cbn [append contains].
    destruct (prefix x (String c (pre ++ x ++ post))); [ reflexivity | ].
    exact IH.
Qed.

Lemma join_holds (sep x : string) (l : list string) :
  In x l -> exists pre post, join sep l = (pre ++ x ++ post)%string.
Proof.
  unfold join. induction l as [| y l IH]; [ intros [] | ].
  intros [-> | Hin].
  - destruct l as [| z l].
    + exists EmptyString, EmptyString. cbn. clear.
      induction x; cbn; [ reflexivity | now f_equal ].
    + exists EmptyString, (sep ++ String.concat sep (z :: l))%string.
      reflexivity.
  - destruct (IH Hin) as [pre [post E]].
    destruct l as [| z l]; [ destruct Hin | ].
    exists (y ++ sep ++ pre)%string, post.
    cbn [String.concat]. cbn [String.concat] in E. rewrite E.
    now rewrite !append_assoc.
Qed.

Lemma filter_session_last (db : chat.table) (row : chat.ChatConversation) :
  chat.filter_session (db ++ [row])%list (chat.session_id row) =
  (chat.filter_session db (chat.session_id row) ++ [row])%list.
Proof.
  unfold chat.filter_session. rewrite filter_app. cbn [filter].
  now rewrite String.eqb_refl.
Qed.

Lemma contains_after (x a s : string) :
  contains x s = true -> contains x (a ++ s) = true.
Proof.
  intros H. induction a as [| c a IH]; [ exact H | ].
  cbn [append contains].
  destruct (prefix x (String c (a ++ s))); [ reflexivity | exact IH ].
Qed.

Lemma prompt_holds_context (question context x : string) :
  context <> "" ->
  (exists pre post, context = (pre ++ x ++ post)%string) ->
  contains x (_build_enhanced_prompt question context) = true.
Proof.
  intros Hne [pre [post ->]]. unfold _build_enhanced_prompt.
  destruct (String.eqb_spec (pre ++ x ++ post) "") as [E | _];
    [ contradiction | ].
  cbn [negb].
  repeat rewrite append_assoc.
  do 7 apply contains_after.
  apply (contains_middle x EmptyString).
Qed.

(** The block of a row of the session is part of the prompt, wherever the
    row stands in the table. *)
Lemma prompt_holds_row (w : world) (table : chat.table) (req : request)
    (question : string) (row : chat.ChatConversation) :
  In row table ->
  chat.session_id row = session_of w req ->
  contains (turn_text (chat.question row) (chat.answer row))
    (prompt_of w table req question) = true.
Proof.
  intros Hrow Hsid. unfold prompt_of.
  assert (Hin : In (turn_text (chat.question row) (chat.answer row))
                   (map (fun m => ("User: " ++ chat.question m ++ newline ++
                                   "Bot: " ++ chat.answer m)%string)
                        (chat.filter_session table (session_of w req)))).
  { apply (in_map (fun m => ("User: " ++ chat.question m ++ newline ++
                             "Bot: " ++ chat.answer m)%string)).
    unfold chat.filter_session. apply filter_In.
    split; [ exact Hrow | ]. rewrite Hsid. apply String.eqb_refl. }
  destruct (join_holds newline _ _ Hin) as [pre [post E]].
  apply prompt_holds_context.
  - unfold previous_context. rewrite E.
    destruct pre; cbn; discriminate.
  - exists pre, post. exact E.
Qed.

(** A request leaves the rows of the table in place, and so does a
    sequence of requests. *)
Lemma post_keeps_rows (w : world) (self : view) (db : chat.table)
    (req : request) :
  exists later, snd (post w self db req) = (db ++ later)%list.
Proof.
  unfold post.
  destruct (MessageSerializer req) as [errors | question].
  { exists []. cbn [snd]. now rewrite app_nil_r. }
  destruct (pipeline _ _ _ _ _ _) as [v [[resp db'] | e]] eqn:Hp.
  - unfold pipeline, _retrieve_info in Hp. injection Hp as _ Hrun.
    destruct (retrieve_from _ _) as [found |]; cbn [bind] in Hrun;
      [ | discriminate ].
    destruct (settle _ _ _ found) as [[[answer |] source] ai];
      [ | discriminate ].
    destruct (chat.create _ _ _) as [t |] eqn:Hc; cbn [bind] in Hrun;
      [ | discriminate ].
    injection Hrun as _ <-. apply create_appends in Hc as ->.
    now eexists.
  - exists []. cbn [snd]. now rewrite app_nil_r.
Qed.

Lemma serve_keeps_rows (calls : list (world * request)) (self : view)
    (db : chat.table) :
  exists later, snd (serve calls self db) = (db ++ later)%list.
Proof.
  revert self db. induction calls as [| [w req] calls IH]; intros self db.
  - exists []. cbn [serve snd]. now rewrite app_nil_r.
  - cbn [serve]. destruct (post_keeps_rows w self db req) as [one Hone].
    destruct (post w self db req) as [[resp v] db'] eqn:Hpost.
    cbn [snd] in Hone. subst db'.
    destruct (IH v (db ++ one)%list) as [later Hlater].
    exists (one ++ later)%list. rewrite Hlater. now rewrite app_assoc.
Qed.

(** X11: the turn a 200 response closes is part of the prompt of every
    later request of the same session, however many rows and requests
    come in between: the text "User: <question>\nBot: <answer>" of the
    validated question and the answer returned occurs verbatim in the
    prompt built from the table the request left followed by any further
    rows, and in the prompt built from the table that any sequence of
    further requests, of this session or of others, leaves. *)
Theorem later_prompt_holds_the_turn
    (w : world) (self : view) (db : chat.table) (req : request)
    (question sid answer source : string) (ai : bool) (v : view)
    (db' : chat.table) (w2 : world) (req2 : request) (question2 : string) :
  MessageSerializer req = inr question ->
  post w self db req = (Response200 sid answer source ai, v, db') ->
  session_of w2 req2 = sid ->
  (forall later : chat.table,
     contains (turn_text question answer)
       (prompt_of w2 (db' ++ later)%list req2 question2) = true) /\
  (forall calls : list (world * request),
     contains (turn_text question answer)
       (prompt_of w2 (snd (serve calls v db')) req2 question2) = true).
Proof.
  intros valid Hpost Hsid.
  rewrite (post_run w self db req question valid) in Hpost.
  destruct (snd (pipeline w self db question (session_of w req)
                   (previous_context
                      (chat.filter_session db (session_of w req)))))
    as [[resp t'] | e] eqn:Hrun; [ | discriminate ].
  destruct (run_completes w self db req question resp t' Hrun)
    as [a [s [i [-> [-> _]]]]].
  injection Hpost as <- <- <- <- _ <-.
  assert (Hlater : forall later : chat.table,
             contains (turn_text question a)
               (prompt_of w2
                  ((db ++ [row_of w req question a s i]) ++ later)%list
                  req2 question2) = true).
  { intros later.
    apply (prompt_holds_row w2 _ req2 question2 (row_of w req question a s i)).
    - apply in_or_app. left. apply in_or_app. right. now left.
    - symmetry. exact Hsid. }
  split; [ exact Hlater | ].
  intros calls.
  destruct (serve_keeps_rows calls v
              (db ++ [row_of w req question a s i])%list) as [later ->].
  apply Hlater.
Qed.

Lemma later_prompt_holds_the_turn_witness :
  MessageSerializer (ask library_question) = inr library_question /\
  session_of offline_world follow_up = "3f2b8c1e" /\
  List.length
    (snd (serve [(online_world, foreign_request); (offline_world, follow_up)]
            (_initialize_data sample_files __init__)
            (snd (post offline_world __init__ [] (ask library_question)))))
  = 3 /\
  contains (turn_text library_question apology)
    (prompt_of offline_world
       (snd (serve [(online_world, foreign_request);
                    (offline_world, follow_up)]
               (_initialize_data sample_files __init__)
               (snd (post offline_world __init__ [] (ask library_question)))))
       follow_up "And where is it?") = true.
Proof.
  split; [ reflexivity | split; [ reflexivity | split; [ reflexivity | ] ] ].
  destruct (later_prompt_holds_the_turn offline_world __init__ []
              (ask library_question) library_question "3f2b8c1e" apology
              "Fallback" false (_initialize_data sample_files __init__)
              (snd (post offline_world __init__ [] (ask library_question)))
              offline_world follow_up "And where is it?"
              eq_refl eq_refl eq_refl) as [_ Hserved].
  exact (Hserved [(online_world, foreign_request);
                  (offline_world, follow_up)]).
Defined.

End Conversation.

(* ================================================================== *)
(** ** Invariants of the request handler *)
(* ================================================================== *)

Section Handler.

(** X12: the rows of other sessions have no influence on a request: two
    tables that hold the same rows for the session of the request lead to
    the same response and the same view. *)
Theorem other_sessions_have_no_influence
    (w : world) (self : view) (db1 db2 : chat.table) (req : request) :
  chat.filter_session db1 (session_of w req) =
  chat.filter_session db2 (session_of w req) ->
  fst (post w self db1 req) = fst (post w self db2 req).
Proof.
  intros Hsame. unfold post.
  destruct (MessageSerializer req) as [errors | question]; [ reflexivity | ].
  rewrite Hsame. unfold pipeline, _retrieve_info.
  destruct (retrieve_from (_initialize_data (files w) self) question)
    as [found |]; cbn [bind]; [ | reflexivity ].
  destruct (settle _ _ _ found) as [[[answer |] source] ai];
    [ | reflexivity ].
  unfold chat.create. destruct (_ && _); reflexivity.
Qed.

Lemma other_sessions_have_no_influence_witness :
  chat.filter_session [earlier_row] "3f2b8c1e" =
  chat.filter_session [foreign_row; earlier_row; foreign_row] "3f2b8c1e" /\
  fst (post offline_world __init__ [earlier_row] (ask library_question)) =
  fst (post offline_world __init__ [foreign_row; earlier_row; foreign_row]
         (ask library_question)).
Proof.
  split; [ reflexivity | ].
  exact (other_sessions_have_no_influence offline_world __init__
           [earlier_row] [foreign_row; earlier_row; foreign_row]
           (ask library_question) eq_refl).
Defined.

(** X13: the table only grows, and by one row at most: a 200 response
    comes with the old table followed by one new row, a 400 or a 500
    response with the old table unchanged; no row is ever removed or
    rewritten. *)
Theorem table_only_grows
    (w : world) (self : view) (db : chat.table) (req : request) :
  match fst (fst (post w self db req)) with
  | Response200 _ _ _ _ =>
      exists row, snd (post w self db req) = (db ++ [row])%list
  | Response400 _ => snd (post w self db req) = db
  | Response500 _ => snd (post w self db req) = db
  end.
Proof.
  unfold post.
  destruct (MessageSerializer req) as [errors | question]; [ reflexivity | ].
  unfold pipeline, _retrieve_info.
  destruct (retrieve_from (_initialize_data (files w) self) question)
    as [found |]; cbn [bind fst snd]; [ | reflexivity ].
  destruct (settle _ _ _ found) as [[[answer |] source] ai];
    [ | reflexivity ].
  unfold chat.create. destruct (_ && _); cbn [bind fst snd];
    [ reflexivity | eauto ].
Qed.

(** What a completed run settled on. *)
Lemma run_settled (w : world) (self : view) (db : chat.table)
    (req : request) (question : string) (resp : response)
    (db' : chat.table) :
  snd (pipeline w self db question (session_of w req)
         (previous_context (chat.filter_session db (session_of w req))))
  = Ok (resp, db') ->
  exists found answer source ai,
    retrieve_from (_initialize_data (files w) self) question = Ok found /\
    settle (gemini w) question
      (previous_context (chat.filter_session db (session_of w req))) found
    = (Some answer, source, ai) /\
    resp = Response200 (session_of w req) answer source ai.
Proof.
  rewrite (pipeline_run w self db req question).
  destruct (retrieve_from _ question) as [found |]; cbn [bind];
    [ | discriminate ].
  destruct (settle _ _ _ found) as [[[answer |] source] ai] eqn:Hs;
    [ | discriminate ].
  destruct (chat.create _ _ _) as [t |]; cbn [bind]; [ | discriminate ].
  intros [= <- _]. exists found, answer, source, ai. auto.
Qed.

Lemma settle_values (api : service) (q ctx : string) (v : view)
    (found : option string * string * bool)
    (answer source : string) (ai : bool) :
  retrieve_from v q = Ok found ->
  settle api q ctx found = (Some answer, source, ai) ->
  (ai = true <-> source = "Gemini") /\
  answer <> "" /\
  (source = "Fallback" -> answer = apology) /\
  (source = "Gemini" ->
   MIN_RESPONSE_LENGTH <= String.length answer <= MAX_RESPONSE_LENGTH).
Proof.
  destruct found as [[a src] nf]. intros Hr.
  apply retrieve_from_shape in Hr
    as [[-> [Ha Hsrc]] | [-> [-> ->]]]; cbn [settle].
  - intros [= -> -> <-].
    assert (Hdoc : source <> "Gemini" /\ source <> "Fallback").
    { cbn in Hsrc. destruct Hsrc as [<- | [<- | [<- | []]]];
        split; discriminate. }
    destruct Hdoc as [Hg Hf].
    split; [ split; [ discriminate | contradiction ] | ].
    split; [ intros ->; discriminate Ha | ].
    split; intros E; contradiction.
  - destruct (_call_gemini_api api (_build_enhanced_prompt q ctx))
      as [t |] eqn:Hcall.
    + rewrite (call_gemini_truthy _ _ _ Hcall).
      intros [= <- <- <-].
      pose proof (fallback_client_bounds _ _ _ Hcall) as Hb.
      split; [ split; reflexivity | ].
      split; [ intros ->; cbv in Hb; lia | ].
      split; [ discriminate | auto ].
    + cbn [truthy_opt]. intros [= <- <- <-].
      split; [ split; discriminate | ].
      split; [ discriminate | ].
      split; [ reflexivity | discriminate ].
Qed.

(** X14: in every 200 response the answer is a non-empty text and the
    flag is_ai_augmented is true exactly when the source is "Gemini"; an
    answer whose source is "Fallback" is the apology, and one whose source
    is "Gemini" has between 50 and 1500 characters. *)
Theorem response_fields_agree
    (w : world) (self : view) (db : chat.table) (req : request)
    (question sid answer source : string) (ai : bool) (v : view)
    (db' : chat.table) :
  MessageSerializer req = inr question ->
  post w self db req = (Response200 sid answer source ai, v, db') ->
  (ai = true <-> source = "Gemini") /\
  answer <> "" /\
  (source = "Fallback" -> answer = apology) /\
  (source = "Gemini" ->
   MIN_RESPONSE_LENGTH <= String.length answer <= MAX_RESPONSE_LENGTH).
Proof.
  intros valid Hpost.
  rewrite (post_run w self db req question valid) in Hpost.
  destruct (snd (pipeline w self db question (session_of w req)
                   (previous_context
                      (chat.filter_session db (session_of w req)))))
    as [[resp t'] | e] eqn:Hrun; [ | discriminate ].
  destruct (run_settled w self db req question resp t' Hrun)
    as [found [a [s [i [Hr [Hs ->]]]]]].
  injection Hpost as _ <- <- <- _ _.
  exact (settle_values _ _ _ _ _ _ _ _ Hr Hs).
Qed.

Lemma response_fields_agree_witness :
  MessageSerializer (ask it_staff_question) = inr it_staff_question /\
  ((true = true <-> "Gemini" = "Gemini") /\
   strip long_text <> "" /\
   ("Gemini" = "Fallback" -> strip long_text = apology) /\
   ("Gemini" = "Gemini" ->
    MIN_RESPONSE_LENGTH <= String.length (strip long_text)
      <= MAX_RESPONSE_LENGTH)).
Proof.
  split; [ reflexivity | ].
  exact (response_fields_agree
           (empty_world (fun _ => reply_with_text long_text) false)
           __init__ [] (ask it_staff_question) it_staff_question
           "3f2b8c1e" (strip long_text) "Gemini" true
           (View (JArr []) (JObj []) (JObj []))
           [chat.Build "3f2b8c1e" it_staff_question (strip long_text)
              "Gemini" true]
           eq_refl eq_refl).
Defined.

(** X15: when a document answers the question, the generation service
    has no part in the request: with any other service the response, the
    view and the table are the same. *)
Theorem documents_answer_without_service
    (w : world) (self : view) (db : chat.table) (req : request)
    (question answer source : string) (api : service) :
  MessageSerializer req = inr question ->
  retrieve_from (_initialize_data (files w) self) question =
    Ok (Some answer, source, false) ->
  post (with_service w api) self db req = post w self db req.
Proof.
  intros valid Hr.
  rewrite (post_run w self db req question valid).
  rewrite (post_run (with_service w api) self db req question valid).
  rewrite (pipeline_run w self db req question).
  rewrite (pipeline_run (with_service w api) self db req question).
  cbn [with_service files gemini enforce_max_length].
  rewrite Hr. reflexivity.
Qed.

Lemma documents_answer_without_service_witness :
  retrieve_from (_initialize_data (files offline_world) __init__)
    about_question =
    Ok (Some "UENR is a public university. ", "GUIDE_JSON", false) /\
  post (with_service offline_world (fun _ => reply_with_text long_text))
    __init__ [] (ask about_question) =
  post offline_world __init__ [] (ask about_question).
Proof.
  split; [ reflexivity | ].
  exact (documents_answer_without_service offline_world __init__ []
           (ask about_question) about_question
           "UENR is a public university. " "GUIDE_JSON"
           (fun _ => reply_with_text long_text) eq_refl eq_refl).
Defined.

End Handler.

(* ================================================================== *)
(** ** The course list of the department profile *)
(* ================================================================== *)

Section Courses.

Lemma all_str_firstn (n : nat) (l : list json) (names : list string) :
  all_str l = Ok names -> all_str (firstn n l) = Ok (firstn n names).
Proof.
  revert l names. induction n as [| n IH]; intros l names; [ reflexivity | ].
  destruct l as [| x l]; cbn [all_str firstn].
  - now intros [= <-].
  - destruct x; try discriminate.
    destruct (all_str l) as [tl |] eqn:Htl; cbn [bind]; [ | discriminate ].
    intros [= <-]. cbn [firstn]. now rewrite (IH l tl Htl).
Qed.

Lemma all_str_length (l : list json) (names : list string) :
  all_str l = Ok names -> List.length names = List.length l.
Proof.
  revert names. induction l as [| x l IH]; intros names; cbn [all_str].
  - now intros [= <-].
  - destruct x; try discriminate.
    destruct (all_str l) as [tl |]; cbn [bind]; [ | discriminate ].
    intros [= <-]. cbn. now rewrite (IH tl eq_refl).
Qed.

(** X16: for a descriptor of type academic_query whose keywords hold the
    word "course", and a department profile whose courses_offered is a
    non-empty list of strings, the department strategy lists the first
    five course names at most, in the order of the profile, and adds the
    number of the remaining ones when there are more than five. *)
Theorem at_most_five_courses_are_listed
    (self : view) (qa : analysis) (fields dept : list (string * json))
    (courses : list json) (names : list string) :
  it_dept_data self = JObj fields ->
  lookup "department" fields = Some (JObj dept) ->
  type qa = "academic_query" ->
  mem "course" (keywords qa) = true ->
  lookup "courses_offered" dept = Some (JArr courses) ->
  courses <> [] ->
  all_str courses = Ok names ->
  _search_it_department_info self qa =
  Ok (Some
        (let listed :=
           ("The " ++ str (value_of dept "name") ++
            " offers courses including: " ++ join ", " (firstn 5 names))%string
         in
         if (5 <? List.length names)%nat
         then (listed ++ ", and " ++ str_of_nat (List.length names - 5)%nat ++
               " more courses.")%string
         else listed)).
Proof.
  intros Hdata Hdept Hty Hkw Hcourses Hne Hnames.
  unfold _search_it_department_info. rewrite Hdata, Hty, Hkw.
  destruct fields as [| f fs]; [ discriminate Hdept | ].
  cbn [truthy negb py_in getitem]. rewrite Hdept. cbn [bind negb].
  change (String.eqb "academic_query" "department_query") with false.
  change (String.eqb "academic_query" "person_query") with false.
  change (String.eqb "academic_query" "academic_query") with true.
  cbn [andb]. unfold get, get_or. rewrite Hcourses. cbn [bind].
  destruct courses as [| c cs]; [ contradiction | ].
  cbn [truthy]. unfold join_of. cbn [slice_to bind iter].
  rewrite (all_str_firstn 5 (c :: cs) names Hnames). cbn [bind len].
  rewrite <- (all_str_length (c :: cs) names Hnames).
  unfold value_of.
  destruct (5 <? List.length names); unfold none_if_empty;
    cbn [append String.eqb]; reflexivity.
Qed.

Lemma at_most_five_courses_are_listed_witness :
  type (_understand_question course_question) = "academic_query" /\
  mem "course" (keywords (_understand_question course_question)) = true /\
  _search_it_department_info (View JNull JNull sample_profile)
    (_understand_question course_question) =
  Ok (Some "The Department of Information Technology offers courses including: Programming, Databases, Networks, Web Design, Algorithms, and 2 more courses.").
Proof.
  split; [ reflexivity | split; [ reflexivity | ] ].
  refine (at_most_five_courses_are_listed
            (View JNull JNull sample_profile)
            (_understand_question course_question) _ _ _
            ["Programming"; "Databases"; "Networks"; "Web Design";
             "Algorithms"; "Security"; "Statistics"]
            eq_refl eq_refl eq_refl eq_refl eq_refl _ eq_refl).
  discriminate.
Defined.

End Courses.

(* ================================================================== *)
(** ** The order of the strategies *)
(* ================================================================== *)

Section StrategyOrder.

Variable self : view.
Variable question : string.

Let qa : analysis := _understand_question question.

Lemma answers_truthy (r : res (option string)) (text : string) :
  answers r text -> r = Ok (Some text) /\ truthy_answer (Some text) = true.
Proof.
  intros [-> Hne]. split; [ reflexivity | ].
  cbn. destruct (String.eqb_spec text ""); [ contradiction | reflexivity ].
Qed.

(** X17: the strategies are tried in the order department profile, staff
    directory, guide, and the first non-empty answer is returned with the
    tag of its document; strategies after it are not run, so what they
    would return or raise does not matter.  The profile is tried only when
    it is relevant and the staff directory only for a person query; an
    exception in a strategy that is tried is not recovered by a later
    one. *)
Theorem first_answer_wins :
  (forall text,
     it_relevant qa question = true ->
     answers (_search_it_department_info self qa) text ->
     retrieve_from self question = Ok (Some text, "IT_DEPT_JSON", false)) /\
  (forall text,
     (it_relevant qa question = true ->
      no_answer (_search_it_department_info self qa)) ->
     type qa = "person_query" ->
     answers (_search_staff_info self qa) text ->
     retrieve_from self question = Ok (Some text, "STAFF_JSON", false)) /\
  (forall text,
     (it_relevant qa question = true ->
      no_answer (_search_it_department_info self qa)) ->
     (type qa = "person_query" ->
      no_answer (_search_staff_info self qa)) ->
     answers (_search_academic_info self qa) text ->
     retrieve_from self question = Ok (Some text, "GUIDE_JSON", false)) /\
  (forall e,
     it_relevant qa question = true ->
     _search_it_department_info self qa = Raise e ->
     retrieve_from self question = Raise e) /\
  (forall e,
     (it_relevant qa question = true ->
      no_answer (_search_it_department_info self qa)) ->
     type qa = "person_query" ->
     _search_staff_info self qa = Raise e ->
     retrieve_from self question = Raise e).
Proof.
  assert (Hskip :
      (it_relevant qa question = true ->
       no_answer (_search_it_department_info self qa)) ->
      exists a,
        (if it_relevant qa question
         then _search_it_department_info self qa
         else Ok None) = Ok a /\ truthy_answer a = false).
  { intros Hit. destruct (it_relevant qa question).
    - exact (Hit eq_refl).
    - now exists None. }
  unfold retrieve_from. fold qa.
  split; [ | split; [ | split; [ | split ] ] ].
  - intros text Hit Ha. apply answers_truthy in Ha as [E T].
    rewrite Hit, E. cbn [bind]. now rewrite T.
  - intros text Hit Hty Ha. apply answers_truthy in Ha as [E T].
    destruct (Hskip Hit) as [a [-> Tf]].
    cbn [bind]. rewrite Tf, Hty, E. cbn [String.eqb Ascii.eqb Bool.eqb bind].
    now rewrite T.
  - intros text Hit Hstaff Ha. apply answers_truthy in Ha as [E T].
    destruct (Hskip Hit) as [a [-> Tf]].
    cbn [bind]. rewrite Tf.
    destruct (String.eqb_spec (type qa) "person_query") as [Hty | _].
    + destruct (Hstaff Hty) as [a2 [-> T2]]. cbn [bind].
      rewrite T2, E. cbn [bind]. now rewrite T.
    + cbn [bind truthy_answer truthy_opt]. rewrite E. cbn [bind].
      now rewrite T.
  - intros e Hit E. now rewrite Hit, E.
  - intros e Hit Hty E.
    destruct (Hskip Hit) as [a [-> Tf]].
    cbn [bind]. rewrite Tf, Hty, E. reflexivity.
Qed.

End StrategyOrder.

Lemma first_answer_wins_witness :
  retrieve_from (View sample_staff (JInt 7) JNull) university_dean_question =
    Ok (Some "Kwame Mensah is the Dean of Engineering at UENR. ",
        "STAFF_JSON", false) /\
  _search_academic_info (View sample_staff (JInt 7) JNull)
    (_understand_question university_dean_question) = Raise AttributeError /\
  retrieve_from (View nameless_staff sample_guide JNull)
    university_dean_question = Raise AttributeError.
Proof.
  destruct (first_answer_wins (View sample_staff (JInt 7) JNull)
              university_dean_question) as [_ [Hstaff _]].
  destruct (first_answer_wins (View nameless_staff sample_guide JNull)
              university_dean_question) as [_ [_ [_ [_ Hraise]]]].
  split; [ | split; [ reflexivity | ] ].
  - apply Hstaff.
    + intros H. cbv in H. discriminate H.
    + reflexivity.
    + split; [ reflexivity | discriminate ].
  - apply Hraise.
    + intros H. cbv in H. discriminate H.
    + reflexivity.
    + reflexivity.
Defined.

(** X18: the test for the department profile is substring containment:
    a question without person keyword whose lower-cased text contains the
    letters "it" anywhere, also inside a word such as "university", gets
    the target department "it" when it is a department query and the
    target program "information technology" when it is an academic query,
    and in both cases the department profile is tried first. *)
Theorem it_substring_selects_profile (question : string) :
  any_in person_keywords (lower question) = false ->
  contains "it" (lower question) = true ->
  any_in ["department"; "school"; "faculty"] (lower question) = true \/
  any_in ["course"; "program"; "degree"; "study"; "bsc"; "diploma"]
         (lower question) = true ->
  (target_department (_understand_question question) = Some "it" \/
   target_program (_understand_question question) =
     Some "information technology") /\
  it_relevant (_understand_question question) question = true.
Proof.
  intros Hperson Hit Hrule. unfold it_relevant, _understand_question.
  rewrite Hperson, Hit.
  destruct (any_in ["department"; "school"; "faculty"] (lower question)).
  - cbn. auto.
  - destruct Hrule as [Hrule | Hrule]; [ discriminate | ].
    rewrite Hrule. cbn.
    split; [ now right | reflexivity ].
Qed.

Lemma it_substring_selects_profile_witness :
  contains " it " (lower university_question) = false /\
  contains "university" (lower university_question) = true /\
  target_department (_understand_question university_question) = Some "it" /\
  it_relevant (_understand_question university_question) university_question
  = true.
Proof.
  split; [ reflexivity | split; [ reflexivity | ] ].
  destruct (it_substring_selects_profile university_question
              eq_refl eq_refl (or_introl eq_refl)) as [_ Hrel].
  split; [ reflexivity | exact Hrel ].
Defined.

(* ================================================================== *)
(** ** The sentence about a staff record *)
(* ================================================================== *)

Section StaffSentence.

Lemma begins_refl (a : string) : begins a a.
Proof.
  exists EmptyString. induction a as [| c a IH]; cbn; [ reflexivity | ].
  now rewrite <- IH.
Qed.

Lemma begins_append (a t x : string) : begins a t -> begins a (t ++ x).
Proof.
  intros [rest ->]. exists (rest ++ x)%string. apply append_assoc.
Qed.

Lemma begins_if (a t x : string) (c : bool) :
  begins a t -> begins a (if c then (t ++ x)%string else t).
Proof.
  intros H. destruct c; [ now apply begins_append | exact H ].
Qed.

(** X19: whenever the staff sentence is produced, the record is a dict
    and the sentence begins with "<name> is the <position> at UENR. ",
    where a name or position that the record does not hold is printed as
    None. *)
Theorem staff_sentence_begins_with_name (staff : json) (text : string) :
  _format_staff_response staff = Ok (Some text) ->
  exists fields,
    staff = JObj fields /\
    begins (str (value_of fields "name") ++ " is the " ++
            str (value_of fields "current_position") ++ " at UENR. ")
           text.
Proof.
  unfold _format_staff_response.
  destruct (truthy staff); cbn [negb]; [ | discriminate ].
  destruct staff as [| | | | | | fields]; try discriminate.
  intros H. exists fields. split; [ reflexivity | ].
  unfold get, get_or in H. cbn [bind] in H. fold (value_of fields "name") in H.
  fold (value_of fields "current_position") in H.
  set (start := (str (value_of fields "name") ++ " is the " ++
                 str (value_of fields "current_position") ++ " at UENR. ")%string)
    in *.
  assert (Hb : forall t, begins start t ->
               forall r, Ok (Some t) = Ok (Some r) -> begins start r).
  { intros t Ht r [= <-]. exact Ht. }
  destruct (truthy _) in H.
  - destruct (len _) as [n |] in H; cbn [bind] in H; [ | discriminate ].
    destruct (0 <? n) in H.
    + destruct (getitem0 _) as [first |] in H; cbn [bind] in H;
        [ | discriminate ].
      revert H. apply Hb.
      apply begins_if. apply begins_append.
      repeat apply begins_if. apply begins_refl.
    + revert H. apply Hb. repeat apply begins_if. apply begins_refl.
  - revert H. apply Hb. repeat apply begins_if. apply begins_refl.
Qed.

Lemma staff_sentence_begins_with_name_witness :
  _format_staff_response unnamed_lecturer =
    Ok (Some "None is the Lecturer at UENR. ") /\
  exists fields,
    unnamed_lecturer = JObj fields /\
    begins (str (value_of fields "name") ++ " is the " ++
            str (value_of fields "current_position") ++ " at UENR. ")
           "None is the Lecturer at UENR. ".
Proof.
  split; [ reflexivity | ].
  exact (staff_sentence_begins_with_name unnamed_lecturer
           "None is the Lecturer at UENR. " eq_refl).
Defined.

End StaffSentence.


(* ================================================================== *)
(** ** Grade bands and the saving of academic records *)
(* ================================================================== *)

Section GradeBands.

Import main.

Lemma best_of_step (seen : list GPA) (best : option GPA) (band : GPA) :
  best_of seen best ->
  best_of (seen ++ [band])
    (match best with
     | None => Some band
     | Some b => if higher b band then Some band else Some b
     end).
Proof.
  destruct best as [b |]; cbn [best_of].
  - intros [Hin Hmax]. unfold higher.
    destruct (upper_bound b) as [hi |] eqn:Hb.
    + destruct (upper_bound band) as [hi' |] eqn:Hband.
      * destruct (Z.ltb_spec hi hi') as [Hlt | Hge].
        -- split; [ apply in_or_app; right; now left | ].
           intros other x y Ho Hx Hy. rewrite Hband in Hx.
           injection Hx as <-. apply in_app_or in Ho as [Ho | [<- | []]].
           ++ specialize (Hmax other hi y Ho eq_refl Hy). lia.
           ++ rewrite Hband in Hy. injection Hy as <-. lia.
        -- split; [ apply in_or_app; now left | ].
           intros other x y Ho Hx Hy. rewrite Hb in Hx. injection Hx as <-.
           apply in_app_or in Ho as [Ho | [<- | []]].
           ++ exact (Hmax other hi y Ho eq_refl Hy).
           ++ rewrite Hband in Hy. injection Hy as <-. lia.
      * split; [ apply in_or_app; now left | ].
        intros other x y Ho Hx Hy. rewrite Hb in Hx. injection Hx as <-.
        apply in_app_or in Ho as [Ho | [<- | []]].
        -- exact (Hmax other hi y Ho eq_refl Hy).
        -- rewrite Hband in Hy. discriminate.
    + split; [ apply in_or_app; now left | ].
      intros other x y Ho Hx. rewrite Hb in Hx. discriminate.
  - intros ->. cbn [app]. split; [ now left | ].
    intros other x y [<- | []] Hx Hy. rewrite Hx in Hy.
    injection Hy as <-. lia.
Qed.

Lemma first_by_upper_bound_loop (rows seen : list GPA) (best : option GPA) :
  best_of seen best ->
  best_of (seen ++ rows)
    (fold_left
       (fun best band =>
          match best with
          | None => Some band
          | Some b => if higher b band then Some band else Some b
          end)
       rows best).
Proof.
  revert seen best. induction rows as [| band rows IH]; intros seen best H.
  - now rewrite app_nil_r.
  - cbn [fold_left].
    replace (seen ++ band :: rows)%list with ((seen ++ [band]) ++ rows)%list
      by (now rewrite <- app_assoc).
    apply IH. now apply best_of_step.
Qed.

Lemma first_by_upper_bound_respects : respects_ordering first_by_upper_bound.
Proof.
  intros rows. exact (first_by_upper_bound_loop rows [] None eq_refl).
Qed.

Lemma filter_nil_none {A : Type} (p : A -> bool) (l : list A) :
  (forall x, In x l -> p x = false) -> filter p l = [].
Proof.
  induction l as [| x l IH]; intros H; [ reflexivity | ].
  cbn [filter]. rewrite (H x (or_introl eq_refl)).
  apply IH. intros y Hy. apply H. now right.
Qed.

(** Up to the last statement, [save] returns with a record that [graded]
    describes, unless the band query raises. *)
Lemma save_reaches_the_write (d : database) (table : list GPA)
    (self : AcademicRecord) :
  respects_ordering (first d) ->
  (forall score, raw_score self = Some score -> filter_error d score = None) ->
  exists candidate,
    graded table self candidate /\
    save d table self = Model_save d candidate.
Proof.
  intros Hfirst Hquery. unfold save, graded.
  destruct (raw_score self) as [score |].
  - rewrite (Hquery score eq_refl).
    pose proof (Hfirst (objects_filter table score)) as H.
    destruct (first d (objects_filter table score)) as [band |].
    + destruct H as [Hband Hmax]. unfold objects_filter in Hband, Hmax.
      apply filter_In in Hband as [Hb1 Hb2].
      exists (set_band self band). split; [ | reflexivity ].
      right. exists band. repeat split; auto.
      intros other hi hi' Ho Hco. apply Hmax. apply filter_In. auto.
    + exists self. split; [ | reflexivity ].
      left. split; [ | reflexivity ].
      intros band Hin.
      destruct (contains_score score band) eqn:Hc; [ | reflexivity ].
      assert (Hc' : In band (objects_filter table score))
        by (apply filter_In; auto).
      rewrite H in Hc'. destruct Hc'.
  - exists self. split; reflexivity.
Qed.

(** X20: [AcademicRecord.save], for any table of bands and any database.
    When the band query raises for the score, the exception leaves the
    method and nothing is written.  Otherwise the last statement is
    reached with a candidate row: the record as it is when it has no raw
    score or its score lies in no band with both bounds set, and else the
    record with a band of the table that contains the score and whose
    upper bound no other containing band exceeds, with that band's letter
    grade and grade point, and course, year, semester and score kept.
    The candidate is written when its grade point has at most three
    digits and the database takes the row; otherwise the method raises
    and nothing is written.  Whatever is written is such a candidate. *)
Theorem save_assigns_a_containing_band
    (d : database) (table : list GPA) (self : AcademicRecord) :
  respects_ordering (first d) ->
  (forall score e,
     raw_score self = Some score ->
     filter_error d score = Some e ->
     save d table self = Raise e) /\
  ((forall score,
      raw_score self = Some score -> filter_error d score = None) ->
   exists candidate,
     graded table self candidate /\
     (fits_digits grade_point_max_digits (record_grade_point candidate)
        = true ->
      save_error d candidate = None ->
      save d table self = Ok candidate) /\
     (fits_digits grade_point_max_digits (record_grade_point candidate)
        = false ->
      save d table self = Raise (digits_error d)) /\
     (forall e,
        fits_digits grade_point_max_digits (record_grade_point candidate)
          = true ->
        save_error d candidate = Some e ->
        save d table self = Raise e)) /\
  (forall written,
     save d table self = Ok written ->
     graded table self written /\
     fits_digits grade_point_max_digits (record_grade_point written) = true /\
     save_error d written = None).
Proof.
  intros Hfirst. split; [ | split ].
  - intros score e Hscore Hquery. unfold save.
    rewrite Hscore, Hquery. reflexivity.
  - intros Hquery.
    destruct (save_reaches_the_write d table self Hfirst Hquery)
      as [candidate [Hgraded Hsave]].
    exists candidate. split; [ exact Hgraded | ].
    rewrite Hsave. unfold Model_save.
    split; [ | split ].
    + intros Hfits Hrow. now rewrite Hfits, Hrow.
    + intros Hfits. now rewrite Hfits.
    + intros e Hfits Hrow. now rewrite Hfits, Hrow.
  - intros written Hwritten.
    assert (Hquery : forall score,
               raw_score self = Some score -> filter_error d score = None).
    { intros score Hscore. unfold save in Hwritten. rewrite Hscore in Hwritten.
      destruct (filter_error d score); [ discriminate | reflexivity ]. }
    destruct (save_reaches_the_write d table self Hfirst Hquery)
      as [candidate [Hgraded Hsave]].
    rewrite Hsave in Hwritten. unfold Model_save in Hwritten.
    destruct (fits_digits _ _) eqn:Hfits; [ | discriminate ].
    destruct (save_error d candidate) eqn:Hrow; [ discriminate | ].
    injection Hwritten as <-. auto.
Qed.

Lemma save_assigns_a_containing_band_witness :
  respects_ordering (first sample_database) /\
  save sample_database overlapping_bands (scored_record None) =
    Ok (scored_record None) /\
  save sample_database overlapping_bands (scored_record (Some 20%Z)) =
    Ok (scored_record (Some 20%Z)) /\
  (graded overlapping_bands (scored_record (Some 55%Z))
     (Record_ "CS 101" "2023/2024" "Harmattan" (Some 55%Z)
        (Some (gpa_data.band 50 100 "M" 300 "Merit")) (Some "M")
        (Some 300%Z)) /\
   save_error sample_database
     (Record_ "CS 101" "2023/2024" "Harmattan" (Some 55%Z)
        (Some (gpa_data.band 50 100 "M" 300 "Merit")) (Some "M")
        (Some 300%Z)) = None) /\
  save sample_database overlapping_bands
    (scored_record (Some (2 ^ 63)%Z)) = Raise OverflowError /\
  save sample_database ten_point_band (scored_record (Some 55%Z)) =
    Raise InvalidOperation.
Proof.
  pose proof first_by_upper_bound_respects as Hfirst.
  split; [ exact Hfirst | ].
  split; [ reflexivity | ].
  split; [ reflexivity | ].
  split.
  { destruct (save_assigns_a_containing_band sample_database
                overlapping_bands (scored_record (Some 55%Z)) Hfirst)
      as [_ [_ Hwritten]].
    destruct (Hwritten _ eq_refl) as [Hgraded [_ Hrow]].
    split; [ exact Hgraded | exact Hrow ]. }
  split.
  { destruct (save_assigns_a_containing_band sample_database
                overlapping_bands (scored_record (Some (2 ^ 63)%Z)) Hfirst)
      as [Hquery _].
    exact (Hquery (2 ^ 63)%Z OverflowError eq_refl eq_refl). }
  reflexivity.
Defined.

End GradeBands.

Section SeededBands.

Import main.

Variable table : list GPA.
Hypothesis seeded : grades_percent table = true.

Lemma in_percent_scores (score : Z) :
  (0 <= score <= 100)%Z -> In score percent_scores.
Proof.
  intros H. unfold percent_scores.
  replace score with (Z.of_nat (Z.to_nat score)) by lia.
  apply in_map. apply in_seq. lia.
Qed.

Lemma seeded_one_band (score : Z) :
  (0 <= score <= 100)%Z ->
  exists band, objects_filter table score = [band].
Proof.
  intros H. unfold grades_percent in seeded.
  apply andb_prop in seeded as [H1 _]. apply andb_prop in H1 as [H1 _].
  unfold one_band_each in H1. rewrite forallb_forall in H1.
  specialize (H1 score (in_percent_scores score H)).
  apply Nat.eqb_eq in H1.
  destruct (objects_filter table score) as [| band [| ? ?]];
    try discriminate. now exists band.
Qed.

Lemma seeded_outside (score : Z) :
  (score < 0 \/ 100 < score)%Z -> objects_filter table score = [].
Proof.
  intros H. unfold grades_percent in seeded.
  apply andb_prop in seeded as [H1 _]. apply andb_prop in H1 as [_ H2].
  unfold within_percent in H2. rewrite forallb_forall in H2.
  apply filter_nil_none. intros band Hin. specialize (H2 band Hin).
  unfold contains_score.
  destruct (lower_bound band) as [lo |]; [ | reflexivity ].
  destruct (upper_bound band) as [hi |]; [ | reflexivity ].
  apply andb_prop in H2 as [Hlo Hhi].
  apply Z.leb_le in Hlo. apply Z.leb_le in Hhi.
  destruct (Z.leb_spec lo score); destruct (Z.leb_spec score hi);
    cbn; try reflexivity; lia.
Qed.

Lemma seeded_next (score : Z) :
  (0 <= score < 100)%Z ->
  (point_of table score <= point_of table (score + 1))%Z.
Proof.
  intros H. unfold grades_percent in seeded.
  apply andb_prop in seeded as [_ H3].
  unfold points_increase in H3. rewrite forallb_forall in H3.
  apply Z.leb_le. apply H3. unfold percent_steps.
  replace score with (Z.of_nat (Z.to_nat score)) by lia.
  apply in_map. apply in_seq. lia.
Qed.

Lemma seeded_monotone (n : nat) (score : Z) :
  (0 <= score)%Z -> (score + Z.of_nat n <= 100)%Z ->
  (point_of table score <= point_of table (score + Z.of_nat n))%Z.
Proof.
  intros Hlo. induction n as [| n IH]; intros Hhi.
  - replace (score + Z.of_nat 0)%Z with score by lia. lia.
  - replace (score + Z.of_nat (S n))%Z with (score + Z.of_nat n + 1)%Z by lia.
    pose proof (seeded_next (score + Z.of_nat n)%Z) as Hn.
    assert (IH' := IH ltac:(lia)). lia.
Qed.

End SeededBands.

Lemma handles_grade_percent (old : list main.GPA) :
  grades_percent (gpa_data.handle old) = true /\
  grades_percent (acadamic.handle old) = true.
Proof.
  split; vm_compute; reflexivity.
Qed.

Lemma handles_fit_digits (old : list main.GPA) :
  forallb (fun band =>
             main.fits_digits main.grade_point_max_digits
               (main.grade_point band))
          (gpa_data.handle old) = true /\
  forallb (fun band =>
             main.fits_digits main.grade_point_max_digits
               (main.grade_point band))
          (acadamic.handle old) = true.
Proof.
  split; vm_compute; reflexivity.
Qed.

(** X21: after either seeding command the table holds the eight bands,
    whatever it held before.  For a record saved against it whose score
    the band query takes: when the score is between 0 and 100, exactly one
    band holds it (so the order of the database plays no part), the grade
    point of that band has at most three digits, and the record is
    written with that band, its letter grade and its grade point unless
    the database refuses the row; when the score is outside that range,
    the record goes to the write as it is.  A higher score never gets a
    lower grade point. *)
Theorem seeded_bands_grade_every_score
    (d : main.database) (old table : list main.GPA)
    (self : main.AcademicRecord) (score : Z) :
  main.respects_ordering (main.first d) ->
  table = gpa_data.handle old \/ table = acadamic.handle old ->
  main.raw_score self = Some score ->
  main.filter_error d score = None ->
  ((0 <= score <= 100)%Z ->
   exists band,
     main.objects_filter table score = [band] /\
     main.fits_digits main.grade_point_max_digits (main.grade_point band)
       = true /\
     main.save d table self =
     match main.save_error d (main.set_band self band) with
     | Some e => Raise e
     | None => Ok (main.set_band self band)
     end) /\
  ((score < 0 \/ 100 < score)%Z ->
   main.save d table self = main.Model_save d self) /\
  (forall low high,
     (0 <= low <= high)%Z -> (high <= 100)%Z ->
     (point_of table low <= point_of table high)%Z).
Proof.
  intros Hfirst Htable Hscore Hquery.
  assert (Hseeded : grades_percent table = true).
  { destruct (handles_grade_percent old) as [H1 H2].
    destruct Htable as [-> | ->]; assumption. }
  assert (Hdigits : forall band,
             In band table ->
             main.fits_digits main.grade_point_max_digits
               (main.grade_point band) = true).
  { destruct (handles_fit_digits old) as [H1 H2].
    intros band Hin.
    destruct Htable as [-> | ->];
      [ rewrite forallb_forall in H1; now apply H1
      | rewrite forallb_forall in H2; now apply H2 ]. }
  split; [ | split ].
  - intros Hrange.
    destruct (seeded_one_band table Hseeded score Hrange) as [band Hband].
    assert (Hin : In band table).
    { assert (H : In band (main.objects_filter table score))
        by (rewrite Hband; now left).
      unfold main.objects_filter in H. now apply filter_In in H. }
    exists band. split; [ exact Hband | ].
    split; [ exact (Hdigits band Hin) | ].
    unfold main.save. rewrite Hscore, Hquery, Hband.
    pose proof (Hfirst [band]) as H.
    destruct (main.first d [band]) as [b |]; [ | discriminate H ].
    destruct H as [[<- | []] _]. cbn [bind]. unfold main.Model_save.
    cbn [main.set_band main.record_grade_point].
    now rewrite (Hdigits band Hin).
  - intros Hout. unfold main.save. rewrite Hscore, Hquery.
    rewrite (seeded_outside table Hseeded score Hout).
    pose proof (Hfirst []) as H.
    destruct (main.first d []) as [b |]; [ destruct H as [[] _] | reflexivity ].
  - intros low high Hlow Hhigh.
    replace high with (low + Z.of_nat (Z.to_nat (high - low)))%Z by lia.
    apply (seeded_monotone table Hseeded); lia.
Qed.

Lemma seeded_bands_grade_every_score_witness :
  gpa_data.handle overlapping_bands = gpa_data.GPA_BANDS /\
  main.save sample_database (gpa_data.handle overlapping_bands)
    (scored_record (Some 72%Z)) =
  Ok (main.Record_ "CS 101" "2023/2024" "Harmattan" (Some 72%Z)
        (Some (gpa_data.band 70 74 "B" 300 "Good")) (Some "B")
        (Some 300%Z)) /\
  main.save sample_database (gpa_data.handle overlapping_bands)
    (scored_record (Some 101%Z)) = Ok (scored_record (Some 101%Z)).
Proof.
  destruct (seeded_bands_grade_every_score sample_database
              overlapping_bands (gpa_data.handle overlapping_bands)
              (scored_record (Some 101%Z)) 101%Z
              first_by_upper_bound_respects (or_introl eq_refl) eq_refl
              eq_refl)
    as [_ [Hout _]].
  split; [ reflexivity | ].
  split; [ reflexivity | ].
  rewrite Hout; [ reflexivity | right; lia ].
Defined.
